(** * hubspot_sync: the retrying clients, the paginated search, the event
      aggregator, the KPI delta query and the staged sheet writer.

    A shallow embedding of
      - utilities/hubspot_api.py   ([HubSpotConnector._request], [search_objects]),
      - utilities/mixpanel_api.py  ([MixpanelConnector._request]),
      - mixpanel_kpi.py            ([main]: aggregation loop and flush loop),
      - DB_kpi.py                  ([fetch_kpis]: the SQL text),
      - arr_sync.py                ([main]: staging loop and batch flush),
    followed by the properties proved about them. *)

From Stdlib Require Import ZArith QArith Qpower List Bool Lia.
From stdpp Require Import base option list gmap sets strings.

Open Scope string_scope.
Open Scope list_scope.
Open Scope Z_scope.

(* ===================================================================== *)
(** * Part I. The programs                                                *)
(* ===================================================================== *)

(** ** The [requests] library, as far as the connectors look at it *)

Module Requests.

(** One object of a CRM search result: [{"id": ..., "properties": {...}}]. *)
Record crm_object := {
  obj_id : option string;
  obj_properties : list (string * string)
}.

(** What [resp.json()] holds for a search page: [data.get("results", [])]
    and [data.get("paging", {}).get("next", {}).get("after")]. *)
Record page_body := {
  results : list crm_object;
  next_after : option string
}.

Record Response := {
  status_code : Z;
  headers : gmap string string;
  text : string;
  json : page_body
}.

(** What one call of [requests.request] / [session.request] does: it answers,
    or it raises a [requests.RequestException] (connection reset, timeout). *)
Inductive outcome :=
  | Answer (resp : Response)
  | RequestException (exc : string).

(** The exceptions that leave the connectors. *)
Inductive exn :=
  | RuntimeError (last_exc : option string)
  | HTTPError (resp : Response)
  | ValueError.

Inductive result :=
  | Return (resp : Response)
  | Raise (e : exn).

(** The effects of one [_request]: the arguments of [time.sleep], oldest
    first, and the number of calls of [requests.request]. *)
Record trace := {
  slept : list Q;
  calls : nat
}.

Definition no_trace : trace := {| slept := []; calls := 0 |}.

Definition called (tr : trace) : trace :=
  {| slept := slept tr; calls := S (calls tr) |}.

(** [time.sleep(delay)]: a negative delay raises [ValueError]. *)
Definition sleep (delay : Q) (tr : trace) : option trace :=
  if Qlt_le_dec delay 0 then None
  else Some {| slept := slept tr ++ [delay]; calls := calls tr |}.

(** Python truthiness of an optional string ([None] and [""] are falsy). *)
Definition truthy (s : option string) : bool :=
  match s with
  | Some s => negb (String.eqb s "")
  | None => false
  end.

(** [resp.raise_for_status()] raises for 4xx and 5xx. *)
Definition raises_for_status (resp : Response) : bool :=
  (400 <=? status_code resp) && (status_code resp <? 600).

(** [self.backoff_base ** attempt] *)
Definition backoff (backoff_base : Q) (attempt : nat) : Q :=
  (backoff_base ^ Z.of_nat attempt)%Q.

(** [float(retry_after) if retry_after else (self.backoff_base ** attempt)],
    with [retry_after = resp.headers.get("Retry-After")].  [float] is
    Python's conversion of the header text; [None] stands for its
    [ValueError]. *)
Definition retry_delay (float : string -> option Q) (backoff_base : Q)
    (resp : Response) (attempt : nat) : option Q :=
  let retry_after := headers resp !! "Retry-After" in
  if truthy retry_after
  then match retry_after with Some s => float s | None => None end
  else Some (backoff backoff_base attempt).

(** [range(self.max_retries + 1)] *)
Definition attempts (max_retries : Z) : list nat :=
  seq 0 (Z.to_nat (max_retries + 1)).

(** The defaults of both [__init__]s: [max_retries = 3],
    [backoff_base = 1.5]. *)
Definition DEFAULT_MAX_RETRIES : Z := 3.
Definition DEFAULT_BACKOFF_BASE : Q := 3 # 2.

(** [float] on texts made of decimal digits only, which is all the concrete
    runs below need; any other text is refused here. *)
Fixpoint digits_value (s : string) (acc : Z) : option Z :=
  match s with
  | EmptyString => Some acc
  | String c s =>
      let n := Z.of_nat (Ascii.nat_of_ascii c) in
      if (48 <=? n) && (n <=? 57) then digits_value s (10 * acc + (n - 48))
      else None
  end.

Definition float_of_digits (s : string) : option Q :=
  match s with
  | EmptyString => None
  | _ => option_map inject_Z (digits_value s 0)
  end.

End Requests.

Import Requests.

(** ** utilities/hubspot_api.py: [HubSpotConnector._request] *)

Module HubSpotConnector.

Section Request.

(** Python's [float] on a header value. *)
Variable float : string -> option Q.

(** [self.max_retries], [self.backoff_base]. *)
Variable max_retries : Z.
Variable backoff_base : Q.

(** The answer of the transport to the call made at each attempt. *)
Variable send : nat -> outcome.

(** The body of the [for] loop and the final [raise RuntimeError]. *)
Fixpoint request_loop (todo : list nat) (last_exc : option string) (tr : trace)
  : result * trace :=
  match todo with
  | [] => (Raise (RuntimeError last_exc), tr)
  | attempt :: rest =>
      let tr := called tr in
      match send attempt with
      | Answer resp =>
          if (status_code resp =? 429) && (Z.of_nat attempt <? max_retries) then
            match retry_delay float backoff_base resp attempt with
            | None => (Raise ValueError, tr)
            | Some delay =>
                match sleep delay tr with
                | None => (Raise ValueError, tr)
                | Some tr => request_loop rest last_exc tr
                end
            end
          else (Return resp, tr)
      | RequestException exc =>
          if Z.of_nat attempt <? max_retries then
            match sleep (backoff backoff_base attempt) tr with
            | None => (Raise ValueError, tr)
            | Some tr => request_loop rest (Some exc) tr
            end
          else (Raise (RuntimeError (Some exc)), tr)
      end
  end.

Definition _request : result * trace :=
  request_loop (attempts max_retries) None no_trace.

End Request.

End HubSpotConnector.

(** ** utilities/mixpanel_api.py: [MixpanelConnector._request] *)

Module MixpanelConnector.

Section Request.

Variable float : string -> option Q.
Variable max_retries : Z.
Variable backoff_base : Q.
Variable send : nat -> outcome.

(** [resp.raise_for_status()] turns a 4xx or 5xx answer into
    [requests.HTTPError]; the first handler retries it when it is a 429 with
    budget left, and re-raises it otherwise. *)
Fixpoint request_loop (todo : list nat) (last_exc : option string) (tr : trace)
  : result * trace :=
  match todo with
  | [] => (Raise (RuntimeError last_exc), tr)
  | attempt :: rest =>
      let tr := called tr in
      match send attempt with
      | Answer resp =>
          if raises_for_status resp then
            if (status_code resp =? 429) && (Z.of_nat attempt <? max_retries) then
              match retry_delay float backoff_base resp attempt with
              | None => (Raise ValueError, tr)
              | Some delay =>
                  match sleep delay tr with
                  | None => (Raise ValueError, tr)
                  | Some tr => request_loop rest last_exc tr
                  end
              end
            else (Raise (HTTPError resp), tr)
          else (Return resp, tr)
      | RequestException exc =>
          if Z.of_nat attempt <? max_retries then
            match sleep (backoff backoff_base attempt) tr with
            | None => (Raise ValueError, tr)
            | Some tr => request_loop rest (Some exc) tr
            end
          else (Raise (RuntimeError (Some exc)), tr)
      end
  end.

Definition _request : result * trace :=
  request_loop (attempts max_retries) None no_trace.

End Request.

End MixpanelConnector.

(** ** utilities/hubspot_api.py: [HubSpotConnector.search_objects] *)

Module HubSpotSearch.

(** The lines the search writes to the logger. *)
Inductive log_record :=
  | FailedToSearch (object_type : string) (status : Z) (response_text : string)
  | Retrieved (n : nat) (object_type : string) (total_so_far : nat).

(** The value [search_objects] returns: the dict [{"results": all_results}]. *)
Record results_dict := { dict_results : list crm_object }.

Inductive search_outcome :=
  | Returned (d : results_dict)
  | Raised (e : exn).

(** What a search leaves behind besides its value: the log lines and, for
    each call of [self._request] it made, the [after] token of the payload
    ([None] when the payload has no ["after"] key). *)
Record search_effects := {
  log : list log_record;
  requested : list (option string)
}.

Section Search.

Variable object_type : string.

(** [filter_groups], of which only emptiness is inspected. *)
Variable filter_groups : list string.

(** The outcome of the n-th call of [self._request] made by this search. *)
Variable request : nat -> result.

(** The [while True] loop; [fuel] bounds the number of pages requested. *)
Fixpoint search_loop (fuel : nat) (nth_call : nat) (after : option string)
    (all_results : list crm_object) (eff : search_effects)
  : option (search_outcome * search_effects) :=
  match fuel with
  | O => None
  | S fuel =>
      let sent := if truthy after then after else None in
      let eff := {| log := log eff; requested := requested eff ++ [sent] |} in
      match request nth_call with
      | Raise e => Some (Raised e, eff)
      | Return resp =>
          if negb (status_code resp =? 200) then
            let eff := {| log := log eff ++
                            [FailedToSearch object_type (status_code resp) (text resp)];
                          requested := requested eff |} in
            Some (Returned {| dict_results := all_results |}, eff)
          else
            let data := json resp in
            let all_results := all_results ++ results data in
            let eff := {| log := log eff ++
                            [Retrieved (length (results data)) object_type
                               (length all_results)];
                          requested := requested eff |} in
            let after := next_after data in
            if truthy after
            then search_loop fuel (S nth_call) after all_results eff
            else Some (Returned {| dict_results := all_results |}, eff)
      end
  end.

Definition search_objects (fuel : nat) : option (search_outcome * search_effects) :=
  match filter_groups with
  | [] => Some (Raised ValueError, {| log := []; requested := [] |})
  | _ => search_loop fuel 0 None [] {| log := []; requested := [] |}
  end.

End Search.

End HubSpotSearch.

(** ** Python dicts: insertion-ordered, keyed by strings *)

Module PyDict.

Section Dict.

Context {V : Type}.

(** [d.get(k)] *)
Fixpoint get (k : string) (d : list (string * V)) : option V :=
  match d with
  | [] => None
  | (k', v) :: d => if decide (k' = k) then Some v else get k d
  end.

(** [d[k] = v]: an existing key keeps its place, a new one goes last. *)
Fixpoint set (k : string) (v : V) (d : list (string * V)) : list (string * V) :=
  match d with
  | [] => [(k, v)]
  | (k', v') :: d =>
      if decide (k' = k) then (k', v) :: d else (k', v') :: set k v d
  end.

(** [{k: v for k, v in kvs}] *)
Definition of_items (kvs : list (string * V)) : list (string * V) :=
  fold_left (fun d kv => set (fst kv) (snd kv) d) kvs [].

End Dict.

End PyDict.

(** ** mixpanel_kpi.py *)

Module MixpanelKpi.

(** A value of [MIXPANEL_EVENT_TO_HUBSPOT_PROPERTY]: a property name, or a
    dict from URL keyword to property name. *)
Inductive mapping :=
  | DirectCount (hubspot_property : string)
  | KeywordRules (rules : list (string * string)).

Definition MIXPANEL_EVENT_TO_HUBSPOT_PROPERTY : list (string * mapping) :=
  [ ("log-entry - create", DirectCount "manual_log_entries_past_90_days");
    ("api-call", DirectCount "api_calls_past_90_days");
    ("bulk-import - ok", DirectCount "bulk_imports_requested_past_90_days");
    ("products - ok", DirectCount "bulk_imports_uploaded_past_90_days");
    ("Session start", DirectCount "user_sessions_past_90_days");
    ("page-view", KeywordRules [("dashboard", "dashboard_views_past_90_days")]) ].

(** One record of the export stream.  Property values are JSON strings or
    absent; [str] of a string is the string. *)
Record Properties := {
  insert_id : option string;
  organization_id : option string;
  url : option string
}.

Record Event := {
  event : option string;
  properties : Properties
}.

(** [{"urls": [], "count": 0}] *)
Record entry := {
  urls : list string;
  count : Z
}.

Definition fresh_entry : entry := {| urls := []; count := 0 |}.

Record agg_state := {
  aggregated : list (string * list (string * entry));
  seen_insert_ids : gmap string (gset string)
}.

(** The two comprehensions that build [aggregated] and [seen_insert_ids]. *)
Definition init_state (event_names org_ids : list string) : agg_state :=
  {| aggregated :=
       PyDict.of_items
         (map (fun event =>
                 (event, PyDict.of_items (map (fun org_id => (org_id, fresh_entry)) org_ids)))
              event_names);
     seen_insert_ids :=
       list_to_map (map (fun event => (event, (∅ : gset string))) event_names) |}.

(** [cozero_org_id in (None, "", "UNKNOWN")] *)
Definition unattributable (org : option string) : bool :=
  match org with
  | None => true
  | Some s => bool_decide (s = "") || bool_decide (s = "UNKNOWN")
  end.

(** [entry.setdefault("urls", []).append(url)] when [url] is truthy, then
    [entry["count"] = int(entry.get("count", 0)) + 1]. *)
Definition bump (u : option string) (e : entry) : entry :=
  {| urls := match u with
             | Some s => if truthy u then urls e ++ [s] else urls e
             | None => urls e
             end;
     count := count e + 1 |}.

(** The body of [for event in event_stream]. *)
Definition process_event (st : agg_state) (ev : Event) : agg_state :=
  match event ev with
  | None => st
  | Some event_name =>
      match PyDict.get event_name (aggregated st) with
      | None => st
      | Some entries =>
          let seen := seen_insert_ids st !!! event_name in
          let id := insert_id (properties ev) in
          let duplicate :=
            match id with
            | Some i => truthy id && bool_decide (i ∈ seen)
            | None => false
            end in
          if duplicate then st
          else
            let seen_ids :=
              match id with
              | Some i =>
                  if truthy id
                  then <[event_name := {[i]} ∪ seen]> (seen_insert_ids st)
                  else seen_insert_ids st
              | None => seen_insert_ids st
              end in
            match organization_id (properties ev) with
            | Some org_id_str =>
                if unattributable (Some org_id_str)
                then {| aggregated := aggregated st; seen_insert_ids := seen_ids |}
                else
                  let e := default fresh_entry (PyDict.get org_id_str entries) in
                  let entries := PyDict.set org_id_str (bump (url (properties ev)) e) entries in
                  {| aggregated := PyDict.set event_name entries (aggregated st);
                     seen_insert_ids := seen_ids |}
            | None => {| aggregated := aggregated st; seen_insert_ids := seen_ids |}
            end
      end
  end.

Definition event_names : list string :=
  map fst MIXPANEL_EVENT_TO_HUBSPOT_PROPERTY.

(** The aggregation phase of [main]. *)
Definition aggregate (org_ids : list string) (event_stream : list Event) : agg_state :=
  fold_left process_event event_stream (init_state event_names org_ids).

(** [keyword in url] *)
Fixpoint contains (keyword s : string) : bool :=
  if String.prefix keyword s then true
  else match s with
       | EmptyString => false
       | String _ s' => contains keyword s'
       end.

(** [sum(1 for url in urls if keyword in url)] *)
Definition keyword_count (keyword : string) (urls : list string) : Z :=
  Z.of_nat (length (List.filter (contains keyword) urls)).

(** [property_updates], for one entry. *)
Definition property_updates (m : mapping) (e : entry) : list (string * Z) :=
  match m with
  | DirectCount hubspot_property => [(hubspot_property, count e)]
  | KeywordRules rules =>
      PyDict.of_items
        (map (fun rule => (snd rule, keyword_count (fst rule) (urls e))) rules)
  end.

(** What the flush does to the outside: the organisation ids it looked up
    with [hubcon.search_company] and the calls of
    [hubcon.update_company_properties], oldest first. *)
Record flush_state := {
  hubspot_cache : gmap string (option string);
  lookups : list string;
  updates : list (string * list (string * Z))
}.

Section Flush.

(** [hubcon.search_company({"organisation_id": org_id}, {}, 1)]: [None] when
    the call raises, else the ["results"] of the answer. *)
Variable search_company : string -> option (list crm_object).

Definition push (hubspot_org_id : option string) (pu : list (string * Z))
    (st : flush_state) : flush_state :=
  match hubspot_org_id with
  | Some h =>
      if truthy hubspot_org_id
      then {| hubspot_cache := hubspot_cache st; lookups := lookups st;
              updates := updates st ++ [(h, pu)] |}
      else st
  | None => st
  end.

(** The body of [for org_id, entry in entries.items()]. *)
Definition flush_entry (m : mapping) (st : flush_state) (item : string * entry)
  : flush_state :=
  let org_id := fst item in
  let pu := property_updates m (snd item) in
  match hubspot_cache st !! org_id with
  | Some hubspot_org_id => push hubspot_org_id pu st
  | None =>
      let st := {| hubspot_cache := hubspot_cache st;
                   lookups := lookups st ++ [org_id];
                   updates := updates st |} in
      match search_company org_id with
      | None =>
          {| hubspot_cache := <[org_id := None]> (hubspot_cache st);
             lookups := lookups st; updates := updates st |}
      | Some results =>
          let hubspot_org_id :=
            match results with
            | r :: _ => obj_id r
            | [] => None
            end in
          push hubspot_org_id pu
            {| hubspot_cache := <[org_id := hubspot_org_id]> (hubspot_cache st);
               lookups := lookups st; updates := updates st |}
      end
  end.

(** The body of [for event_name, mapping in ....items()]. *)
Definition flush_metric (agg : list (string * list (string * entry)))
    (st : flush_state) (item : string * mapping) : flush_state :=
  let entries := default [] (PyDict.get (fst item) agg) in
  fold_left (flush_entry (snd item)) entries st.

Definition flush (config : list (string * mapping))
    (agg : list (string * list (string * entry))) : flush_state :=
  fold_left (flush_metric agg) config
    {| hubspot_cache := ∅; lookups := []; updates := [] |}.

(** [main], from the known organisations and the exported events. *)
Definition main (org_ids : list string) (event_stream : list Event) : flush_state :=
  flush MIXPANEL_EVENT_TO_HUBSPOT_PROPERTY
    (aggregated (aggregate org_ids event_stream)).

End Flush.

End MixpanelKpi.

(** ** DB_kpi.py: the query of [fetch_kpis] *)

Module DBKpi.

(** A row of [business_review_kpis], with the columns the query reads. *)
Record kpi_row := {
  organization_id : string;
  organization_name : string;
  kpi : string;
  value : Z;
  run_timestamp : Z;
  accounting_year_parameter : Z
}.

Definition tracked_kpis : list string :=
  [ "Number of log entries";
    "Number of log entries created via bulk import" ].

Section Query.

(** The query parameter [today_minus_30] and [EXTRACT(YEAR FROM NOW())]. *)
Variable today_minus_30 : Z.
Variable year_now : Z.

(** The [WHERE] clause. *)
Definition in_window (r : kpi_row) : bool :=
  (today_minus_30 <? run_timestamp r)
  && (accounting_year_parameter r =? year_now)
  && bool_decide (kpi r ∈ tracked_kpis).

(** [PARTITION BY organization_id, kpi] *)
Definition same_partition (r r' : kpi_row) : bool :=
  bool_decide (organization_id r = organization_id r')
  && bool_decide (kpi r = kpi r').

(** [ROW_NUMBER() OVER (PARTITION BY organization_id, kpi ORDER BY key ASC)]
    of the row [r] that stands between [before] and [after] in the input:
    one more than the number of rows of its partition that sort before it.
    SQL leaves the order of rows with equal keys open; here they keep their
    input order. *)
Definition row_number (key : kpi_row -> Z) (before : list kpi_row)
    (r : kpi_row) (after : list kpi_row) : Z :=
  1 + Z.of_nat (length (List.filter
                          (fun r' => same_partition r r' && (key r' <=? key r)) before))
    + Z.of_nat (length (List.filter
                          (fun r' => same_partition r r' && (key r' <? key r)) after)).

(** [ORDER BY run_timestamp ASC] and [ORDER BY run_timestamp DESC]. *)
Definition asc (r : kpi_row) : Z := run_timestamp r.
Definition desc (r : kpi_row) : Z := - run_timestamp r.

(** A row of the CTE [kpi_window]. *)
Record window_row := {
  row : kpi_row;
  rn_asc : Z;
  rn_desc : Z
}.

Fixpoint number_rows (before rows : list kpi_row) : list window_row :=
  match rows with
  | [] => []
  | r :: after =>
      {| row := r;
         rn_asc := row_number asc before r after;
         rn_desc := row_number desc before r after |}
      :: number_rows (before ++ [r]) after
  end.

Definition kpi_window (business_review_kpis : list kpi_row) : list window_row :=
  number_rows [] (List.filter in_window business_review_kpis).

(** [MAX] over a column that may hold [NULL]s. *)
Definition sql_max (column : list (option Z)) : option Z :=
  fold_right
    (fun v acc =>
       match v, acc with
       | Some a, Some b => Some (Z.max a b)
       | Some a, None => Some a
       | None, _ => acc
       end)
    None column.

(** Subtraction with [NULL]. *)
Definition sql_sub (a b : option Z) : option Z :=
  match a, b with
  | Some a, Some b => Some (a - b)
  | _, _ => None
  end.

(** [GROUP BY organization_id, organization_name, kpi] *)
Definition group_key (w : window_row) : string * string * string :=
  (organization_id (row w), organization_name (row w), kpi (row w)).

Record delta_row := {
  d_organization_id : string;
  d_organization_name : string;
  d_kpi : string;
  first_value : option Z;
  last_value : option Z;
  delta : option Z
}.

(** [MAX(CASE WHEN rn = 1 THEN value END)] over one group. *)
Definition value_at_rank_1 (rn : window_row -> Z) (group : list window_row)
  : option Z :=
  sql_max (map (fun w => if rn w =? 1 then Some (value (row w)) else None) group).

Definition select_group (w : list window_row) (key : string * string * string)
  : delta_row :=
  let group := List.filter (fun x => bool_decide (group_key x = key)) w in
  {| d_organization_id := key.1.1;
     d_organization_name := key.1.2;
     d_kpi := key.2;
     first_value := value_at_rank_1 rn_asc group;
     last_value := value_at_rank_1 rn_desc group;
     delta := sql_sub (value_at_rank_1 rn_desc group) (value_at_rank_1 rn_asc group) |}.

Definition fetch_kpis (business_review_kpis : list kpi_row) : list delta_row :=
  let w := kpi_window business_review_kpis in
  map (select_group w) (remove_dups (map group_key w)).

End Query.

End DBKpi.

(** ** arr_sync.py: staging of the rows and the batch flush of [main] *)

Module ArrSync.

Definition BATCH_SIZE : nat := 200.

(** One element of [sheet_updates]: the range
    ["LineItem Import!A{row_index}:AG{row_index}"] and its row of cells. *)
Record sheet_update := {
  row_index : Z;
  row_values : list string
}.

(** What the HubSpot calls of the staging loop gave.  For an association:
    its ["id"] and the cells built from [get_line_item_by_id] ([None] when
    that call failed or its answer has no ["properties"]). *)
Record association := {
  line_item_id : option string;
  line_item_cells : option (list string)
}.

(** For a deal: [None] when [get_associations] failed, [Some None] when its
    answer has no ["results"], else the associations. *)
Record deal := {
  assoc_data : option (option (list association))
}.

(** [for assoc in assoc_results]; [None] is the [return] that aborts the job. *)
Fixpoint stage_line_items (assocs : list association) (row_idx : Z)
    (sheet_updates : list sheet_update) : option (Z * list sheet_update) :=
  match assocs with
  | [] => Some (row_idx, sheet_updates)
  | a :: assocs =>
      if negb (truthy (line_item_id a)) then
        stage_line_items assocs row_idx sheet_updates
      else
        match line_item_cells a with
        | None => None
        | Some cells =>
            stage_line_items assocs (row_idx + 1)
              (sheet_updates ++ [{| row_index := row_idx; row_values := cells |}])
        end
  end.

(** [for deal in active_deals.get("results", [])] *)
Fixpoint stage_deals (deals : list deal) (row_idx : Z)
    (sheet_updates : list sheet_update) : option (list sheet_update) :=
  match deals with
  | [] => Some sheet_updates
  | d :: deals =>
      match assoc_data d with
      | None => None
      | Some None => None
      | Some (Some assocs) =>
          match stage_line_items assocs row_idx sheet_updates with
          | None => None
          | Some (row_idx, sheet_updates) => stage_deals deals row_idx sheet_updates
          end
      end
  end.

(** The sheet: its rows of cells, and the API calls it received. *)
Inductive sheet_call :=
  | Clear
  | BatchUpdate (data : list sheet_update) (ok : bool).

Record sheet := {
  cells : gmap Z (list string);
  api_calls : list sheet_call
}.

Inductive log_record :=
  | JobAborted
  | Prepared (total_rows : nat)
  | StoppingSync (first_row last_row : Z)
  | SuccessfullyWrote (total_rows : nat)
  | NoLineItems.

Inductive flush_result :=
  | Completed
  | Stopped.

Section Flush.

(** Whether the sheet API accepts the [clear], and the n-th [batchUpdate]:
    [false] is the [HttpError] the connector turns into [False]. *)
Variable clear_ok : bool.
Variable update_ok : nat -> bool.

(** gsheet_api.py, [clear_selected_columns] on ["A2:AG"]; [main] ignores
    the value it returns. *)
Definition clear_selected_columns (s : sheet) : sheet :=
  {| cells := if clear_ok then filter (fun kv => kv.1 < 2) (cells s) else cells s;
     api_calls := api_calls s ++ [Clear] |}.

Definition write_rows (data : list sheet_update) (c : gmap Z (list string))
  : gmap Z (list string) :=
  fold_left (fun c u => <[row_index u := row_values u]> c) data c.

(** gsheet_api.py, [batch_update_values]: no call for empty [data]. *)
Definition batch_update_values (nth : nat) (data : list sheet_update) (s : sheet)
  : bool * sheet :=
  match data with
  | [] => (true, s)
  | _ =>
      let ok := update_ok nth in
      (ok, {| cells := if ok then write_rows data (cells s) else cells s;
              api_calls := api_calls s ++ [BatchUpdate data ok] |})
  end.

(** [range(0, total_rows, BATCH_SIZE)] *)
Definition starts (total_rows : nat) : list nat :=
  map (fun i => (i * BATCH_SIZE)%nat)
      (seq 0 ((total_rows + BATCH_SIZE - 1) / BATCH_SIZE)).

(** [sheet_updates[start : start + BATCH_SIZE]] *)
Definition chunk_at (sheet_updates : list sheet_update) (start : nat)
  : list sheet_update :=
  take BATCH_SIZE (drop start sheet_updates).

(** [for start in range(0, total_rows, BATCH_SIZE)], with the early [return]. *)
Fixpoint flush_chunks (todo : list nat) (nth : nat)
    (sheet_updates : list sheet_update) (s : sheet) (log : list log_record)
  : flush_result * sheet * list log_record :=
  match todo with
  | [] => (Completed, s, log ++ [SuccessfullyWrote (length sheet_updates)])
  | start :: todo =>
      let chunk := chunk_at sheet_updates start in
      let '(ok, s) := batch_update_values nth chunk s in
      if negb ok then
        let first_row := Z.of_nat start + 2 in
        let last_row := first_row + Z.of_nat (length chunk) - 1 in
        (Stopped, s, log ++ [StoppingSync first_row last_row])
      else flush_chunks todo (S nth) sheet_updates s log
  end.

(** [if sheet_updates: ... else: ...] *)
Definition write_sheet (sheet_updates : list sheet_update) (s : sheet)
  : flush_result * sheet * list log_record :=
  match sheet_updates with
  | [] => (Completed, s, [NoLineItems])
  | _ =>
      let s := clear_selected_columns s in
      let total_rows := length sheet_updates in
      flush_chunks (starts total_rows) 0 sheet_updates s [Prepared total_rows]
  end.

(** [main] up to the end of the sheet writes; what follows only reads the
    sheet ([batch_get_values]) and updates HubSpot. *)
Definition main (deals : list deal) (s : sheet)
  : flush_result * sheet * list log_record :=
  match stage_deals deals 2 [] with
  | None => (Stopped, s, [JobAborted])
  | Some sheet_updates => write_sheet sheet_updates s
  end.

End Flush.

End ArrSync.

(** ** arr_sync.py: the company updates at the end of [main] *)

Module ArrUpdate.

(** One call [hubspot.update_company_properties(str(company_id), properties)]. *)
Record update_call := {
  company_id : string;
  properties : list (string * string)
}.

(** What a call gives: a truthy result, a falsy one ([None] after a status
    other than 200), or an exception of [_request]. *)
Inductive update_result :=
  | Updated
  | Failed
  | Raises.

(** How the phase ends: the warning for missing data, the final count, the
    abort after a failed update of a company, or the exception. *)
Inductive outcome :=
  | NoCompanyArrData
  | Finished (updated_count : nat)
  | Aborted (company_id : string)
  | Raised.

Section Update.

(** The result of the n-th call of [update_company_properties]. *)
Variable update_company_properties : nat -> update_result.

(** [for row in value_ranges[0].get("values", [])[1:]] *)
Fixpoint update_rows (rows : list (list string)) (updated_count : nat)
    (calls : list update_call) : outcome * list update_call :=
  match rows with
  | [] => (Finished updated_count, calls)
  | row :: rows =>
      if (length row <? 4)%nat then update_rows rows updated_count calls
      else
        let company_id := nth 0 row "" in
        let arr_booked := nth 1 row "" in
        let nrr := nth 2 row "" in
        let weighted_nrr := nth 3 row "" in
        if negb (truthy (Some company_id)) then update_rows rows updated_count calls
        else
          let properties :=
            [ ("current_booked_arr", arr_booked);
              ("current_nrr__mom_", nrr);
              ("total_current_nrr__mom____weighted", weighted_nrr) ] in
          let call := {| company_id := company_id; properties := properties |} in
          match update_company_properties (length calls) with
          | Updated => update_rows rows (S updated_count) (calls ++ [call])
          | Failed => (Aborted company_id, calls ++ [call])
          | Raises => (Raised, calls ++ [call])
          end
  end.

(** The phase, from [company_list.get("valueRanges", [])]: each range with
    its ["values"], [None] when the key is absent. *)
Definition update_companies (value_ranges : list (option (list (list string))))
  : outcome * list update_call :=
  match value_ranges with
  | [] => (NoCompanyArrData, [])
  | None :: _ => (NoCompanyArrData, [])
  | Some [] :: _ => (NoCompanyArrData, [])
  | Some (_ :: rows) :: _ => update_rows rows 0 []
  end.

End Update.

End ArrUpdate.

(** ** utilities/hubspot_api.py: [update_object], [get_object] and
    [get_associations] *)

Module HubSpotObjects.

(** What the three methods give their caller: [resp.json()], [None], or an
    exception. *)
Inductive answer :=
  | Returned (value : option page_body)
  | Raised (e : exn).

Section Objects.

Variable float : string -> option Q.
Variable max_retries : Z.
Variable backoff_base : Q.
Variable send : nat -> outcome.

(** [if resp.status_code == 200: return resp.json()] ... [return None] *)
Definition get_object : answer * trace :=
  match HubSpotConnector._request float max_retries backoff_base send with
  | (Return resp, tr) =>
      if status_code resp =? 200
      then (Returned (Some (json resp)), tr)
      else (Returned None, tr)
  | (Raise e, tr) => (Raised e, tr)
  end.

Definition get_associations : answer * trace :=
  match HubSpotConnector._request float max_retries backoff_base send with
  | (Return resp, tr) =>
      if status_code resp =? 200
      then (Returned (Some (json resp)), tr)
      else (Returned None, tr)
  | (Raise e, tr) => (Raised e, tr)
  end.

(** [if not properties: raise ValueError(...)], before any request. *)
Definition update_object (properties : list (string * string)) : answer * trace :=
  match properties with
  | [] => (Raised ValueError, no_trace)
  | _ :: _ =>
      match HubSpotConnector._request float max_retries backoff_base send with
      | (Return resp, tr) =>
          if status_code resp =? 200
          then (Returned (Some (json resp)), tr)
          else (Returned None, tr)
      | (Raise e, tr) => (Raised e, tr)
      end
  end.

End Objects.

End HubSpotObjects.

(** ** DB_kpi.py: [main] *)

Module DBKpiMain.

(** [{"organization_name": org_name, "kpis": {}}] *)
Record org_data := {
  organization_name : string;
  kpis : list (string * option Z)
}.

(** The body of [for row in result]: the organisation gets its entry at its
    first row, with the name of that row; the delta of the row is stored
    under its KPI, over what an earlier row stored there. *)
Definition aggregate_row (aggregated_data : list (string * org_data))
    (row : DBKpi.delta_row) : list (string * org_data) :=
  let org_id := DBKpi.d_organization_id row in
  let data :=
    match PyDict.get org_id aggregated_data with
    | Some data => data
    | None => {| organization_name := DBKpi.d_organization_name row; kpis := [] |}
    end in
  PyDict.set org_id
    {| organization_name := organization_name data;
       kpis := PyDict.set (DBKpi.d_kpi row) (DBKpi.delta row) (kpis data) |}
    aggregated_data.

(** [for kpi_name, kpi_delta in data["kpis"].items()] *)
Definition properties_to_update (kpis : list (string * option Z))
  : list (string * option Z) :=
  fold_left
    (fun properties_to_update item =>
       if String.eqb (fst item) "Number of log entries"
       then PyDict.set "number_log_entries_past_30_days" (snd item)
              properties_to_update
       else if String.eqb (fst item) "Number of log entries created via bulk import"
       then PyDict.set "number_bulk_entries_past_30_days" (snd item)
              properties_to_update
       else properties_to_update)
    kpis [].

(** What [main] does to the outside, in order: the calls of
    [hubcon.search_company] and [hubcon.update_company_properties], and the
    lines printed where no update is made.  The line printed after an update
    is left out: it follows every update that returns. *)
Inductive event :=
  | SearchCompany (org_id : string)
  | NoCompanyFound (org_id : string)
  | UpdateCompanyProperties (hubspot_company_id : option string)
      (properties : list (string * option Z))
  | NoKpiValues (org_id : string).

(** [main] returns, or an exception of a HubSpot call ends it. *)
Inductive outcome :=
  | Completed
  | Raised.

Section Push.

(** [hubcon.search_company(filters={"organisation_id": org_id})]: [None]
    when the call raises, else the ["results"] of the answer. *)
Variable search_company : string -> option (list crm_object).

(** Whether the n-th call of [update_company_properties] returns ([false]:
    it raises). *)
Variable update_company_properties : nat -> bool.

(** [for org_id, data in aggregated_data.items()] *)
Fixpoint push (items : list (string * org_data)) (updates : nat)
    (trace : list event) : outcome * list event :=
  match items with
  | [] => (Completed, trace)
  | (org_id, data) :: items =>
      let trace := trace ++ [SearchCompany org_id] in
      match search_company org_id with
      | None => (Raised, trace)
      | Some [] => push items updates (trace ++ [NoCompanyFound org_id])
      | Some (r :: _) =>
          let hubspot_company_id := obj_id r in
          match properties_to_update (kpis data) with
          | [] => push items updates (trace ++ [NoKpiValues org_id])
          | (_ :: _) as properties =>
              let trace :=
                trace ++ [UpdateCompanyProperties hubspot_company_id properties] in
              if update_company_properties updates
              then push items (S updates) trace
              else (Raised, trace)
          end
      end
  end.

(** [main], from the rows [fetch_kpis] returned. *)
Definition main (result : list DBKpi.delta_row) : outcome * list event :=
  push (fold_left aggregate_row result []) 0 [].

End Push.

End DBKpiMain.

(** ** Vocabulary of the statements *)

(** The [Retrieved] lines a search logs for a run of successful pages,
    [so_far] items having been accumulated before them. *)
Fixpoint retrieved_lines (object_type : string) (so_far : nat)
    (pages : list Response) : list HubSpotSearch.log_record :=
  match pages with
  | [] => []
  | p :: pages =>
      let n := length (results (json p)) in
      HubSpotSearch.Retrieved n object_type (so_far + n)
      :: retrieved_lines object_type (so_far + n) pages
  end.

(** The items of a run of pages, in page order. *)
Definition items_of (pages : list Response) : list crm_object :=
  concat (map (fun p => results (json p)) pages).

(** The bucket of an event name and an organisation in [aggregated], and
    its count ([0] while there is no bucket, as [entry.get("count", 0)]). *)
Definition bucket (st : MixpanelKpi.agg_state) (e o : string)
  : option MixpanelKpi.entry :=
  PyDict.get e (MixpanelKpi.aggregated st) ≫= PyDict.get o.

Definition bucket_count (st : MixpanelKpi.agg_state) (e o : string) : Z :=
  from_option MixpanelKpi.count 0 (bucket st e o).

(** The unique identifier an event carries, if any: a truthy [$insert_id]. *)
Definition carried_id (ev : MixpanelKpi.Event) : option string :=
  let id := MixpanelKpi.insert_id (MixpanelKpi.properties ev) in
  if truthy id then id else None.

(** The event has this name. *)
Definition named (e : string) (ev : MixpanelKpi.Event) : bool :=
  bool_decide (MixpanelKpi.event ev = Some e).

(** The event belongs to the bucket [(e, o)]: it has the name [e] and is
    attributed to the organisation [o]. *)
Definition in_bucket (e o : string) (ev : MixpanelKpi.Event) : bool :=
  named e ev
  && bool_decide (MixpanelKpi.organization_id (MixpanelKpi.properties ev) = Some o)
  && negb (MixpanelKpi.unattributable (Some o)).

(** The event is not a duplicate with respect to the identifiers [seen]. *)
Definition survives (seen : gset string) (ev : MixpanelKpi.Event) : bool :=
  match carried_id ev with
  | Some i => bool_decide (i ∉ seen)
  | None => true
  end.

(** The seen identifiers of the name [e] once [ev] has been processed. *)
Definition seen_after (e : string) (seen : gset string) (ev : MixpanelKpi.Event)
  : gset string :=
  if named e ev
  then match carried_id ev with Some i => {[i]} ∪ seen | None => seen end
  else seen.

(** The number of events of a stream that reach the bucket [(e, o)], the
    identifiers [seen] having been met before the stream. *)
Fixpoint surviving (e o : string) (seen : gset string)
    (events : list MixpanelKpi.Event) : Z :=
  match events with
  | [] => 0
  | ev :: events =>
      (if in_bucket e o ev && survives seen ev then 1 else 0)
      + surviving e o (seen_after e seen ev) events
  end.

(** The identifiers carried by the events of the bucket [(e, o)], the
    number of its events that carry none, and the identifiers carried by
    the events named [e] that are outside the bucket. *)
Definition bucket_ids (e o : string) (events : list MixpanelKpi.Event)
  : list string :=
  omap carried_id (List.filter (in_bucket e o) events).

Definition idless (e o : string) (events : list MixpanelKpi.Event) : nat :=
  length (List.filter (fun ev => in_bucket e o ev
                                 && bool_decide (carried_id ev = None)) events).

Definition foreign_ids (e o : string) (events : list MixpanelKpi.Event)
  : list string :=
  omap carried_id
    (List.filter (fun ev => named e ev && negb (in_bucket e o ev)) events).

(** The CRM id an organisation resolves to: the ["id"] of the first search
    result; [None] when the search raises, finds nothing, or finds an object
    without id. *)
Definition resolved_id (search_company : string -> option (list crm_object))
    (org_id : string) : option string :=
  match search_company org_id with
  | Some (r :: _) => obj_id r
  | _ => None
  end.

(** The upsert due for one entry of one metric: none when the organisation
    does not resolve to a truthy id. *)
Definition upsert_of (search_company : string -> option (list crm_object))
    (m : MixpanelKpi.mapping) (item : string * MixpanelKpi.entry)
  : list (string * list (string * Z)) :=
  match resolved_id search_company item.1 with
  | Some h =>
      if truthy (Some h) then [(h, MixpanelKpi.property_updates m item.2)] else []
  | None => []
  end.

(** The upserts due for a whole aggregate: metric by metric, organisation by
    organisation. *)
Definition expected_updates (search_company : string -> option (list crm_object))
    (config : list (string * MixpanelKpi.mapping))
    (agg : list (string * list (string * MixpanelKpi.entry)))
  : list (string * list (string * Z)) :=
  flat_map (fun metric =>
              flat_map (upsert_of search_company metric.2)
                (default [] (PyDict.get metric.1 agg)))
           config.

(** The cache agrees with the searches, and holds exactly the organisations
    looked up so far, each looked up once. *)
Definition cache_invariant (search_company : string -> option (list crm_object))
    (st : MixpanelKpi.flush_state) : Prop :=
  NoDup (MixpanelKpi.lookups st)
  /\ (forall o, o ∈ MixpanelKpi.lookups st
                <-> is_Some (MixpanelKpi.hubspot_cache st !! o))
  /\ (forall o v, MixpanelKpi.hubspot_cache st !! o = Some v ->
                  v = resolved_id search_company o).


(** An attempt after which the loop goes on to the next one: a 429 with
    budget left whose delay can be slept, or a transport error with budget
    left. *)
Definition retried (float : string -> option Q) (max_retries : Z)
    (backoff_base : Q) (send : nat -> outcome) (attempt : nat) : Prop :=
  Z.of_nat attempt < max_retries /\
  match send attempt with
  | Answer resp =>
      status_code resp = 429 /\
      exists d, retry_delay float backoff_base resp attempt = Some d /\ (0 <= d)%Q
  | RequestException _ => (0 <= backoff backoff_base attempt)%Q
  end.

(** The elements of [sheet_updates] for a list of rows of cells, numbered
    from [row_idx]. *)
Fixpoint staged (row_idx : Z) (rows : list (list string))
  : list ArrSync.sheet_update :=
  match rows with
  | [] => []
  | cells :: rows =>
      {| ArrSync.row_index := row_idx; ArrSync.row_values := cells |}
      :: staged (row_idx + 1) rows
  end.

(** The chunks the flush loop cuts [sheet_updates] into. *)
Definition chunks (sheet_updates : list ArrSync.sheet_update)
  : list (list ArrSync.sheet_update) :=
  map (ArrSync.chunk_at sheet_updates) (ArrSync.starts (length sheet_updates)).

(** The row belongs to the partition of an organisation and a KPI. *)
Definition in_part (org k : string) (r : DBKpi.kpi_row) : bool :=
  bool_decide (DBKpi.organization_id r = org) && bool_decide (DBKpi.kpi r = k).

(** The rows of a partition within the window, in table order. *)
Definition partition_of (today_minus_30 year_now : Z) (org k : string)
    (business_review_kpis : list DBKpi.kpi_row) : list DBKpi.kpi_row :=
  List.filter (in_part org k)
    (List.filter (DBKpi.in_window today_minus_30 year_now) business_review_kpis).

(** The delta rows the query returns for an organisation and a KPI. *)
Definition deltas_of (org k : string) (result : list DBKpi.delta_row)
  : list DBKpi.delta_row :=
  List.filter (fun d => bool_decide (DBKpi.d_organization_id d = org)
                        && bool_decide (DBKpi.d_kpi d = k)) result.

(** ** Concrete inputs used by the runs evaluated in Part II *)

Module Runs.

Definition answer (status : Z) (hdrs : list (string * string))
    (items : list crm_object) (after : option string) : Response :=
  {| status_code := status;
     headers := list_to_map hdrs;
     text := "";
     json := {| results := items; next_after := after |} |}.

Definition not_found : Response := answer 404 [] [] None.
Definition ok : Response := answer 200 [] [] None.
Definition rate_limited : Response := answer 429 [] [] None.
Definition rate_limited_retry_after_2 : Response :=
  answer 429 [("Retry-After", "2")] [] None.

(** A transport that always answers 404. *)
Definition always_not_found : nat -> outcome := fun _ => Answer not_found.

(** A 429 with [Retry-After: 2], then a 429 without the header, then 200. *)
Definition limited_twice : nat -> outcome :=
  fun n =>
    match n with
    | O => Answer rate_limited_retry_after_2
    | S O => Answer rate_limited
    | _ => Answer ok
    end.

Definition item : crm_object :=
  {| obj_id := Some "4711"; obj_properties := [("dealstage", "8913715")] |}.

Definition items_100 : list crm_object := repeat item 100.



(** Events of the export stream. *)
Definition mixpanel_event (name : string) (id org page : option string)
  : MixpanelKpi.Event :=
  {| MixpanelKpi.event := Some name;
     MixpanelKpi.properties :=
       {| MixpanelKpi.insert_id := id;
          MixpanelKpi.organization_id := org;
          MixpanelKpi.url := page |} |}.

(** Organisation A calls the API three times, one call being exported
    twice and one carrying no identifier; organisation B calls it once. *)
Definition duplicated_stream : list MixpanelKpi.Event :=
  [ mixpanel_event "api-call" (Some "m1") (Some "A") None;
    mixpanel_event "api-call" (Some "m2") (Some "B") None;
    mixpanel_event "api-call" (Some "m1") (Some "A") None;
    mixpanel_event "api-call" None (Some "A") None ].

(** The same identifier on an event of A and on an event of B. *)
Definition shared_id_stream : list MixpanelKpi.Event :=
  [ mixpanel_event "api-call" (Some "m1") (Some "A") None;
    mixpanel_event "api-call" (Some "m1") (Some "B") None ].

(** The CRM finds company 901 for organisation A, nothing for B, and the
    search for any other organisation raises. *)
Definition crm_directory : string -> option (list crm_object) :=
  fun org_id =>
    if String.eqb org_id "A"
    then Some [{| obj_id := Some "901"; obj_properties := [] |}]
    else if String.eqb org_id "B" then Some [] else None.



(** 450 line items of one deal, a deal without line items, a sheet that
    holds a row of an earlier run, and a sheet API that refuses the second
    batch update. *)
Definition deal_with_450_line_items : ArrSync.deal :=
  {| ArrSync.assoc_data :=
       Some (Some (repeat {| ArrSync.line_item_id := Some "77";
                             ArrSync.line_item_cells := Some ["ACME"; "renewal"] |}
                          450)) |}.

Definition deal_without_line_items : ArrSync.deal :=
  {| ArrSync.assoc_data := Some (Some []) |}.

Definition sheet_with_old_rows : ArrSync.sheet :=
  {| ArrSync.cells := {[ 2 := ["old"; "row"] ]}; ArrSync.api_calls := [] |}.

Definition second_update_fails : nat -> bool :=
  fun n => negb (Nat.eqb n 1).

(** Snapshots of one KPI of one organisation. *)
Definition snapshot (t v : Z) (name : string) : DBKpi.kpi_row :=
  {| DBKpi.organization_id := "org-1";
     DBKpi.organization_name := name;
     DBKpi.kpi := "Number of log entries";
     DBKpi.value := v;
     DBKpi.run_timestamp := t;
     DBKpi.accounting_year_parameter := 2025 |}.

(** The three snapshots of the example, not in time order. *)
Definition snapshots_shuffled : list DBKpi.kpi_row :=
  [ snapshot 3 40 "Acme"; snapshot 1 10 "Acme"; snapshot 2 25 "Acme" ].

(** Two snapshots taken at the same time, in either order. *)
Definition snapshots_tied : list DBKpi.kpi_row :=
  [ snapshot 1 10 "Acme"; snapshot 1 25 "Acme" ].

(** Two snapshots between which the organisation was renamed. *)
Definition snapshots_renamed : list DBKpi.kpi_row :=
  [ snapshot 1 10 "Acme"; snapshot 2 25 "Acme GmbH" ].

End Runs.

(** ** utilities/mixpanel_api.py: [get_property_values] *)

Module MixpanelApi.

(** [value not in (None, "", "UNKNOWN")] *)
Definition kept (value : option string) : bool :=
  negb (bool_decide (value = None)
        || bool_decide (value = Some "")
        || bool_decide (value = Some "UNKNOWN")).

(** [str(value)]; the values are JSON strings or [null]. *)
Definition str (value : option string) : string :=
  match value with
  | Some s => s
  | None => "None"
  end.

(** [get_property_values], from the list [resp.json()] holds:
    [[str(value) for value in values if value not in (None, "", "UNKNOWN")]]. *)
Definition get_property_values (values : list (option string)) : list string :=
  map str (List.filter kept values).

End MixpanelApi.

(** ** Vocabulary of the further statements *)

(** The rows the staging loop builds from the associations of a deal: one
    for each association with an id, from the cells of its line item. *)
Definition line_item_rows (assocs : list ArrSync.association)
  : list (list string) :=
  omap (fun a => if truthy (ArrSync.line_item_id a)
                 then ArrSync.line_item_cells a else None) assocs.

Definition rows_of (deals : list ArrSync.deal) : list (list string) :=
  flat_map (fun d => match ArrSync.assoc_data d with
                     | Some (Some assocs) => line_item_rows assocs
                     | _ => []
                     end) deals.

(** A retrieval for the deal failed: its associations, their ["results"],
    or the line item of an association with an id. *)
Definition retrieval_failed (d : ArrSync.deal) : bool :=
  match ArrSync.assoc_data d with
  | Some (Some assocs) =>
      existsb (fun a => truthy (ArrSync.line_item_id a)
                        && bool_decide (ArrSync.line_item_cells a = None)) assocs
  | _ => true
  end.

(** The rows of the export that lead to a company update: at least four
    cells, the first of them not empty; and the call made for such a row. *)
Definition eligible (row : list string) : bool :=
  (4 <=? length row)%nat && negb (String.eqb (nth 0 row "") "").

Definition call_of (row : list string) : ArrUpdate.update_call :=
  {| ArrUpdate.company_id := nth 0 row "";
     ArrUpdate.properties :=
       [ ("current_booked_arr", nth 1 row "");
         ("current_nrr__mom_", nth 2 row "");
         ("total_current_nrr__mom____weighted", nth 3 row "") ] |}.

(** The group a table row falls into, and the group a result row stands
    for: organisation id, organisation name and KPI. *)
Definition row_group (r : DBKpi.kpi_row) : string * string * string :=
  (DBKpi.organization_id r, DBKpi.organization_name r, DBKpi.kpi r).

Definition result_group (d : DBKpi.delta_row) : string * string * string :=
  (DBKpi.d_organization_id d, DBKpi.d_organization_name d, DBKpi.d_kpi d).

(** The HubSpot property a KPI is written to. *)
Definition property_of (k : string) : string :=
  if String.eqb k "Number of log entries"
  then "number_log_entries_past_30_days"
  else "number_bulk_entries_past_30_days".

(** What [main] stored for an organisation and a KPI before the push. *)
Definition stored_delta (aggregated_data : list (string * DBKpiMain.org_data))
    (org k : string) : option (option Z) :=
  PyDict.get org aggregated_data ≫= fun data => PyDict.get k (DBKpiMain.kpis data).

(** The urls of an entry are never more than its count. *)
Definition urls_within_count (en : MixpanelKpi.entry) : Prop :=
  Z.of_nat (length (MixpanelKpi.urls en)) <= MixpanelKpi.count en.

(** The event bears one of the tracked names. *)
Definition tracked (ev : MixpanelKpi.Event) : bool :=
  match MixpanelKpi.event ev with
  | Some name => bool_decide (name ∈ MixpanelKpi.event_names)
  | None => false
  end.

(** The delay slept after a retried attempt: the one of the answer's
    [Retry-After], or the backoff. *)
Definition delay_after (float : string -> option Q) (backoff_base : Q)
    (send : nat -> outcome) (attempt : nat) : Q :=
  match send attempt with
  | Answer resp => default 0%Q (retry_delay float backoff_base resp attempt)
  | RequestException _ => backoff backoff_base attempt
  end.


(** ** Further concrete inputs *)

Module MoreRuns.

(** A transport that fails on every attempt, one that fails once and then
    answers 200, one that always answers 429, and one whose 429 carries an
    HTTP date in [Retry-After]. *)
Definition always_reset : nat -> outcome :=
  fun _ => RequestException "connection reset".

Definition reset_then_ok : nat -> outcome :=
  fun n => match n with O => RequestException "timeout" | _ => Answer Runs.ok end.

Definition always_rate_limited : nat -> outcome :=
  fun _ => Answer Runs.rate_limited.

Definition rate_limited_until_date : Response :=
  Runs.answer 429 [("Retry-After", "Wed, 21 Oct 2015 07:28:00 GMT")] [] None.

Definition dated_rate_limit : nat -> outcome :=
  fun _ => Answer rate_limited_until_date.

(** Three pages of 100, 100 and 37 items; the last one has no token. *)
Definition items_37 : list crm_object := repeat Runs.item 37.

Definition page_1 : Response := Runs.answer 200 [] Runs.items_100 (Some "100").
Definition page_2 : Response := Runs.answer 200 [] Runs.items_100 (Some "200").
Definition page_3 : Response := Runs.answer 200 [] items_37 None.

Definition three_pages : nat -> result :=
  fun n =>
    match n with
    | O => Return page_1
    | S O => Return page_2
    | _ => Return page_3
    end.

(** The request for the second page gives up after its retries. *)
Definition second_page_unreachable : nat -> result :=
  fun n =>
    match n with
    | O => Return page_1
    | _ => Raise (RuntimeError (Some "connection reset"))
    end.

(** What the property listing may hold: names, [null] and the two
    sentinels. *)
Definition listed_values : list (option string) :=
  [Some "A"; None; Some "UNKNOWN"; Some "B"; Some ""].

(** A session without organisation, exported before the same session with
    its organisation. *)
Definition unattributed_first : list MixpanelKpi.Event :=
  [ Runs.mixpanel_event "Session start" (Some "s1") None None;
    Runs.mixpanel_event "Session start" (Some "s1") (Some "A") None ].

(** Page views of an organisation that is not in the property listing, and
    an event of a name that is not tracked. *)
Definition late_organisation : list MixpanelKpi.Event :=
  [ Runs.mixpanel_event "page-view" None (Some "Z") (Some "/app/dashboard");
    Runs.mixpanel_event "sign-up" (Some "u1") (Some "Z") None;
    Runs.mixpanel_event "page-view" (Some "p2") (Some "Z") None ].

(** Two deals: the first with a line item and an association without id,
    the second with two line items. *)
Definition two_deals : list ArrSync.deal :=
  [ {| ArrSync.assoc_data :=
         Some (Some [ {| ArrSync.line_item_id := Some "1";
                         ArrSync.line_item_cells := Some ["ACME"; "seats"] |};
                      {| ArrSync.line_item_id := None;
                         ArrSync.line_item_cells := None |} ]) |};
    {| ArrSync.assoc_data :=
         Some (Some [ {| ArrSync.line_item_id := Some "2";
                         ArrSync.line_item_cells := Some ["Bolt"; "seats"] |};
                      {| ArrSync.line_item_id := Some "3";
                         ArrSync.line_item_cells := Some ["Bolt"; "support"] |} ]) |} ].

(** The same deals, followed by one whose line item cannot be retrieved. *)
Definition third_deal_fails : list ArrSync.deal :=
  two_deals
  ++ [ {| ArrSync.assoc_data :=
            Some (Some [ {| ArrSync.line_item_id := Some "4";
                            ArrSync.line_item_cells := None |} ]) |} ].

(** A sheet with its header row and a row left by an earlier, longer run. *)
Definition sheet_with_stale_row : ArrSync.sheet :=
  {| ArrSync.cells := {[ 1 := ["header"]; 9 := ["stale"] ]};
     ArrSync.api_calls := [] |}.

(** The ARR export: the header, a company, a short row, a row without
    company id, and two more companies. *)
Definition arr_export : list (option (list (list string))) :=
  [ Some [ ["Company ID"; "ARR"; "NRR"; "Weighted NRR"];
           ["901"; "1200"; "1.1"; "1.0"];
           ["902"; "300"];
           [""; "50"; "1.0"; "1.0"];
           ["903"; "700"; "0.9"; "0.8"];
           ["904"; "10"; "1.0"; "1.0"] ] ].

Definition second_company_fails : nat -> ArrUpdate.update_result :=
  fun n => if Nat.eqb n 1 then ArrUpdate.Failed else ArrUpdate.Updated.

(** The CRM of the examples with a name for company 901. *)
Definition search_never_raises : string -> option (list crm_object) :=
  fun org_id =>
    if String.eqb org_id "org-1"
    then Some [{| obj_id := Some "901"; obj_properties := [("name", "Acme")] |}]
    else Some [].

(** Snapshots of two organisations; the search for the second raises. *)
Definition two_organisations : list DBKpi.kpi_row :=
  [ Runs.snapshot 1 10 "Acme";
    Runs.snapshot 3 40 "Acme";
    {| DBKpi.organization_id := "org-2";
       DBKpi.organization_name := "Bolt";
       DBKpi.kpi := "Number of log entries";
       DBKpi.value := 7;
       DBKpi.run_timestamp := 2;
       DBKpi.accounting_year_parameter := 2025 |} ].

Definition search_raises_for_org_2 : string -> option (list crm_object) :=
  fun org_id =>
    if String.eqb org_id "org-2" then None else search_never_raises org_id.

End MoreRuns.

(* ===================================================================== *)
(** * Part II. Properties                                                 *)
(* ===================================================================== *)

(** ** The retry loops *)

Lemma sleep_ok (d : Q) (tr : trace) :
  (0 <= d)%Q ->
  sleep d tr = Some {| slept := slept tr ++ [d]; calls := calls tr |}.
Proof.
  intros Hd. unfold sleep. destruct (Qlt_le_dec d 0) as [Hlt|_]; [|reflexivity].
  exfalso. exact (Qlt_not_le _ _ Hlt Hd).
Qed.

Lemma sleep_inv (d : Q) (tr tr' : trace) :
  sleep d tr = Some tr' ->
  slept tr' = slept tr ++ [d] /\ calls tr' = calls tr /\ (0 <= d)%Q.
Proof.
  unfold sleep. destruct (Qlt_le_dec d 0) as [|Hle]; [discriminate|].
  intros [= <-]. simpl. auto.
Qed.

Section RetryLoops.

Variable float : string -> option Q.
Variable max_retries : Z.
Variable backoff_base : Q.
Variable send : nat -> outcome.

Abbreviation hub_loop := (HubSpotConnector.request_loop float max_retries backoff_base send).
Abbreviation mix_loop := (MixpanelConnector.request_loop float max_retries backoff_base send).

(** Case analysis of one turn of either loop. *)
Ltac loop_step :=
  repeat match goal with
    | |- context [match send ?a with _ => _ end] => destruct (send a) eqn:?
    | |- context [if ?b then _ else _] => destruct b eqn:?
    | |- context [match retry_delay ?f ?b ?r ?a with _ => _ end] =>
        destruct (retry_delay f b r a) eqn:?
    | |- context [match sleep ?d ?t with _ => _ end] =>
        let H := fresh "Hsleep" in
        destruct (sleep d t) eqn:H;
        [apply sleep_inv in H; destruct H as (? & ? & ?)|]
    end.

(** Each turn calls the transport once and sleeps at most once, only below
    the retry budget; what was slept before stays in place. *)
Lemma hub_loop_frame (n a : nat) (le : option string) (tr : trace) res tr' :
  calls tr = a -> length (slept tr) = a ->
  hub_loop (seq a n) le tr = (res, tr') ->
  (a <= calls tr' <= a + n)%nat /\
  (length (slept tr') <= Nat.max a (Z.to_nat max_retries))%nat /\
  (a <= length (slept tr'))%nat /\
  (forall i, (i < a)%nat -> slept tr' !! i = slept tr !! i).
Proof.
  revert a le tr. induction n as [|n IH]; intros a le tr Hc Hs; simpl.
  - intros [= <- <-]. repeat split; auto; lia.
  - loop_step; try (intros [= <- <-]; simpl; repeat split; auto; lia).
    all: intros Hrun; eapply IH in Hrun; [|simpl in *; congruence|
           simpl in *; rewrite ?H, ?length_app; simpl; lia].
    all: destruct Hrun as (G1 & G2 & G3 & G4).
    all: repeat split; try lia.
    all: try (intros i Hi; rewrite G4 by lia; rewrite H; apply lookup_app_l; lia).
Qed.

Lemma mix_loop_frame (n a : nat) (le : option string) (tr : trace) res tr' :
  calls tr = a -> length (slept tr) = a ->
  mix_loop (seq a n) le tr = (res, tr') ->
  (a <= calls tr' <= a + n)%nat /\
  (length (slept tr') <= Nat.max a (Z.to_nat max_retries))%nat /\
  (a <= length (slept tr'))%nat /\
  (forall i, (i < a)%nat -> slept tr' !! i = slept tr !! i).
Proof.
  revert a le tr. induction n as [|n IH]; intros a le tr Hc Hs; simpl.
  - intros [= <- <-]. repeat split; auto; lia.
  - loop_step; try (intros [= <- <-]; simpl; repeat split; auto; lia).
    all: intros Hrun; eapply IH in Hrun; [|simpl in *; congruence|
           simpl in *; rewrite ?H, ?length_app; simpl; lia].
    all: destruct Hrun as (G1 & G2 & G3 & G4).
    all: repeat split; try lia.
    all: try (intros i Hi; rewrite G4 by lia; rewrite H; apply lookup_app_l; lia).
Qed.

(** The delay slept after a rate-limited attempt that the loop reaches. *)
Lemma hub_loop_sleeps (n a : nat) (le : option string) (tr : trace) res tr' k resp d :
  calls tr = a -> length (slept tr) = a ->
  hub_loop (seq a n) le tr = (res, tr') ->
  (a <= k < a + n)%nat ->
  (forall j, (a <= j < k)%nat -> retried float max_retries backoff_base send j) ->
  send k = Answer resp -> status_code resp = 429 -> Z.of_nat k < max_retries ->
  retry_delay float backoff_base resp k = Some d -> (0 <= d)%Q ->
  slept tr' !! k = Some d /\ (k < calls tr')%nat.
Proof.
  revert a le tr. induction n as [|n IH]; intros a le tr Hc Hs Hrun Hk Hj Hsend H429 Hb Hd Hpos;
    [lia|].
  simpl in Hrun. destruct (decide (a = k)) as [->|Hne].
  - rewrite Hsend, H429, Hd in Hrun.
    replace (Z.of_nat k <? max_retries) with true in Hrun by (symmetry; apply Z.ltb_lt; lia).
    simpl in Hrun. rewrite sleep_ok in Hrun by assumption.
    apply hub_loop_frame in Hrun; simpl; [|lia|rewrite length_app; simpl; lia].
    destruct Hrun as (G1 & _ & _ & G4). split; [|lia].
    rewrite G4 by lia. simpl. rewrite lookup_app_r by lia.
    replace (k - length (slept tr))%nat with 0%nat by lia. reflexivity.
  - destruct (Hj a) as [Hlt Hret]; [lia|].
    replace (Z.of_nat a <? max_retries) with true in Hrun by (symmetry; apply Z.ltb_lt; lia).
    destruct (send a) as [r|exc].
    + destruct Hret as [H429a (d0 & Hd0 & Hd0')].
      rewrite H429a, Hd0 in Hrun. simpl in Hrun.
      rewrite sleep_ok in Hrun by assumption.
      eapply IH in Hrun; eauto; simpl; try lia.
      * rewrite length_app; simpl; lia.
      * intros j Hjr. apply Hj. lia.
    + rewrite sleep_ok in Hrun by assumption.
      eapply IH in Hrun; eauto; simpl; try lia.
      * rewrite length_app; simpl; lia.
      * intros j Hjr. apply Hj. lia.
Qed.

Lemma mix_loop_sleeps (n a : nat) (le : option string) (tr : trace) res tr' k resp d :
  calls tr = a -> length (slept tr) = a ->
  mix_loop (seq a n) le tr = (res, tr') ->
  (a <= k < a + n)%nat ->
  (forall j, (a <= j < k)%nat -> retried float max_retries backoff_base send j) ->
  send k = Answer resp -> status_code resp = 429 -> Z.of_nat k < max_retries ->
  retry_delay float backoff_base resp k = Some d -> (0 <= d)%Q ->
  slept tr' !! k = Some d /\ (k < calls tr')%nat.
Proof.
  assert (H429r : forall r, status_code r = 429 -> raises_for_status r = true).
  { intros r Hr. unfold raises_for_status. rewrite Hr. reflexivity. }
  revert a le tr. induction n as [|n IH]; intros a le tr Hc Hs Hrun Hk Hj Hsend H429 Hb Hd Hpos;
    [lia|].
  simpl in Hrun. destruct (decide (a = k)) as [->|Hne].
  - rewrite Hsend, (H429r _ H429), H429, Hd in Hrun.
    replace (Z.of_nat k <? max_retries) with true in Hrun by (symmetry; apply Z.ltb_lt; lia).
    simpl in Hrun. rewrite sleep_ok in Hrun by assumption.
    apply mix_loop_frame in Hrun; simpl; [|lia|rewrite length_app; simpl; lia].
    destruct Hrun as (G1 & _ & _ & G4). split; [|lia].
    rewrite G4 by lia. simpl. rewrite lookup_app_r by lia.
    replace (k - length (slept tr))%nat with 0%nat by lia. reflexivity.
  - destruct (Hj a) as [Hlt Hret]; [lia|].
    replace (Z.of_nat a <? max_retries) with true in Hrun by (symmetry; apply Z.ltb_lt; lia).
    destruct (send a) as [r|exc].
    + destruct Hret as [H429a (d0 & Hd0 & Hd0')].
      rewrite (H429r _ H429a), H429a, Hd0 in Hrun. simpl in Hrun.
      rewrite sleep_ok in Hrun by assumption.
      eapply IH in Hrun; eauto; simpl; try lia.
      * rewrite length_app; simpl; lia.
      * intros j Hjr. apply Hj. lia.
    + rewrite sleep_ok in Hrun by assumption.
      eapply IH in Hrun; eauto; simpl; try lia.
      * rewrite length_app; simpl; lia.
      * intros j Hjr. apply Hj. lia.
Qed.

(** HubSpot: an answer that is not a 429, or that comes when the budget is
    used up, is what the loop returns; it never raises an HTTP error. *)
Lemma hub_loop_returns (n a : nat) (le : option string) (tr : trace) res tr' :
  calls tr = a ->
  hub_loop (seq a n) le tr = (res, tr') ->
  (forall r, res <> Raise (HTTPError r)) /\
  (forall k resp, (a <= k < calls tr')%nat -> send k = Answer resp ->
     status_code resp <> 429 \/ max_retries <= Z.of_nat k -> res = Return resp).
Proof.
  revert a le tr. induction n as [|n IH]; intros a le tr Hc; simpl.
  - intros [= <- <-]. split; [discriminate|]. intros; lia.
  - loop_step; try (intros [= <- <-]; simpl; split; [discriminate|];
      intros k resp' Hk Hs Hst; assert (k = a) as -> by (simpl in *; lia);
      rewrite Hs in *; simplify_eq; try reflexivity;
      exfalso; destruct Hst; lia).
    all: intros Hrun; pose proof Hrun as Hrun'; eapply IH in Hrun;
      try (simpl in *; congruence).
    all: destruct Hrun as [G1 G2]; split; [exact G1|].
    all: intros k resp' Hk Hs Hst; destruct (decide (k = a)) as [->|Hne];
      try (apply (G2 k); [lia|assumption..]).
    all: rewrite Hs in *; simplify_eq; exfalso; destruct Hst; lia.
Qed.

(** Mixpanel: an answer with a 4xx or 5xx status that is not retried leaves
    the loop as an HTTP error; any other answer is returned. *)
Lemma mix_loop_raises (n a : nat) (le : option string) (tr : trace) res tr' :
  calls tr = a ->
  mix_loop (seq a n) le tr = (res, tr') ->
  forall k resp, (a <= k < calls tr')%nat -> send k = Answer resp ->
    (raises_for_status resp = false -> res = Return resp) /\
    (raises_for_status resp = true ->
     status_code resp <> 429 \/ max_retries <= Z.of_nat k ->
     res = Raise (HTTPError resp)).
Proof.
  revert a le tr. induction n as [|n IH]; intros a le tr Hc; simpl.
  - intros [= <- <-]. intros; lia.
  - loop_step; try (intros [= <- <-]; simpl;
      intros k resp' Hk Hs; assert (k = a) as -> by (simpl in *; lia);
      rewrite Hs in *;
      first [congruence
            |simplify_eq; split; [intros; try reflexivity; congruence|];
             intros Hr Hst; try reflexivity; try congruence;
             exfalso; destruct Hst; lia]).
    all: intros Hrun; specialize (fun Hcalls => IH _ _ _ Hcalls Hrun) as IH';
      specialize (IH' ltac:(simpl in *; congruence)); clear IH; rename IH' into IH.
    all: intros k resp' Hk Hs; destruct (decide (k = a)) as [->|Hne];
      try (apply (IH k); [lia|assumption]).
    all: rewrite Hs in *;
      first [congruence
            |simplify_eq; split; [congruence|];
             intros _ Hst; exfalso; destruct Hst; lia].
Qed.

(** The loop reaches every attempt whose predecessors were all retried. *)
Lemma hub_loop_reaches (n a : nat) (le : option string) (tr : trace) res tr' k :
  calls tr = a -> length (slept tr) = a ->
  hub_loop (seq a n) le tr = (res, tr') ->
  (a <= k < a + n)%nat ->
  (forall j, (a <= j < k)%nat -> retried float max_retries backoff_base send j) ->
  (k < calls tr')%nat.
Proof.
  revert a le tr. induction n as [|n IH]; intros a le tr Hc Hs Hrun Hk Hj; [lia|].
  simpl in Hrun. destruct (decide (a = k)) as [->|Hne].
  - revert Hrun. loop_step; try (intros [= <- <-]; simpl; lia).
    all: intros Hrun; apply hub_loop_frame in Hrun; simpl in *; try lia.
    all: rewrite ?H, ?length_app; simpl; lia.
  - destruct (Hj a) as [Hlt Hret]; [lia|].
    replace (Z.of_nat a <? max_retries) with true in Hrun by (symmetry; apply Z.ltb_lt; lia).
    destruct (send a) as [r|exc].
    + destruct Hret as [H429a (d0 & Hd0 & Hd0')].
      rewrite H429a, Hd0 in Hrun. simpl in Hrun.
      rewrite sleep_ok in Hrun by assumption.
      eapply IH in Hrun; eauto; simpl; try lia.
      * rewrite length_app; simpl; lia.
      * intros j Hjr. apply Hj. lia.
    + rewrite sleep_ok in Hrun by assumption.
      eapply IH in Hrun; eauto; simpl; try lia.
      * rewrite length_app; simpl; lia.
      * intros j Hjr. apply Hj. lia.
Qed.

Lemma mix_loop_reaches (n a : nat) (le : option string) (tr : trace) res tr' k :
  calls tr = a -> length (slept tr) = a ->
  mix_loop (seq a n) le tr = (res, tr') ->
  (a <= k < a + n)%nat ->
  (forall j, (a <= j < k)%nat -> retried float max_retries backoff_base send j) ->
  (k < calls tr')%nat.
Proof.
  revert a le tr. induction n as [|n IH]; intros a le tr Hc Hs Hrun Hk Hj; [lia|].
  simpl in Hrun. destruct (decide (a = k)) as [->|Hne].
  - revert Hrun. loop_step; try (intros [= <- <-]; simpl; lia).
    all: intros Hrun; apply mix_loop_frame in Hrun; simpl in *; try lia.
    all: rewrite ?H, ?length_app; simpl; lia.
  - destruct (Hj a) as [Hlt Hret]; [lia|].
    replace (Z.of_nat a <? max_retries) with true in Hrun by (symmetry; apply Z.ltb_lt; lia).
    destruct (send a) as [r|exc].
    + destruct Hret as [H429a (d0 & Hd0 & Hd0')].
      assert (raises_for_status r = true) as Hr
        by (unfold raises_for_status; rewrite H429a; reflexivity).
      rewrite Hr in Hrun. rewrite H429a, Hd0 in Hrun. simpl in Hrun.
      rewrite sleep_ok in Hrun by assumption.
      eapply IH in Hrun; eauto; simpl; try lia.
      * rewrite length_app; simpl; lia.
      * intros j Hjr. apply Hj. lia.
    + rewrite sleep_ok in Hrun by assumption.
      eapply IH in Hrun; eauto; simpl; try lia.
      * rewrite length_app; simpl; lia.
      * intros j Hjr. apply Hj. lia.
Qed.

End RetryLoops.

(** ** Non-retryable statuses (C2) *)

(** C2, as found in the code.  A 4xx or 5xx answer other than 429, received
    at an attempt the loop reaches, is returned to the caller by
    [HubSpotConnector._request], which never raises an HTTP error; the same
    answer leaves [MixpanelConnector._request] as a raised
    [requests.HTTPError]. *)
Theorem C2_status_returned_by_hubspot_raised_by_mixpanel
    (float : string -> option Q) (max_retries : Z) (backoff_base : Q)
    (send : nat -> outcome) (k : nat) (resp : Response) :
  (forall j, (j < k)%nat -> retried float max_retries backoff_base send j) ->
  Z.of_nat k <= max_retries ->
  send k = Answer resp ->
  400 <= status_code resp < 600 ->
  status_code resp <> 429 ->
  (HubSpotConnector._request float max_retries backoff_base send).1 = Return resp
  /\ (forall r, (HubSpotConnector._request float max_retries backoff_base send).1
               <> Raise (HTTPError r))
  /\ (MixpanelConnector._request float max_retries backoff_base send).1
     = Raise (HTTPError resp).
Proof.
  intros Hj Hk Hsend Hst Hne.
  unfold HubSpotConnector._request, MixpanelConnector._request, attempts.
  destruct (HubSpotConnector.request_loop _ _ _ _ _ _ _) as [hres htr] eqn:Hhub.
  destruct (MixpanelConnector.request_loop _ _ _ _ _ _ _) as [mres mtr] eqn:Hmix.
  simpl.
  pose proof (fun H1 H2 => hub_loop_reaches _ _ _ _ _ 0%nat _ no_trace _ _ k H1 H2 Hhub) as Hrh.
  pose proof (fun H1 H2 => mix_loop_reaches _ _ _ _ _ 0%nat _ no_trace _ _ k H1 H2 Hmix) as Hrm.
  specialize (Hrh eq_refl eq_refl). specialize (Hrm eq_refl eq_refl).
  destruct (fun H1 => hub_loop_returns _ _ _ _ _ 0%nat _ no_trace _ _ H1 Hhub) as [Hnever Hret];
    [reflexivity|].
  pose proof (fun H1 => mix_loop_raises _ _ _ _ _ 0%nat _ no_trace _ _ H1 Hmix) as Hraise.
  specialize (Hraise eq_refl k resp).
  assert (Hin : (0 <= k < 0 + Z.to_nat (max_retries + 1))%nat) by lia.
  assert (Hpre : forall j, (0 <= j < k)%nat ->
                           retried float max_retries backoff_base send j)
    by (intros j Hjk; apply Hj; lia).
  specialize (Hrh Hin Hpre). specialize (Hrm Hin Hpre).
  split; [|split].
  - apply (Hret k); [simpl; lia|assumption|left; assumption].
  - exact Hnever.
  - apply Hraise; [simpl; lia|assumption| |left; assumption].
    unfold raises_for_status.
    apply andb_true_iff. split; [apply Z.leb_le|apply Z.ltb_lt]; lia.
Qed.

(** The theorem at work: a 404 on the first attempt, with the defaults. *)
Lemma C2_witness_first_attempt_404 :
  (HubSpotConnector._request float_of_digits DEFAULT_MAX_RETRIES
     DEFAULT_BACKOFF_BASE Runs.always_not_found).1 = Return Runs.not_found
  /\ (forall r, (HubSpotConnector._request float_of_digits DEFAULT_MAX_RETRIES
                  DEFAULT_BACKOFF_BASE Runs.always_not_found).1
               <> Raise (HTTPError r))
  /\ (MixpanelConnector._request float_of_digits DEFAULT_MAX_RETRIES
        DEFAULT_BACKOFF_BASE Runs.always_not_found).1
     = Raise (HTTPError Runs.not_found).
Proof.
  apply (C2_status_returned_by_hubspot_raised_by_mixpanel
           float_of_digits DEFAULT_MAX_RETRIES DEFAULT_BACKOFF_BASE
           Runs.always_not_found 0 Runs.not_found).
  - intros j Hj. lia.
  - unfold DEFAULT_MAX_RETRIES. lia.
  - reflexivity.
  - simpl. lia.
  - simpl. lia.
Defined.

(** C2 as the specification words it fails on the Mixpanel client: a 404 is
    raised as an HTTP error, not returned. *)
Lemma C2_counterexample_mixpanel_raises_404 :
  MixpanelConnector._request float_of_digits DEFAULT_MAX_RETRIES
    DEFAULT_BACKOFF_BASE Runs.always_not_found
  = (Raise (HTTPError Runs.not_found), {| slept := []; calls := 1 |})
  /\ ~ (exists resp,
         (MixpanelConnector._request float_of_digits DEFAULT_MAX_RETRIES
            DEFAULT_BACKOFF_BASE Runs.always_not_found).1 = Return resp).
Proof.
  split; [reflexivity|]. intros [resp H]. discriminate H.
Qed.

(** ** Rate limiting (C3) *)

(** With a base above 1 the successive backoff delays grow: they are not
    constant. *)
Lemma backoff_increasing (base : Q) (attempt : nat) :
  (1 < base)%Q -> (backoff base attempt < backoff base (S attempt))%Q.
Proof.
  intros Hb. unfold backoff. apply Qpower_lt_compat_l; [lia|exact Hb].
Qed.

(** The delay chosen after a 429, from the header or from the backoff. *)
Lemma retry_delay_cases (float : string -> option Q) (base : Q)
    (resp : Response) (k : nat) (d : Q) :
  (exists s, headers resp !! "Retry-After" = Some s /\ s <> "" /\ float s = Some d)
  \/ (truthy (headers resp !! "Retry-After") = false /\ d = backoff base k) ->
  retry_delay float base resp k = Some d.
Proof.
  unfold retry_delay. intros [(s & Hs & Hne & Hf)|[Hfalsy ->]].
  - rewrite Hs. simpl. apply String.eqb_neq in Hne. rewrite Hne. simpl. exact Hf.
  - rewrite Hfalsy. reflexivity.
Qed.

(** C3, as found in the code.  Both clients read the header with
    [float(retry_after)] and nothing else.  When an attempt that the loop
    reaches is answered by a 429 with retry budget left, either client
    sleeps the number of a non-empty [Retry-After] header that [float] can
    read and that is not negative, and [backoff_base ** attempt] when the
    header is absent or empty, attempts being counted from 0 (so the first
    backoff is [base ** 0]); the delay is the [attempt]-th argument of
    [time.sleep].  Neither client calls the transport more than
    [max_retries + 1] times nor sleeps more than [max_retries] times: 4 and
    3 with the defaults, for which the backoff delays grow strictly. *)
Theorem C3_rate_limit_delay_and_budget
    (float : string -> option Q) (max_retries : Z) (backoff_base : Q)
    (send : nat -> outcome) (k : nat) (resp : Response) (d : Q) :
  (forall j, (j < k)%nat -> retried float max_retries backoff_base send j) ->
  send k = Answer resp ->
  status_code resp = 429 ->
  Z.of_nat k < max_retries ->
  (exists s, headers resp !! "Retry-After" = Some s /\ s <> "" /\ float s = Some d)
  \/ (truthy (headers resp !! "Retry-After") = false /\ d = backoff backoff_base k) ->
  (0 <= d)%Q ->
  slept (HubSpotConnector._request float max_retries backoff_base send).2 !! k = Some d
  /\ slept (MixpanelConnector._request float max_retries backoff_base send).2 !! k = Some d
  /\ (calls (HubSpotConnector._request float max_retries backoff_base send).2
      <= Z.to_nat (max_retries + 1))%nat
  /\ (calls (MixpanelConnector._request float max_retries backoff_base send).2
      <= Z.to_nat (max_retries + 1))%nat
  /\ (length (slept (HubSpotConnector._request float max_retries backoff_base send).2)
      <= Z.to_nat max_retries)%nat
  /\ (length (slept (MixpanelConnector._request float max_retries backoff_base send).2)
      <= Z.to_nat max_retries)%nat
  /\ length (attempts DEFAULT_MAX_RETRIES) = 4%nat
  /\ (backoff backoff_base 0 == 1)%Q
  /\ (forall attempt,
        (backoff DEFAULT_BACKOFF_BASE attempt
         < backoff DEFAULT_BACKOFF_BASE (S attempt))%Q).
Proof.
  intros Hj Hsend H429 Hk Hdelay Hd.
  apply (retry_delay_cases float backoff_base resp k d) in Hdelay.
  unfold HubSpotConnector._request, MixpanelConnector._request, attempts.
  destruct (HubSpotConnector.request_loop _ _ _ _ _ _ _) as [hres htr] eqn:Hhub.
  destruct (MixpanelConnector.request_loop _ _ _ _ _ _ _) as [mres mtr] eqn:Hmix.
  simpl.
  assert (Hin : (0 <= k < 0 + Z.to_nat (max_retries + 1))%nat) by lia.
  assert (Hpre : forall j, (0 <= j < k)%nat ->
                           retried float max_retries backoff_base send j)
    by (intros j Hjk; apply Hj; lia).
  destruct (hub_loop_sleeps float max_retries backoff_base send
              _ 0%nat None no_trace hres htr k resp d
              eq_refl eq_refl Hhub Hin Hpre Hsend H429 Hk Hdelay Hd) as [Hh _].
  destruct (mix_loop_sleeps float max_retries backoff_base send
              _ 0%nat None no_trace mres mtr k resp d
              eq_refl eq_refl Hmix Hin Hpre Hsend H429 Hk Hdelay Hd) as [Hm _].
  destruct (hub_loop_frame float max_retries backoff_base send
              _ 0%nat None no_trace hres htr eq_refl eq_refl Hhub)
    as (Hc1 & Hs1 & _).
  destruct (mix_loop_frame float max_retries backoff_base send
              _ 0%nat None no_trace mres mtr eq_refl eq_refl Hmix)
    as (Hc2 & Hs2 & _).
  repeat split; try assumption; try lia.
  intros attempt. apply backoff_increasing. reflexivity.
Qed.

(** The theorem at work: the first attempt is answered 429 with
    [Retry-After: 2], and 2 seconds are slept, not the backoff [1.5 ** 0]. *)
Lemma C3_witness_retry_after_2 :
  slept (HubSpotConnector._request float_of_digits DEFAULT_MAX_RETRIES
           DEFAULT_BACKOFF_BASE Runs.limited_twice).2 !! 0%nat = Some (inject_Z 2)
  /\ slept (MixpanelConnector._request float_of_digits DEFAULT_MAX_RETRIES
             DEFAULT_BACKOFF_BASE Runs.limited_twice).2 !! 0%nat = Some (inject_Z 2).
Proof.
  pose proof (C3_rate_limit_delay_and_budget
                float_of_digits DEFAULT_MAX_RETRIES DEFAULT_BACKOFF_BASE
                Runs.limited_twice 0 Runs.rate_limited_retry_after_2 (inject_Z 2))
    as H.
  destruct H as (Hh & Hm & _).
  - intros j Hj. lia.
  - reflexivity.
  - reflexivity.
  - reflexivity.
  - left. exists "2". repeat split. discriminate.
  - discriminate.
  - split; assumption.
Defined.

(** C3 as the specification words it fails: the first attempt is answered
    429 with retry budget left and a [Retry-After] header that is present,
    an HTTP date; neither client sleeps the header value, or anything: both
    end the request with [ValueError] after that one call. *)
Lemma C3_counterexample_retry_after_http_date :
  MoreRuns.dated_rate_limit 0%nat = Answer MoreRuns.rate_limited_until_date
  /\ status_code MoreRuns.rate_limited_until_date = 429
  /\ Z.of_nat 0 < DEFAULT_MAX_RETRIES
  /\ headers MoreRuns.rate_limited_until_date !! "Retry-After"
     = Some "Wed, 21 Oct 2015 07:28:00 GMT"
  /\ HubSpotConnector._request float_of_digits DEFAULT_MAX_RETRIES
       DEFAULT_BACKOFF_BASE MoreRuns.dated_rate_limit
     = (Raise ValueError, {| slept := []; calls := 1 |})
  /\ MixpanelConnector._request float_of_digits DEFAULT_MAX_RETRIES
       DEFAULT_BACKOFF_BASE MoreRuns.dated_rate_limit
     = (Raise ValueError, {| slept := []; calls := 1 |}).
Proof. repeat split; vm_compute; reflexivity. Qed.

(** The whole run against that transport: 2 seconds, then [1.5 ** 1], then
    the 200 answer at the third call. *)
Example limited_twice_run :
  HubSpotConnector._request float_of_digits DEFAULT_MAX_RETRIES
    DEFAULT_BACKOFF_BASE Runs.limited_twice
  = (Return Runs.ok, {| slept := [inject_Z 2; 3 # 2]; calls := 3 |}).
Proof. reflexivity. Qed.

(** ** Paginated search (C1) *)

Section SearchLoop.

Variable object_type : string.
Variable filter_groups : list string.
Variable request : nat -> result.

Abbreviation search_loop :=
  (HubSpotSearch.search_loop object_type request).


End SearchLoop.




(** ** Python dicts *)

Section PyDictFacts.

Context {V : Type}.

Lemma get_set_eq (k : string) (v : V) (d : list (string * V)) :
  PyDict.get k (PyDict.set k v d) = Some v.
Proof.
  induction d as [|[k' v'] d IH]; simpl.
  - destruct (decide (k = k)); congruence.
  - destruct (decide (k' = k)) as [->|Hne]; simpl.
    + destruct (decide (k = k)); congruence.
    + destruct (decide (k' = k)); [congruence|exact IH].
Qed.

Lemma get_set_ne (k k' : string) (v : V) (d : list (string * V)) :
  k <> k' -> PyDict.get k' (PyDict.set k v d) = PyDict.get k' d.
Proof.
  intros Hne. induction d as [|[k0 v0] d IH]; simpl.
  - destruct (decide (k = k')); congruence.
  - destruct (decide (k0 = k)) as [->|Hk0]; simpl.
    + destruct (decide (k = k')); congruence.
    + destruct (decide (k0 = k')); [reflexivity|exact IH].
Qed.

Lemma get_elem_of (k : string) (v : V) (d : list (string * V)) :
  PyDict.get k d = Some v -> (k, v) ∈ d.
Proof.
  induction d as [|[k' v'] d IH]; simpl; [discriminate|].
  destruct (decide (k' = k)) as [->|Hne].
  - intros [= ->]. left.
  - intros H. right. auto.
Qed.

(** A comprehension [{x: g(x) for x in xs}]. *)
Lemma get_of_items_map (g : string -> V) (xs : list string) (k : string) :
  PyDict.get k (PyDict.of_items (map (fun x => (x, g x)) xs))
  = if decide (k ∈ xs) then Some (g k) else None.
Proof.
  unfold PyDict.of_items.
  enough (forall d0,
            PyDict.get k (fold_left (fun d kv => PyDict.set kv.1 kv.2 d)
                            (map (fun x => (x, g x)) xs) d0)
            = if decide (k ∈ xs) then Some (g k) else PyDict.get k d0) as H
    by (rewrite H; reflexivity).
  induction xs as [|x xs IH]; intros d0; simpl.
  - destruct (decide (k ∈ [])) as [Hin|_]; [inversion Hin|reflexivity].
  - rewrite IH. destruct (decide (k ∈ xs)) as [Hin|Hnin].
    + rewrite decide_True by (right; exact Hin). reflexivity.
    + destruct (decide (x = k)) as [->|Hne].
      * rewrite decide_True by left. apply get_set_eq.
      * rewrite decide_False by (intros Hin; inversion Hin; subst; congruence).
        apply get_set_ne. exact Hne.
Qed.

End PyDictFacts.

(** ** The aggregation loop *)

Import MixpanelKpi.

(** The duplicate test and the update of the seen identifiers, read through
    [carried_id]. *)
Lemma process_event_unfold (st : agg_state) (ev : Event) :
  process_event st ev =
  match event ev with
  | None => st
  | Some event_name =>
      match PyDict.get event_name (aggregated st) with
      | None => st
      | Some entries =>
          let seen := seen_insert_ids st !!! event_name in
          if negb (survives seen ev) then st
          else
            let seen_ids :=
              match carried_id ev with
              | Some i => <[event_name := {[i]} ∪ seen]> (seen_insert_ids st)
              | None => seen_insert_ids st
              end in
            match organization_id (properties ev) with
            | Some org =>
                if unattributable (Some org)
                then {| aggregated := aggregated st; seen_insert_ids := seen_ids |}
                else
                  {| aggregated :=
                       PyDict.set event_name
                         (PyDict.set org
                            (bump (url (properties ev))
                               (default fresh_entry (PyDict.get org entries)))
                            entries)
                         (aggregated st);
                     seen_insert_ids := seen_ids |}
            | None => {| aggregated := aggregated st; seen_insert_ids := seen_ids |}
            end
      end
  end.
Proof.
  unfold process_event, survives, carried_id.
  destruct (event ev) as [en|]; [|reflexivity].
  destruct (PyDict.get en (aggregated st)) as [entries|]; [|reflexivity].
  destruct (insert_id (properties ev)) as [i|]; cbn [truthy]; [|reflexivity].
  destruct (negb (String.eqb i "")); cbn [andb negb]; [|reflexivity].
  destruct (decide (i ∈ seen_insert_ids st !!! en)) as [Hin|Hnin].
  - rewrite (bool_decide_true _ Hin).
    rewrite bool_decide_false by (intros H; apply H; exact Hin). reflexivity.
  - rewrite (bool_decide_false _ Hnin).
    rewrite (bool_decide_true _ Hnin). reflexivity.
Qed.

(** What one event does to the bucket [(e, o)] and to the identifiers seen
    for [e], when [e] is one of the tracked names. *)
Lemma process_event_step (st : agg_state) (ev : Event) (e o : string) :
  is_Some (PyDict.get e (aggregated st)) ->
  is_Some (PyDict.get e (aggregated (process_event st ev)))
  /\ seen_insert_ids (process_event st ev) !!! e
     = seen_after e (seen_insert_ids st !!! e) ev
  /\ bucket (process_event st ev) e o
     = if in_bucket e o ev && survives (seen_insert_ids st !!! e) ev
       then Some (bump (url (properties ev)) (default fresh_entry (bucket st e o)))
       else bucket st e o.
Proof.
  intros [entries0 He]. rewrite process_event_unfold.
  unfold seen_after, in_bucket, named, bucket.
  destruct (event ev) as [en|] eqn:Hev.
  2:{ rewrite !bool_decide_false by discriminate. cbn [andb]. rewrite He. eauto. }
  destruct (decide (en = e)) as [->|Hne].
  2:{ rewrite !(bool_decide_false (Some en = Some e)) by congruence. cbn [andb].
      destruct (PyDict.get en (aggregated st)) as [entries|] eqn:Hen;
        [|rewrite He; eauto].
      cbv zeta.
      destruct (negb (survives _ ev)); [rewrite He; eauto|].
      assert (Hseen : forall i,
                (<[en := {[i]} ∪ (seen_insert_ids st !!! en)]> (seen_insert_ids st)
                 : gmap string (gset string)) !!! e
                = seen_insert_ids st !!! e)
        by (intros i; apply lookup_total_insert_ne; exact Hne).
      destruct (organization_id (properties ev)) as [org|];
        [destruct (unattributable (Some org))|]; cbn [aggregated seen_insert_ids];
        rewrite ?(get_set_ne en e) by exact Hne; rewrite He;
        (split; [eauto|]); (split; [|reflexivity]);
        destruct (carried_id ev); auto. }
  rewrite (bool_decide_true (Some e = Some e)) by reflexivity. rewrite He. cbv zeta.
  cbn [andb].
  destruct (survives (seen_insert_ids st !!! e) ev) eqn:Hsurv; cbn [negb].
  2:{ rewrite He, andb_false_r. split; [eauto|]. split; [|reflexivity].
      unfold survives in Hsurv. destruct (carried_id ev) as [i|]; [|discriminate].
      apply bool_decide_eq_false in Hsurv.
      assert (i ∈ seen_insert_ids st !!! e) by (destruct (decide (i ∈ seen_insert_ids st !!! e)); tauto).
      symmetry. apply subseteq_union_1_L. set_solver. }
  rewrite andb_true_r.
  assert (Hseen :
            (match carried_id ev with
                   | Some i => <[e := {[i]} ∪ (seen_insert_ids st !!! e)]> (seen_insert_ids st)
                   | None => seen_insert_ids st
                   end) !!! e
            = match carried_id ev with
              | Some i => {[i]} ∪ (seen_insert_ids st !!! e)
              | None => seen_insert_ids st !!! e
              end).
  { destruct (carried_id ev); [apply lookup_total_insert_eq|reflexivity]. }
  destruct (organization_id (properties ev)) as [org|] eqn:Horg.
  2:{ cbn [aggregated seen_insert_ids]. rewrite He.
      rewrite (bool_decide_false (None = Some o)) by discriminate. cbn [andb].
      split; [eauto|]. split; [exact Hseen|reflexivity]. }
  destruct (unattributable (Some org)) eqn:Hun.
  { cbn [aggregated seen_insert_ids]. rewrite He. split; [eauto|]. split; [exact Hseen|].
    destruct (decide (org = o)) as [->|Hno].
    - rewrite Hun, andb_false_r. reflexivity.
    - rewrite (bool_decide_false (Some org = Some o)) by congruence. reflexivity. }
  cbn [aggregated seen_insert_ids]. rewrite get_set_eq. split; [eauto|]. split; [exact Hseen|].
  cbn [mbind option_bind].
  destruct (decide (org = o)) as [->|Hno].
  - rewrite (bool_decide_true (Some o = Some o)) by reflexivity. rewrite Hun. cbn [negb andb].
    rewrite get_set_eq. reflexivity.
  - rewrite (bool_decide_false (Some org = Some o)) by congruence. cbn [andb].
    apply get_set_ne. exact Hno.
Qed.

(** The count of a bucket after a stream: what it was, plus the events of
    the stream that reach it. *)
Lemma aggregate_from (events : list Event) (st : agg_state) (e o : string) :
  is_Some (PyDict.get e (aggregated st)) ->
  is_Some (PyDict.get e (aggregated (fold_left process_event events st)))
  /\ bucket_count (fold_left process_event events st) e o
     = bucket_count st e o + surviving e o (seen_insert_ids st !!! e) events
  /\ (is_Some (bucket st e o) ->
      is_Some (bucket (fold_left process_event events st) e o)).
Proof.
  revert st. induction events as [|ev events IH]; intros st He; simpl.
  - split; [exact He|]. split; [lia|auto].
  - destruct (process_event_step st ev e o He) as (He' & Hseen & Hb).
    destruct (IH _ He') as (IH1 & IH2 & IH3). split; [exact IH1|]. split.
    + rewrite IH2, Hseen. unfold bucket_count at 1. rewrite Hb.
      destruct (in_bucket e o ev && survives (seen_insert_ids st !!! e) ev).
      * unfold bucket_count. destruct (bucket st e o); simpl; lia.
      * unfold bucket_count. lia.
    + intros Hsome. apply IH3. rewrite Hb.
      destruct (in_bucket e o ev && survives _ ev); [eauto|exact Hsome].
Qed.

(** The state before the first event: every tracked name has its dict, no
    identifier has been seen, and the known organisations have a bucket with
    count 0. *)
Lemma init_state_tracked (names org_ids : list string) (e : string) :
  e ∈ names ->
  PyDict.get e (aggregated (init_state names org_ids))
  = Some (PyDict.of_items (map (fun org_id => (org_id, fresh_entry)) org_ids)).
Proof.
  intros He. unfold init_state. simpl.
  rewrite (get_of_items_map
             (fun _ => PyDict.of_items (map (fun org_id => (org_id, fresh_entry)) org_ids))).
  rewrite decide_True by exact He. reflexivity.
Qed.

Lemma init_state_bucket (names org_ids : list string) (e o : string) :
  e ∈ names ->
  bucket (init_state names org_ids) e o
  = if decide (o ∈ org_ids) then Some fresh_entry else None.
Proof.
  intros He. unfold bucket. rewrite init_state_tracked by exact He. simpl.
  apply (get_of_items_map (fun _ => fresh_entry)).
Qed.

Lemma init_state_seen (names org_ids : list string) (e : string) :
  seen_insert_ids (init_state names org_ids) !!! e = (∅ : gset string).
Proof.
  unfold init_state. simpl. rewrite lookup_total_alt.
  destruct (list_to_map (M := gmap string (gset string))
              (map (fun event => (event, ∅)) names) !! e) as [s|] eqn:Hs;
    [|reflexivity].
  apply elem_of_list_to_map_2 in Hs. apply list_elem_of_In, in_map_iff in Hs.
  destruct Hs as (x & [= _ <-] & _). reflexivity.
Qed.

(** The count of every bucket after [aggregate]. *)
Lemma aggregate_count (org_ids : list string) (stream : list Event) (e o : string) :
  e ∈ event_names ->
  bucket_count (aggregate org_ids stream) e o = surviving e o ∅ stream
  /\ (o ∈ org_ids -> is_Some (bucket (aggregate org_ids stream) e o)).
Proof.
  intros He. unfold aggregate.
  assert (Htr : is_Some (PyDict.get e (aggregated (init_state event_names org_ids))))
    by (rewrite init_state_tracked by exact He; eauto).
  destruct (aggregate_from stream _ e o Htr) as (_ & Hc & Hs). split.
  - rewrite Hc, init_state_seen. unfold bucket_count.
    rewrite init_state_bucket by exact He.
    destruct (decide (o ∈ org_ids)); simpl; lia.
  - intros Ho. apply Hs. rewrite init_state_bucket by exact He.
    rewrite decide_True by exact Ho. eauto.
Qed.

(** How the three lists of the vocabulary grow with one more event. *)
Lemma bucket_ids_cons (e o : string) (ev : Event) (events : list Event) :
  bucket_ids e o (ev :: events)
  = (if in_bucket e o ev then option_list (carried_id ev) else [])
    ++ bucket_ids e o events.
Proof.
  unfold bucket_ids. simpl. destruct (in_bucket e o ev); [|reflexivity].
  simpl. destruct (carried_id ev); reflexivity.
Qed.

Lemma foreign_ids_cons (e o : string) (ev : Event) (events : list Event) :
  foreign_ids e o (ev :: events)
  = (if named e ev && negb (in_bucket e o ev)
     then option_list (carried_id ev) else [])
    ++ foreign_ids e o events.
Proof.
  unfold foreign_ids. simpl.
  destruct (named e ev && negb (in_bucket e o ev)); [|reflexivity].
  simpl. destruct (carried_id ev); reflexivity.
Qed.

Lemma idless_cons (e o : string) (ev : Event) (events : list Event) :
  idless e o (ev :: events)
  = ((if in_bucket e o ev && bool_decide (carried_id ev = None) then 1 else 0)
     + idless e o events)%nat.
Proof.
  unfold idless. simpl.
  destruct (in_bucket e o ev && bool_decide (carried_id ev = None)); reflexivity.
Qed.

Lemma in_bucket_named (e o : string) (ev : Event) :
  in_bucket e o ev = true -> named e ev = true.
Proof.
  unfold in_bucket. destruct (named e ev); [reflexivity|discriminate].
Qed.

(** Set identities used when an identifier is met. *)
Lemma seen_absorbs (i : string) (seen : gset string) :
  i ∈ seen -> {[i]} ∪ seen = seen.
Proof. intros Hs. apply set_eq. intros x. set_unfold. naive_solver. Qed.

Lemma difference_seen (i : string) (seen B : gset string) :
  i ∈ seen -> ({[i]} ∪ B) ∖ seen = B ∖ seen.
Proof. intros Hs. apply set_eq. intros x. set_unfold. naive_solver. Qed.

Lemma difference_fresh (i : string) (seen B : gset string) :
  i ∉ seen -> ({[i]} ∪ B) ∖ seen = {[i]} ∪ (B ∖ ({[i]} ∪ seen)).
Proof.
  intros Hs. apply set_eq. intros x. set_unfold.
  destruct (decide (x = i)); subst; naive_solver.
Qed.

Lemma size_fresh (i : string) (X : gset string) :
  i ∉ X -> size ({[i]} ∪ X) = S (size X).
Proof.
  intros H. rewrite size_union by set_solver. rewrite size_singleton. reflexivity.
Qed.

Lemma difference_foreign (i : string) (seen B : gset string) :
  i ∉ B -> B ∖ ({[i]} ∪ seen) = B ∖ seen.
Proof. intros Hs. apply set_eq. intros x. set_unfold. naive_solver. Qed.

(** When no identifier of the bucket is carried by an event of the same
    name outside the bucket, the events that reach the bucket are its
    identifier-less events and one event per identifier not seen before. *)
Lemma surviving_distinct (e o : string) (events : list Event) :
  forall seen : gset string,
    (forall i, i ∈ bucket_ids e o events -> i ∉ foreign_ids e o events) ->
    surviving e o seen events
    = Z.of_nat (size (list_to_set (bucket_ids e o events) ∖ seen))
      + Z.of_nat (idless e o events).
Proof.
  induction events as [|ev events IH]; intros seen H.
  - simpl. unfold bucket_ids, idless. simpl.
    replace ((∅ : gset string) ∖ seen) with (∅ : gset string) by set_solver.
    rewrite size_empty. reflexivity.
  - assert (Hrest : forall i, i ∈ bucket_ids e o events -> i ∉ foreign_ids e o events).
    { intros i Hi Hf. apply (H i).
      - rewrite bucket_ids_cons. apply elem_of_app. right. exact Hi.
      - rewrite foreign_ids_cons. apply elem_of_app. right. exact Hf. }
    cbn [surviving]. rewrite (IH _ Hrest).
    rewrite bucket_ids_cons, idless_cons in *. rewrite foreign_ids_cons in H.
    unfold seen_after, survives.
    set (B := bucket_ids e o events) in *.
    destruct (in_bucket e o ev) eqn:Hin.
    + rewrite (in_bucket_named _ _ _ Hin).
      destruct (carried_id ev) as [i|] eqn:Hid; unfold option_list; cbn [option_rect andb app].
      * rewrite list_to_set_cons.
        destruct (decide (i ∈ seen)) as [Hs|Hs].
        -- rewrite bool_decide_false by (intros Hc; apply Hc; exact Hs).
           rewrite bool_decide_false by discriminate.
           rewrite (seen_absorbs i seen Hs), (difference_seen i seen _ Hs). lia.
        -- rewrite bool_decide_true by exact Hs.
           rewrite bool_decide_false by discriminate.
           rewrite (difference_fresh i seen _ Hs).
           rewrite size_fresh; [lia|]. clear. set_solver.
      * rewrite bool_decide_true by reflexivity. lia.
    + cbn [andb app]. destruct (named e ev) eqn:Hn; [|lia].
      destruct (carried_id ev) as [i|] eqn:Hid; [|lia].
      assert (Hni : i ∉ B).
      { intros Hi. apply (H i); [exact Hi|]. cbn. left. }
      rewrite (difference_foreign i seen (list_to_set B)); [lia|].
      rewrite elem_of_list_to_set. exact Hni.
Qed.

(** ** Deduplicated counts (C4) *)

(** C4, as found in the code.  [seen_insert_ids] is kept per event name, not
    per bucket.  For a bucket none of whose identifiers is carried by an
    event of the same name outside the bucket, the final count is the number
    of distinct identifiers of its events plus the number of its events
    without identifier.  An event whose identifier is already in the seen
    set of its name leaves the whole state as it is, and an attributable
    event without identifier adds one to its bucket. *)
Theorem C4_count_is_distinct_ids_plus_idless
    (org_ids : list string) (stream : list Event) (e o : string) :
  e ∈ event_names ->
  (forall i, i ∈ bucket_ids e o stream -> i ∉ foreign_ids e o stream) ->
  bucket_count (aggregate org_ids stream) e o
  = Z.of_nat (size (list_to_set (bucket_ids e o stream) : gset string))
    + Z.of_nat (idless e o stream)
  /\ (forall st ev i,
        event ev = Some e -> carried_id ev = Some i ->
        i ∈ seen_insert_ids st !!! e ->
        process_event st ev = st)
  /\ (forall st ev,
        is_Some (PyDict.get e (aggregated st)) ->
        in_bucket e o ev = true -> carried_id ev = None ->
        bucket_count (process_event st ev) e o = bucket_count st e o + 1).
Proof.
  intros He Hown. split; [|split].
  - destruct (aggregate_count org_ids stream e o He) as [-> _].
    rewrite (surviving_distinct e o stream ∅ Hown).
    rewrite difference_empty_L. reflexivity.
  - intros st ev i Hev Hid Hseen. rewrite process_event_unfold, Hev.
    destruct (PyDict.get e (aggregated st)); [|reflexivity].
    cbv zeta. unfold survives. rewrite Hid.
    rewrite bool_decide_false by (intros Hc; apply Hc; exact Hseen).
    reflexivity.
  - intros st ev Htr Hin Hid.
    destruct (process_event_step st ev e o Htr) as (_ & _ & Hb).
    unfold bucket_count. rewrite Hb, Hin. unfold survives. rewrite Hid. simpl.
    destruct (bucket st e o); simpl; lia.
Qed.

(** The theorem at work: A's bucket counts the call exported twice once,
    and the call without identifier once. *)
Lemma C4_witness_duplicated_stream :
  bucket_count (aggregate ["A"; "B"] Runs.duplicated_stream) "api-call" "A" = 2.
Proof.
  destruct (C4_count_is_distinct_ids_plus_idless
              ["A"; "B"] Runs.duplicated_stream "api-call" "A") as (H & _ & _).
  - vm_compute. set_solver.
  - intros i Hi Hf. vm_compute in Hi, Hf. set_solver.
  - rewrite H. vm_compute. reflexivity.
Defined.

(** C4 as the specification words it fails: B's only event carries an
    identifier, so B's bucket has one distinct identifier, yet its count is
    0, because A's event had that identifier first. *)
Lemma C4_counterexample_identifier_shared_across_buckets :
  bucket (aggregate ["A"; "B"] Runs.shared_id_stream) "api-call" "B"
  = Some {| urls := []; count := 0 |}
  /\ Z.of_nat (size (list_to_set (bucket_ids "api-call" "B" Runs.shared_id_stream)
                    : gset string))
     + Z.of_nat (idless "api-call" "B" Runs.shared_id_stream) = 1.
Proof. split; vm_compute; reflexivity. Qed.

(** ** The flush loop *)

Section FlushFacts.

Variable search_company : string -> option (list crm_object).

Lemma push_updates (h : option string) (pu : list (string * Z)) (st : flush_state) :
  hubspot_cache (push h pu st) = hubspot_cache st
  /\ lookups (push h pu st) = lookups st
  /\ updates (push h pu st)
     = updates st ++ match h with
                     | Some h' => if truthy (Some h') then [(h', pu)] else []
                     | None => []
                     end.
Proof.
  unfold push. destruct h as [h'|]; [|rewrite app_nil_r; auto].
  destruct (truthy (Some h')); simpl; [|rewrite app_nil_r]; auto.
Qed.

Lemma cache_invariant_push (h : option string) (pu : list (string * Z))
    (st : flush_state) :
  cache_invariant search_company st ->
  cache_invariant search_company (push h pu st).
Proof.
  destruct (push_updates h pu st) as (Hpc & Hpl & _).
  unfold cache_invariant. rewrite Hpc, Hpl. auto.
Qed.

(** One entry: one lookup if the organisation is not cached yet, and the
    upsert exactly when the organisation resolves. *)
Lemma flush_entry_spec (m : mapping) (st : flush_state) (item : string * entry) :
  cache_invariant search_company st ->
  cache_invariant search_company (flush_entry search_company m st item)
  /\ updates (flush_entry search_company m st item)
     = updates st ++ upsert_of search_company m item.
Proof.
  intros (Hnd & Hdom & Hval). unfold flush_entry, upsert_of.
  destruct item as [o en]. cbn [fst snd].
  destruct (hubspot_cache st !! o) as [v|] eqn:Hc.
  - destruct (push_updates v (property_updates m en) st) as (_ & _ & Hpu).
    rewrite Hpu, <- (Hval o v Hc). split; [|reflexivity].
    apply cache_invariant_push. unfold cache_invariant. auto.
  - assert (Hnew : o ∉ lookups st).
    { intros Hin. apply Hdom in Hin. rewrite Hc in Hin. destruct Hin; discriminate. }
    assert (Hinv : forall ups,
               cache_invariant search_company
                 {| hubspot_cache := <[o := resolved_id search_company o]> (hubspot_cache st);
                    lookups := lookups st ++ [o]; updates := ups |}).
    { intros ups. unfold cache_invariant. cbn [hubspot_cache lookups]. split; [|split].
      - apply NoDup_app. split; [exact Hnd|]. split; [|apply NoDup_singleton].
        intros x Hx Hx'. apply list_elem_of_singleton in Hx'. subst. auto.
      - intros x. rewrite elem_of_app, list_elem_of_singleton, lookup_insert_is_Some.
        rewrite Hdom. destruct (decide (o = x)); naive_solver.
      - intros x v. rewrite lookup_insert. destruct (decide (o = x)) as [->|_].
        + intros [= <-]. reflexivity.
        + apply Hval. }
    unfold resolved_id in *.
    destruct (search_company o) as [[|r rs]|].
    + split; [apply cache_invariant_push, Hinv|].
      destruct (push_updates None (property_updates m en)
                  {| hubspot_cache := <[o := None]> (hubspot_cache st);
                     lookups := lookups st ++ [o]; updates := updates st |})
        as (_ & _ & Hpu).
      cbn [hubspot_cache lookups updates]. rewrite Hpu. reflexivity.
    + split; [apply cache_invariant_push, Hinv|].
      destruct (push_updates (obj_id r) (property_updates m en)
                  {| hubspot_cache := <[o := obj_id r]> (hubspot_cache st);
                     lookups := lookups st ++ [o]; updates := updates st |})
        as (_ & _ & Hpu).
      cbn [hubspot_cache lookups updates]. rewrite Hpu. reflexivity.
    + cbn [hubspot_cache lookups updates]. rewrite app_nil_r.
      split; [apply Hinv|reflexivity].
Qed.

Lemma flush_entries_spec (m : mapping) (entries : list (string * entry))
    (st : flush_state) :
  cache_invariant search_company st ->
  cache_invariant search_company (fold_left (flush_entry search_company m) entries st)
  /\ updates (fold_left (flush_entry search_company m) entries st)
     = updates st ++ flat_map (upsert_of search_company m) entries.
Proof.
  revert st. induction entries as [|item entries IH]; intros st Hinv; simpl.
  - rewrite app_nil_r. auto.
  - destruct (flush_entry_spec m st item Hinv) as [Hinv' Hup].
    destruct (IH _ Hinv') as [Hinv'' Hup'].
    split; [exact Hinv''|]. rewrite Hup', Hup, <- app_assoc. reflexivity.
Qed.

Lemma flush_metrics_spec (agg : list (string * list (string * entry)))
    (config : list (string * mapping)) (st : flush_state) :
  cache_invariant search_company st ->
  cache_invariant search_company (fold_left (flush_metric search_company agg) config st)
  /\ updates (fold_left (flush_metric search_company agg) config st)
     = updates st ++ expected_updates search_company config agg.
Proof.
  revert st. induction config as [|metric config IH]; intros st Hinv; simpl.
  - unfold expected_updates. simpl. rewrite app_nil_r. auto.
  - unfold flush_metric at 2 4.
    destruct (flush_entries_spec metric.2 (default [] (PyDict.get metric.1 agg)) st Hinv)
      as [Hinv' Hup].
    destruct (IH _ Hinv') as [Hinv'' Hup'].
    split; [exact Hinv''|]. rewrite Hup', Hup, <- app_assoc. reflexivity.
Qed.

Lemma flush_spec (config : list (string * mapping))
    (agg : list (string * list (string * entry))) :
  cache_invariant search_company (flush search_company config agg)
  /\ updates (flush search_company config agg)
     = expected_updates search_company config agg.
Proof.
  unfold flush. apply flush_metrics_spec.
  unfold cache_invariant. simpl. split; [constructor|]. split.
  - intros o. split; [intros H; inversion H|].
    rewrite lookup_empty. intros [x Hx]. discriminate.
  - intros o v. rewrite lookup_empty. discriminate.
Qed.

End FlushFacts.

Lemma expected_updates_elem (search_company : string -> option (list crm_object))
    (config : list (string * mapping))
    (agg : list (string * list (string * entry)))
    (e : string) (m : mapping) (entries : list (string * entry))
    (o : string) (en : entry) (h : string) :
  (e, m) ∈ config ->
  PyDict.get e agg = Some entries ->
  (o, en) ∈ entries ->
  resolved_id search_company o = Some h -> h <> "" ->
  (h, property_updates m en) ∈ expected_updates search_company config agg.
Proof.
  intros Hm He Ho Hr Hh. unfold expected_updates.
  apply list_elem_of_In, in_flat_map. exists (e, m).
  split; [apply list_elem_of_In; exact Hm|]. cbn [fst snd]. rewrite He. simpl.
  apply in_flat_map. exists (o, en). split; [apply list_elem_of_In; exact Ho|].
  unfold upsert_of. cbn [fst snd]. rewrite Hr. simpl.
  apply String.eqb_neq in Hh. rewrite Hh. simpl. left. reflexivity.
Qed.

(** Every upsert due is among the upserts [main] issues. *)
Lemma main_updates_elem (search_company : string -> option (list crm_object))
    (org_ids : list string) (stream : list Event)
    (e : string) (m : mapping) (entries : list (string * entry))
    (o : string) (en : entry) (h : string) :
  (e, m) ∈ MIXPANEL_EVENT_TO_HUBSPOT_PROPERTY ->
  PyDict.get e (aggregated (aggregate org_ids stream)) = Some entries ->
  (o, en) ∈ entries ->
  resolved_id search_company o = Some h -> h <> "" ->
  (h, property_updates m en) ∈ updates (main search_company org_ids stream).
Proof.
  intros Hm He Ho Hr Hh. unfold main.
  destruct (flush_spec search_company MIXPANEL_EVENT_TO_HUBSPOT_PROPERTY
              (aggregated (aggregate org_ids stream))) as [_ Hup].
  rewrite Hup. eapply expected_updates_elem; eassumption.
Qed.

(** ** One lookup per organisation (C9) *)

(** C9.  In one run every organisation id is looked up at most once; what
    the lookup gave is cached, a CRM id as well as a miss or a failed search
    (both cached as [None]); and the upserts issued are exactly those due
    for the organisations that resolve, metric by metric: an organisation
    that does not resolve loses its own upserts only. *)
Theorem C9_one_lookup_per_organisation_and_no_abort
    (search_company : string -> option (list crm_object))
    (org_ids : list string) (stream : list Event) :
  NoDup (lookups (main search_company org_ids stream))
  /\ (forall o, o ∈ lookups (main search_company org_ids stream) ->
        hubspot_cache (main search_company org_ids stream) !! o
        = Some (resolved_id search_company o))
  /\ updates (main search_company org_ids stream)
     = expected_updates search_company MIXPANEL_EVENT_TO_HUBSPOT_PROPERTY
         (aggregated (aggregate org_ids stream))
  /\ (forall e m entries o en h,
        (e, m) ∈ MIXPANEL_EVENT_TO_HUBSPOT_PROPERTY ->
        PyDict.get e (aggregated (aggregate org_ids stream)) = Some entries ->
        (o, en) ∈ entries ->
        resolved_id search_company o = Some h -> h <> "" ->
        (h, property_updates m en) ∈ updates (main search_company org_ids stream)).
Proof.
  unfold main.
  destruct (flush_spec search_company MIXPANEL_EVENT_TO_HUBSPOT_PROPERTY
              (aggregated (aggregate org_ids stream)))
    as [(Hnd & Hdom & Hval) Hup].
  split; [exact Hnd|]. split; [|split; [exact Hup|]].
  - intros o Ho. apply Hdom in Ho. destruct Ho as [v Hv].
    rewrite Hv. f_equal. apply (Hval o v Hv).
  - intros e m entries o en h Hm He Ho Hr Hh.
    eapply main_updates_elem; eassumption.
Qed.

(** The theorem at work: A resolves, B is a miss and the search for C
    raises; three lookups are made for the six metrics, and A's six upserts
    are issued. *)
Lemma C9_witness_miss_and_failure :
  lookups (main Runs.crm_directory ["A"; "B"; "C"] Runs.duplicated_stream)
  = ["A"; "B"; "C"]
  /\ NoDup (lookups (main Runs.crm_directory ["A"; "B"; "C"] Runs.duplicated_stream))
  /\ length (updates (main Runs.crm_directory ["A"; "B"; "C"] Runs.duplicated_stream))
     = 6%nat.
Proof.
  destruct (C9_one_lookup_per_organisation_and_no_abort
              Runs.crm_directory ["A"; "B"; "C"] Runs.duplicated_stream)
    as (Hnd & _ & Hup & _).
  split; [vm_compute; reflexivity|]. split; [exact Hnd|].
  rewrite Hup. vm_compute. reflexivity.
Defined.

(** ** Zero counts for known organisations (C7) *)

Lemma surviving_none (e o : string) (events : list Event) :
  forall seen : gset string,
    (forall ev, ev ∈ events -> in_bucket e o ev = false) ->
    surviving e o seen events = 0.
Proof.
  induction events as [|ev events IH]; intros seen H; [reflexivity|].
  cbn [surviving]. rewrite (H ev) by left. rewrite IH; [reflexivity|].
  intros ev' Hev'. apply H. right. exact Hev'.
Qed.

(** C7.  A known organisation to which no event of a metric is attributed
    keeps its pre-seeded bucket for that metric with count 0; for a metric
    mapped to a single property the flush computes [{property: 0}] for it,
    and upserts that to the company the organisation resolves to. *)
Theorem C7_known_organisation_without_events_emits_zero
    (org_ids : list string) (stream : list Event) (o e p : string) :
  o ∈ org_ids ->
  (e, DirectCount p) ∈ MIXPANEL_EVENT_TO_HUBSPOT_PROPERTY ->
  (forall ev, ev ∈ stream -> in_bucket e o ev = false) ->
  exists en,
    bucket (aggregate org_ids stream) e o = Some en
    /\ count en = 0
    /\ property_updates (DirectCount p) en = [(p, 0)]
    /\ (forall search_company h,
          resolved_id search_company o = Some h -> h <> "" ->
          (h, [(p, 0)]) ∈ updates (main search_company org_ids stream)).
Proof.
  intros Ho Hm Hnone.
  assert (He : e ∈ event_names).
  { unfold event_names. apply list_elem_of_In, in_map_iff.
    exists (e, DirectCount p). split; [reflexivity|apply list_elem_of_In; exact Hm]. }
  destruct (aggregate_count org_ids stream e o He) as [Hc Hs].
  destruct (Hs Ho) as [en Hen]. exists en.
  assert (Hz : count en = 0).
  { unfold bucket_count in Hc. rewrite Hen in Hc. simpl in Hc.
    rewrite Hc. apply surviving_none. exact Hnone. }
  split; [exact Hen|]. split; [exact Hz|]. split; [simpl; rewrite Hz; reflexivity|].
  intros search_company h Hr Hh.
  unfold bucket in Hen.
  destruct (PyDict.get e (aggregated (aggregate org_ids stream))) as [entries|] eqn:Hg;
    [|discriminate].
  simpl in Hen. apply get_elem_of in Hen.
  pose proof (main_updates_elem search_company org_ids stream
                e (DirectCount p) entries o en h Hm Hg Hen Hr Hh) as Hall.
  simpl in Hall. rewrite Hz in Hall. exact Hall.
Qed.

(** The theorem at work: organisation B has no session in the stream. *)
Lemma C7_witness_no_session_for_B :
  exists en,
    bucket (aggregate ["A"; "B"] Runs.duplicated_stream) "Session start" "B" = Some en
    /\ count en = 0
    /\ property_updates (DirectCount "user_sessions_past_90_days") en
       = [("user_sessions_past_90_days", 0)]
    /\ (forall search_company h,
          resolved_id search_company "B" = Some h -> h <> "" ->
          (h, [("user_sessions_past_90_days", 0)])
          ∈ updates (main search_company ["A"; "B"] Runs.duplicated_stream)).
Proof.
  apply (C7_known_organisation_without_events_emits_zero
           ["A"; "B"] Runs.duplicated_stream "B" "Session start"
           "user_sessions_past_90_days").
  - right. left.
  - do 4 right. left.
  - intros ev Hev. unfold Runs.duplicated_stream in Hev.
    repeat (apply elem_of_cons in Hev as [->|Hev]); try reflexivity.
    inversion Hev.
Defined.


(** ** Keyword counts (C8) *)




Section OfItems.

Context {V : Type}.



End OfItems.



(** ** The staged rows and the batch flush *)

Import ArrSync.

Lemma BATCH_SIZE_pos : (0 < BATCH_SIZE)%nat.
Proof. unfold BATCH_SIZE. lia. Qed.

Lemma staged_app (rows1 rows2 : list (list string)) :
  forall r, staged r (rows1 ++ rows2)
            = staged r rows1 ++ staged (r + Z.of_nat (length rows1)) rows2.
Proof.
  induction rows1 as [|c rows1 IH]; intros r; simpl.
  - rewrite Z.add_0_r. reflexivity.
  - rewrite IH. do 3 f_equal. lia.
Qed.

Lemma staged_length (rows : list (list string)) :
  forall r, length (staged r rows) = length rows.
Proof. induction rows as [|c rows IH]; intros r; simpl; [|rewrite IH]; reflexivity. Qed.

Lemma staged_row_index (rows : list (list string)) :
  forall r, map row_index (staged r rows) = seqZ r (Z.of_nat (length rows)).
Proof.
  induction rows as [|c rows IH]; intros r; [reflexivity|].
  cbn [staged map length]. rewrite seqZ_cons by lia. rewrite IH.
  do 2 f_equal; lia.
Qed.

Lemma staged_drop (rows : list (list string)) :
  forall n r, drop n (staged r rows) = staged (r + Z.of_nat n) (drop n rows).
Proof.
  induction rows as [|c rows IH]; intros n r.
  - destruct n; reflexivity.
  - destruct n as [|n]; simpl.
    + rewrite Z.add_0_r. reflexivity.
    + rewrite IH. f_equal. lia.
Qed.

Lemma staged_take (rows : list (list string)) :
  forall n r, take n (staged r rows) = staged r (take n rows).
Proof.
  induction rows as [|c rows IH]; intros n r.
  - destruct n; reflexivity.
  - destruct n as [|n]; simpl; [reflexivity|]. rewrite IH. reflexivity.
Qed.

(** The staging loops number the rows they stage consecutively. *)
Lemma stage_line_items_staged (assocs : list association) :
  forall r u r' u',
    stage_line_items assocs r u = Some (r', u') ->
    exists rows, u' = u ++ staged r rows /\ r' = r + Z.of_nat (length rows).
Proof.
  induction assocs as [|a assocs IH]; intros r u r' u'; simpl.
  - intros [= <- <-]. exists []. simpl. rewrite app_nil_r. split; [reflexivity|lia].
  - destruct (negb (truthy (line_item_id a))); [apply IH|].
    destruct (line_item_cells a) as [c|]; [|discriminate].
    intros H. apply IH in H. destruct H as (rows & -> & ->).
    exists (c :: rows). simpl. rewrite <- app_assoc. split; [reflexivity|lia].
Qed.

Lemma stage_deals_staged (deals : list deal) :
  forall r u u',
    stage_deals deals r u = Some u' -> exists rows, u' = u ++ staged r rows.
Proof.
  induction deals as [|d deals IH]; intros r u u'; simpl.
  - intros [= <-]. exists []. simpl. rewrite app_nil_r. reflexivity.
  - destruct (assoc_data d) as [[assocs|]|]; try discriminate.
    destruct (stage_line_items assocs r u) as [[r1 u1]|] eqn:Hli; [|discriminate].
    apply stage_line_items_staged in Hli. destruct Hli as (rows1 & -> & ->).
    intros H. apply IH in H. destruct H as (rows2 & ->).
    exists (rows1 ++ rows2). rewrite staged_app, app_assoc. reflexivity.
Qed.

(** The starts of the chunks: the multiples of [BATCH_SIZE] below the
    number of rows. *)
Lemma starts_count (n k : nat) :
  (k < (n + BATCH_SIZE - 1) / BATCH_SIZE <-> k * BATCH_SIZE < n)%nat.
Proof.
  pose proof BATCH_SIZE_pos as Hb. split; intros H.
  - destruct (Nat.le_gt_cases n (k * BATCH_SIZE)) as [Hle|]; [|assumption].
    exfalso.
    assert ((n + BATCH_SIZE - 1) / BATCH_SIZE < S k)%nat; [|lia].
    apply Nat.Div0.div_lt_upper_bound. lia.
  - apply Nat.div_le_lower_bound; lia.
Qed.

Lemma starts_lookup (n k start : nat) :
  starts n !! k = Some start <-> start = (k * BATCH_SIZE)%nat /\ (k * BATCH_SIZE < n)%nat.
Proof.
  unfold starts. rewrite list_lookup_fmap.
  destruct (seq 0 ((n + BATCH_SIZE - 1) / BATCH_SIZE) !! k) as [i|] eqn:Hi; simpl.
  - apply lookup_seq in Hi. destruct Hi as [-> Hi]. simpl.
    split; [intros [= <-]; split; [reflexivity|apply starts_count; exact Hi]|].
    intros [-> _]. reflexivity.
  - split; [discriminate|]. intros [_ H]. apply starts_count in H.
    apply lookup_ge_None in Hi. rewrite length_seq in Hi. lia.
Qed.

Lemma chunk_at_nonempty (u : list sheet_update) (start : nat) :
  (start < length u)%nat -> chunk_at u start <> [].
Proof.
  intros H Hnil. apply (f_equal length) in Hnil. unfold chunk_at in Hnil.
  rewrite length_take, length_drop in Hnil. pose proof BATCH_SIZE_pos.
  change (length (@nil sheet_update)) with 0%nat in Hnil. lia.
Qed.

Lemma write_rows_app (l1 l2 : list sheet_update) (c : gmap Z (list string)) :
  write_rows (l1 ++ l2) c = write_rows l2 (write_rows l1 c).
Proof. unfold write_rows. apply fold_left_app. Qed.

Section FlushChunks.

Variable clear_ok : bool.
Variable update_ok : nat -> bool.

(** The loop stops at the first refused chunk: the chunks before it have
    been written, the refused one is the last call, and its rows are the
    reported range. *)
Lemma flush_chunks_stops (u : list sheet_update) (k : nat) :
  forall todo nth s log start,
    (forall st, st ∈ todo -> chunk_at u st <> []) ->
    todo !! k = Some start ->
    (forall j, (j < k)%nat -> update_ok (nth + j) = true) ->
    update_ok (nth + k) = false ->
    flush_chunks update_ok todo nth u s log
    = (Stopped,
       {| cells := write_rows (concat (map (chunk_at u) (take k todo))) (cells s);
          api_calls :=
            api_calls s
            ++ map (fun st => BatchUpdate (chunk_at u st) true) (take k todo)
            ++ [BatchUpdate (chunk_at u start) false] |},
       log ++ [StoppingSync (Z.of_nat start + 2)
                 (Z.of_nat start + 2 + Z.of_nat (length (chunk_at u start)) - 1)]).
Proof.
  induction k as [|k IH]; intros todo nth s log start Hne Hk Hok Hfail;
    destruct todo as [|st0 todo]; try discriminate; simpl in Hk.
  - injection Hk as ->. simpl. unfold batch_update_values.
    rewrite Nat.add_0_r in Hfail.
    destruct (chunk_at u start) eqn:Hc; [exfalso; apply (Hne start); [left|exact Hc]|].
    rewrite Hfail. simpl. reflexivity.
  - cbn [flush_chunks]. unfold batch_update_values.
    pose proof (Hok 0%nat ltac:(lia)) as H0. rewrite Nat.add_0_r in H0.
    destruct (chunk_at u st0) eqn:Hc; [exfalso; apply (Hne st0); [left|exact Hc]|].
    rewrite H0. cbn [negb].
    rewrite (IH todo (S nth) _ log start).
    + cbn [cells api_calls take map concat]. rewrite Hc.
      rewrite write_rows_app, <- app_assoc. reflexivity.
    + intros st Hst. apply Hne. right. exact Hst.
    + exact Hk.
    + intros j Hj. replace (S nth + j)%nat with (nth + S j)%nat by lia.
      apply Hok. lia.
    + replace (S nth + k)%nat with (nth + S k)%nat by lia. exact Hfail.
Qed.

(** When every chunk is accepted the loop writes them all. *)
Lemma flush_chunks_completes (u : list sheet_update) :
  forall todo nth s log,
    (forall st, st ∈ todo -> chunk_at u st <> []) ->
    (forall j, (j < length todo)%nat -> update_ok (nth + j) = true) ->
    flush_chunks update_ok todo nth u s log
    = (Completed,
       {| cells := write_rows (concat (map (chunk_at u) todo)) (cells s);
          api_calls :=
            api_calls s ++ map (fun st => BatchUpdate (chunk_at u st) true) todo |},
       log ++ [SuccessfullyWrote (length u)]).
Proof.
  induction todo as [|st0 todo IH]; intros nth s log Hne Hok.
  - simpl. rewrite app_nil_r. destruct s. reflexivity.
  - cbn [flush_chunks]. unfold batch_update_values.
    pose proof (Hok 0%nat ltac:(simpl; lia)) as H0. rewrite Nat.add_0_r in H0.
    destruct (chunk_at u st0) eqn:Hc; [exfalso; apply (Hne st0); [left|exact Hc]|].
    rewrite H0. cbn [negb]. rewrite IH.
    + cbn [cells api_calls map concat]. rewrite Hc.
      rewrite write_rows_app, <- app_assoc. reflexivity.
    + intros st Hst. apply Hne. right. exact Hst.
    + intros j Hj. replace (S nth + j)%nat with (nth + S j)%nat by lia.
      apply Hok. simpl. lia.
Qed.

End FlushChunks.

Lemma take_starts (n k : nat) :
  (k * BATCH_SIZE < n)%nat ->
  take k (starts n) = map (fun i => (i * BATCH_SIZE)%nat) (seq 0 k).
Proof.
  intros H. apply starts_count in H. unfold starts.
  change (take k (map ?f ?l)) with (take k (f <$> l)).
  rewrite <- fmap_take, take_seq. rewrite Nat.min_l by lia. reflexivity.
Qed.

Lemma concat_chunks_upto (u : list sheet_update) (k : nat) :
  concat (map (chunk_at u) (map (fun i => (i * BATCH_SIZE)%nat) (seq 0 k)))
  = take (k * BATCH_SIZE) u.
Proof.
  induction k as [|k IH]; [reflexivity|].
  rewrite seq_S, !map_app, concat_app, IH. cbn [map concat].
  rewrite app_nil_r. unfold chunk_at. rewrite Nat.add_0_l, take_take_drop.
  f_equal. lia.
Qed.

Lemma chunks_lookup (u : list sheet_update) (j : nat) (c : list sheet_update) :
  chunks u !! j = Some c
  <-> c = chunk_at u (j * BATCH_SIZE) /\ (j * BATCH_SIZE < length u)%nat.
Proof.
  unfold chunks. rewrite list_lookup_fmap.
  destruct (starts (length u) !! j) as [st|] eqn:Hst; simpl.
  - apply starts_lookup in Hst. destruct Hst as [-> Hlt].
    split; [intros [= <-]; auto|intros [-> _]; reflexivity].
  - split; [discriminate|]. intros [_ Hlt].
    assert (starts (length u) !! j = Some (j * BATCH_SIZE)%nat) as Hs
      by (apply starts_lookup; auto).
    congruence.
Qed.

Lemma concat_chunks (u : list sheet_update) : concat (chunks u) = u.
Proof.
  unfold chunks, starts. rewrite concat_chunks_upto. apply take_ge.
  set (q := ((length u + BATCH_SIZE - 1) / BATCH_SIZE)%nat).
  destruct (Nat.le_gt_cases (length u) (q * BATCH_SIZE)) as [|Hlt]; [assumption|].
  apply starts_count in Hlt. unfold q in Hlt. lia.
Qed.

(** Rows written at distinct sheet rows are all there afterwards. *)
Lemma write_rows_other (l : list sheet_update) (r : Z) :
  forall c, r ∉ map row_index l -> write_rows l c !! r = c !! r.
Proof.
  induction l as [|y l IH]; intros c Hr; [reflexivity|].
  change (write_rows (y :: l) c) with (write_rows l (<[row_index y := row_values y]> c)).
  rewrite IH by (intros Hin; apply Hr; right; exact Hin).
  apply lookup_insert_ne. intros Heq. apply Hr. rewrite <- Heq. left.
Qed.

Lemma write_rows_lookup (l : list sheet_update) (x : sheet_update) :
  forall c, NoDup (map row_index l) -> x ∈ l ->
    write_rows l c !! row_index x = Some (row_values x).
Proof.
  induction l as [|y l IH]; intros c Hnd Hx; [inversion Hx|].
  change (write_rows (y :: l) c) with (write_rows l (<[row_index y := row_values y]> c)).
  cbn [map] in Hnd. apply NoDup_cons in Hnd as [Hy Hnd].
  apply elem_of_cons in Hx as [->|Hx].
  - rewrite write_rows_other by exact Hy. apply lookup_insert_eq.
  - apply IH; assumption.
Qed.

Lemma staged_NoDup (rows : list (list string)) (r : Z) :
  NoDup (map row_index (staged r rows)).
Proof. rewrite staged_row_index. apply NoDup_seqZ. Qed.

(** ** The batch flush (C6) *)

Lemma write_sheet_nonempty (clear_ok : bool) (update_ok : nat -> bool)
    (u : list sheet_update) (s : sheet) :
  u <> [] ->
  write_sheet clear_ok update_ok u s
  = flush_chunks update_ok (starts (length u)) 0 u
      (clear_selected_columns clear_ok s) [Prepared (length u)].
Proof. destruct u; [congruence|reflexivity]. Qed.

(** Among the first [n] batch updates either all are accepted or one is
    the first to be refused. *)
Lemma first_refused (update_ok : nat -> bool) (n : nat) :
  (forall j, (j < n)%nat -> update_ok j = true)
  \/ exists k, (k < n)%nat
               /\ (forall j, (j < k)%nat -> update_ok j = true)
               /\ update_ok k = false.
Proof.
  induction n as [|n IH]; [left; intros j Hj; lia|].
  destruct IH as [Hall|(k & Hk & Hbefore & Hfail)].
  - destruct (update_ok n) eqn:Hn.
    + left. intros j Hj. destruct (decide (j = n)) as [->|Hne]; [exact Hn|].
      apply Hall. lia.
    + right. exists n. split; [lia|]. split; [exact Hall|exact Hn].
  - right. exists k. split; [lia|]. split; [exact Hbefore|exact Hfail].
Qed.

Lemma chunks_length (u : list sheet_update) (k : nat) :
  (k < length (chunks u))%nat <-> (k * BATCH_SIZE < length u)%nat.
Proof.
  unfold chunks, starts. rewrite !length_map, length_seq. apply starts_count.
Qed.

(** The flush of a queue all of whose batches are accepted. *)
Lemma write_sheet_accepted (clear_ok : bool) (update_ok : nat -> bool)
    (u : list sheet_update) (s : sheet) :
  u <> [] ->
  (forall j, (j * BATCH_SIZE < length u)%nat -> update_ok j = true) ->
  write_sheet clear_ok update_ok u s
  = (Completed,
     {| cells := write_rows u (cells (clear_selected_columns clear_ok s));
        api_calls :=
          api_calls s ++ Clear :: map (fun c => BatchUpdate c true) (chunks u) |},
     [Prepared (length u); SuccessfullyWrote (length u)]).
Proof.
  intros Hne Hok. rewrite write_sheet_nonempty by exact Hne.
  rewrite flush_chunks_completes.
  - change (map (chunk_at u) (starts (length u))) with (chunks u).
    rewrite concat_chunks. unfold chunks. rewrite map_map.
    cbn [clear_selected_columns api_calls app]. rewrite <- app_assoc. reflexivity.
  - intros st Hst. apply list_elem_of_lookup in Hst. destruct Hst as [i Hi].
    apply starts_lookup in Hi. destruct Hi as [-> Hi].
    apply chunk_at_nonempty. exact Hi.
  - intros j Hj. apply Hok. unfold starts in Hj.
    rewrite length_map, length_seq in Hj. apply starts_count. exact Hj.
Qed.

(** The flush of a queue whose batch [k] is the first to be refused. *)
Lemma write_sheet_refused (clear_ok : bool) (update_ok : nat -> bool)
    (u : list sheet_update) (s : sheet) (k : nat) :
  (k * BATCH_SIZE < length u)%nat ->
  (forall j, (j < k)%nat -> update_ok j = true) ->
  update_ok k = false ->
  write_sheet clear_ok update_ok u s
  = (Stopped,
     {| cells := write_rows (take (k * BATCH_SIZE) u)
                   (cells (clear_selected_columns clear_ok s));
        api_calls :=
          api_calls s
          ++ Clear :: map (fun c => BatchUpdate c true) (take k (chunks u))
          ++ [BatchUpdate (chunk_at u (k * BATCH_SIZE)) false] |},
     [Prepared (length u);
      StoppingSync (Z.of_nat (k * BATCH_SIZE) + 2)
        (Z.of_nat (k * BATCH_SIZE) + 2
         + Z.of_nat (length (chunk_at u (k * BATCH_SIZE))) - 1)]).
Proof.
  intros Hk Hok Hfail.
  assert (Htake : take k (chunks u)
                  = map (chunk_at u) (map (fun i => (i * BATCH_SIZE)%nat) (seq 0 k))).
  { unfold chunks. change (take k (map ?f ?l)) with (take k (f <$> l)).
    rewrite <- fmap_take. rewrite take_starts by exact Hk. reflexivity. }
  rewrite write_sheet_nonempty by (intros ->; simpl in Hk; lia).
  rewrite (flush_chunks_stops update_ok u k (starts (length u)) 0
             (clear_selected_columns clear_ok s) [Prepared (length u)]
             (k * BATCH_SIZE)%nat).
  - rewrite take_starts by exact Hk. rewrite concat_chunks_upto.
    rewrite Htake, !map_map. cbn [clear_selected_columns api_calls app].
    rewrite <- app_assoc. reflexivity.
  - intros st Hst. apply list_elem_of_lookup in Hst. destruct Hst as [i Hi].
    apply starts_lookup in Hi. destruct Hi as [-> Hi].
    apply chunk_at_nonempty. exact Hi.
  - apply starts_lookup. auto.
  - intros j Hj. apply Hok. exact Hj.
  - exact Hfail.
Qed.

(** C6.  For every staged queue and every way the sheet accepts or refuses
    the batches.  The chunks are [sheet_updates[start : start + 200]] for
    [start = 0, 200, ...]: together they are the queue in its order, each
    holds 200 rows except a shorter last one, and chunk [j] holds the sheet
    rows from [200 j + 2] on.  [main] clears once and then sends the chunks
    in that order, each accepted, up to and including the first one the
    sheet refuses, and sends nothing after it.  When every batch is accepted
    all chunks are sent and all rows written.  When the write of chunk [k]
    is the first to be refused, the chunks before it have been written and
    stay written, the refused call is the last call made, and the range
    logged is the inclusive range of sheet rows of chunk [k]. *)
Theorem C6_flush_in_chunks_stops_at_first_failure
    (clear_ok : bool) (update_ok : nat -> bool) (deals : list deal) (s : sheet)
    (u : list sheet_update) :
  stage_deals deals 2 [] = Some u ->
  concat (chunks u) = u
  /\ (forall j c, chunks u !! j = Some c ->
        c = take 200 (drop (j * 200) u)
        /\ length c = Nat.min 200 (length u - j * 200)
        /\ (0 < length c)%nat
        /\ map row_index c = seqZ (Z.of_nat (j * 200) + 2) (Z.of_nat (length c)))
  /\ (u <> [] ->
      exists k,
        (k <= length (chunks u))%nat
        /\ (forall j, (j < k)%nat -> update_ok j = true)
        /\ ((k < length (chunks u))%nat -> update_ok k = false)
        /\ api_calls (main clear_ok update_ok deals s).1.2
           = api_calls s
             ++ Clear :: map (fun c => BatchUpdate c true) (take k (chunks u))
             ++ match chunks u !! k with
                | Some chunk => [BatchUpdate chunk false]
                | None => []
                end)
  /\ (u <> [] ->
      (forall j, (j * 200 < length u)%nat -> update_ok j = true) ->
      main clear_ok update_ok deals s
      = (Completed,
         {| cells := write_rows u (cells (clear_selected_columns clear_ok s));
            api_calls :=
              api_calls s ++ Clear :: map (fun c => BatchUpdate c true) (chunks u) |},
         [Prepared (length u); SuccessfullyWrote (length u)])
      /\ forall x c, x ∈ u -> write_rows u c !! row_index x = Some (row_values x))
  /\ (forall k,
        (k * 200 < length u)%nat ->
        (forall j, (j < k)%nat -> update_ok j = true) ->
        update_ok k = false ->
        let chunk := take 200 (drop (k * 200) u) in
        let first_row := Z.of_nat (k * 200) + 2 in
        let last_row := first_row + Z.of_nat (length chunk) - 1 in
        let written := take (k * 200) u in
        main clear_ok update_ok deals s
        = (Stopped,
           {| cells := write_rows written (cells (clear_selected_columns clear_ok s));
              api_calls :=
                api_calls s
                ++ Clear :: map (fun c => BatchUpdate c true) (take k (chunks u))
                ++ [BatchUpdate chunk false] |},
           [Prepared (length u); StoppingSync first_row last_row])
        /\ chunks u !! k = Some chunk
        /\ concat (take k (chunks u)) = written
        /\ map row_index chunk = seqZ first_row (Z.of_nat (length chunk))
        /\ (forall x c, x ∈ written ->
              write_rows written c !! row_index x = Some (row_values x))).
Proof.
  intros Hstage. change 200%nat with BATCH_SIZE in *.
  destruct (stage_deals_staged deals 2 [] u Hstage) as [rows Hu].
  simpl in Hu.
  assert (Hmain : main clear_ok update_ok deals s = write_sheet clear_ok update_ok u s)
    by (unfold main; rewrite Hstage; reflexivity).
  assert (Hrows : forall n, map row_index (take BATCH_SIZE (drop n u))
                            = seqZ (Z.of_nat n + 2)
                                (Z.of_nat (length (take BATCH_SIZE (drop n u))))).
  { intros n. rewrite Hu, staged_drop, staged_take, staged_row_index.
    rewrite staged_length. f_equal. lia. }
  split; [apply concat_chunks|]. split; [|split; [|split]].
  - intros j c Hc. apply chunks_lookup in Hc. destruct Hc as [-> Hj].
    split; [reflexivity|]. unfold chunk_at. split; [|split; [|apply Hrows]].
    + rewrite length_take, length_drop. pose proof BATCH_SIZE_pos. lia.
    + rewrite length_take, length_drop. pose proof BATCH_SIZE_pos. lia.
  - intros Hne. rewrite Hmain.
    destruct (first_refused update_ok (length (chunks u)))
      as [Hall|(k & Hk & Hbefore & Hfail)].
    + exists (length (chunks u)). split; [lia|]. split; [exact Hall|].
      split; [lia|].
      rewrite write_sheet_accepted;
        [|exact Hne|intros j Hj; apply Hall, chunks_length; exact Hj].
      cbn [fst snd api_calls]. rewrite firstn_all.
      rewrite (proj2 (lookup_ge_None (chunks u) (length (chunks u)))) by lia.
      rewrite app_nil_r. reflexivity.
    + exists k. split; [lia|]. split; [exact Hbefore|]. split; [auto|].
      pose proof (proj1 (chunks_length u k) Hk) as Hk'.
      rewrite (write_sheet_refused clear_ok update_ok u s k Hk' Hbefore Hfail).
      cbn [fst snd api_calls].
      rewrite (proj2 (chunks_lookup u k (chunk_at u (k * BATCH_SIZE))))
        by (split; [reflexivity|exact Hk']).
      reflexivity.
  - intros Hne Hok. rewrite Hmain. split; [apply write_sheet_accepted; assumption|].
    intros x c Hx. apply write_rows_lookup; [|exact Hx].
    rewrite Hu. apply staged_NoDup.
  - intros k Hk Hok Hfail chunk first_row last_row written.
    split; [|split; [|split; [|split]]].
    + rewrite Hmain. apply write_sheet_refused; assumption.
    + apply chunks_lookup. auto.
    + subst written. unfold chunks.
      change (take k (map ?f ?l)) with (take k (f <$> l)).
      rewrite <- fmap_take. rewrite take_starts by exact Hk.
      apply concat_chunks_upto.
    + apply Hrows.
    + intros x c Hx. apply write_rows_lookup; [|exact Hx].
      subst written. rewrite Hu, staged_take. apply staged_NoDup.
Qed.

(** The theorem at work: 450 rows are staged, the second batch update is
    refused; the chunks hold 200, 200 and 50 rows, the third is never
    attempted, and rows 202-401 are reported. *)
Lemma C6_witness_450_rows_second_chunk_fails :
  (exists u,
     stage_deals [Runs.deal_with_450_line_items] 2 [] = Some u
     /\ length u = 450%nat
     /\ map length (chunks u) = [200; 200; 50]%nat
     /\ exists s',
          main true Runs.second_update_fails [Runs.deal_with_450_line_items]
            Runs.sheet_with_old_rows
          = (Stopped, s', [Prepared 450; StoppingSync 202 401])
          /\ map (fun call => match call with
                              | Clear => (0%nat, true)
                              | BatchUpdate data ok => (length data, ok)
                              end) (api_calls s')
             = [(0, true); (200, true); (200, false)]%nat).
Proof.
  destruct (stage_deals [Runs.deal_with_450_line_items] 2 []) as [u|] eqn:Hu;
    [|vm_compute in Hu; discriminate].
  exists u. split; [reflexivity|].
  assert (Hlen : length u = 450%nat)
    by (vm_compute in Hu; injection Hu as <-; reflexivity).
  assert (Hchunks : map length (chunks u) = [200; 200; 50]%nat)
    by (vm_compute in Hu; injection Hu as <-; vm_compute; reflexivity).
  split; [exact Hlen|]. split; [exact Hchunks|].
  destruct (C6_flush_in_chunks_stops_at_first_failure
              true Runs.second_update_fails [Runs.deal_with_450_line_items]
              Runs.sheet_with_old_rows u Hu) as (_ & _ & _ & _ & Hstop).
  destruct (Hstop 1%nat) as (Hmain & Hk & _).
  - rewrite Hlen. lia.
  - intros j Hj. assert (j = 0%nat) as -> by lia. reflexivity.
  - reflexivity.
  - eexists. split.
    + rewrite Hmain. rewrite Hlen, length_take, length_drop, Hlen. reflexivity.
    + cbn [api_calls]. rewrite map_app. cbn [map app].
      rewrite map_app, map_map. cbn [map].
      rewrite length_take, length_drop, Hlen.
      assert (Ht : map length (take 1 (chunks u)) = [200%nat])
        by (change (map length (take 1 (chunks u))) with (length <$> take 1 (chunks u));
            rewrite fmap_take; change (length <$> chunks u) with (map length (chunks u));
            rewrite Hchunks; reflexivity).
      destruct (take 1 (chunks u)) as [|c0 [|c1 cs]]; try discriminate Ht.
      injection Ht as Ht. cbn [map]. rewrite Ht. reflexivity.
Defined.

(** ** Nothing staged, nothing cleared (C10) *)

Lemma flush_chunks_appends (update_ok : nat -> bool) (u : list sheet_update)
    (todo : list nat) :
  forall nth s log,
    exists rest,
      api_calls (flush_chunks update_ok todo nth u s log).1.2 = api_calls s ++ rest.
Proof.
  induction todo as [|st todo IH]; intros nth s log.
  - exists []. simpl. rewrite app_nil_r. reflexivity.
  - cbn [flush_chunks]. unfold batch_update_values.
    destruct (chunk_at u st) as [|x c].
    + cbn [negb]. apply IH.
    + destruct (update_ok nth); cbn [negb].
      * destruct (IH (S nth)
                    {| cells := write_rows (x :: c) (cells s);
                       api_calls := api_calls s ++ [BatchUpdate (x :: c) true] |} log)
          as [rest Hrest].
        rewrite Hrest. cbn [api_calls]. rewrite <- app_assoc. eauto.
      * cbn [fst snd api_calls]. eauto.
Qed.

(** C10.  When the staging loop ends with no row, [main] makes no call to
    the sheet at all: the sheet is returned as it was, cells and calls.  The
    [clear] is the first call made when rows were staged, and it is made
    only then. *)
Theorem C10_no_rows_no_clear
    (clear_ok : bool) (update_ok : nat -> bool) (deals : list deal) (s : sheet)
    (u : list sheet_update) :
  stage_deals deals 2 [] = Some u ->
  (u = [] -> main clear_ok update_ok deals s = (Completed, s, [NoLineItems]))
  /\ (u <> [] ->
      exists rest,
        api_calls (main clear_ok update_ok deals s).1.2
        = api_calls s ++ Clear :: rest)
  /\ (Clear ∈ drop (length (api_calls s))
                (api_calls (main clear_ok update_ok deals s).1.2) ->
      u <> []).
Proof.
  intros Hstage. unfold main. rewrite Hstage. split; [|split].
  - intros ->. reflexivity.
  - intros Hne. rewrite write_sheet_nonempty by exact Hne.
    destruct (flush_chunks_appends update_ok u (starts (length u)) 0
                (clear_selected_columns clear_ok s) [Prepared (length u)])
      as [rest Hrest].
    rewrite Hrest. cbn [clear_selected_columns api_calls].
    rewrite <- app_assoc. exists rest. reflexivity.
  - intros Hin ->. cbn in Hin. rewrite drop_all in Hin. inversion Hin.
Qed.

(** The theorem at work: the only deal has no line item, and the sheet
    keeps its old row. *)
Lemma C10_witness_deal_without_line_items :
  main true Runs.second_update_fails [Runs.deal_without_line_items]
    Runs.sheet_with_old_rows
  = (Completed, Runs.sheet_with_old_rows, [NoLineItems]).
Proof.
  destruct (C10_no_rows_no_clear true Runs.second_update_fails
              [Runs.deal_without_line_items] Runs.sheet_with_old_rows [])
    as (H & _).
  - reflexivity.
  - apply H. reflexivity.
Defined.

(** ** The delta query *)

Import DBKpi.

Lemma same_partition_in_part (r r' : kpi_row) :
  same_partition r r' = in_part (organization_id r) (kpi r) r'.
Proof.
  unfold same_partition, in_part.
  f_equal; apply bool_decide_ext; split; congruence.
Qed.

Lemma filter_nil_iff {A : Type} (f : A -> bool) (l : list A) :
  List.filter f l = [] <-> forall x, x ∈ l -> f x = false.
Proof.
  induction l as [|a l IH]; simpl.
  - split; [intros _ x Hx; inversion Hx|reflexivity].
  - destruct (f a) eqn:Hfa.
    + split; [discriminate|]. intros H. specialize (H a ltac:(left)). congruence.
    + rewrite IH. split.
      * intros H x Hx. apply elem_of_cons in Hx as [->|Hx]; auto.
      * intros H x Hx. apply H. right. exact Hx.
Qed.

(** A row has number 1 exactly when no row of its partition before it has a
    key below or equal to its own, and none after it a key below. *)
Lemma row_number_1 (key : kpi_row -> Z) (before after : list kpi_row) (r : kpi_row) :
  row_number key before r after = 1
  <-> (forall r', r' ∈ before -> same_partition r r' = true -> key r < key r')
      /\ (forall r', r' ∈ after -> same_partition r r' = true -> key r <= key r').
Proof.
  unfold row_number.
  set (fb := fun r' => same_partition r r' && (key r' <=? key r)).
  set (fa := fun r' => same_partition r r' && (key r' <? key r)).
  assert (Hb : List.filter fb before = []
               <-> forall r', r' ∈ before -> same_partition r r' = true -> key r < key r').
  { rewrite filter_nil_iff. unfold fb. split; intros H r' Hr'.
    - intros Hs. specialize (H r' Hr'). rewrite Hs in H. simpl in H. lia.
    - destruct (same_partition r r') eqn:Hs; [|reflexivity].
      specialize (H r' Hr' Hs). simpl. apply Z.leb_gt. lia. }
  assert (Ha : List.filter fa after = []
               <-> forall r', r' ∈ after -> same_partition r r' = true -> key r <= key r').
  { rewrite filter_nil_iff. unfold fa. split; intros H r' Hr'.
    - intros Hs. specialize (H r' Hr'). rewrite Hs in H. simpl in H. lia.
    - destruct (same_partition r r') eqn:Hs; [|reflexivity].
      specialize (H r' Hr' Hs). simpl. apply Z.ltb_ge. lia. }
  rewrite <- Hb, <- Ha. split.
  - intros H. split.
    + destruct (List.filter fb before); [reflexivity|simpl in H; lia].
    + destruct (List.filter fa after); [reflexivity|simpl in H; lia].
  - intros [-> ->]. reflexivity.
Qed.

(** The rows of the CTE are the input rows, each numbered at its place. *)
Lemma number_rows_elem (w : window_row) (rows : list kpi_row) :
  forall before,
    w ∈ number_rows before rows
    <-> exists l1 l2,
          rows = l1 ++ row w :: l2
          /\ rn_asc w = row_number asc (before ++ l1) (row w) l2
          /\ rn_desc w = row_number desc (before ++ l1) (row w) l2.
Proof.
  induction rows as [|r rows IH]; intros before; simpl.
  - split; [intros H; inversion H|].
    intros (l1 & l2 & H & _). destruct l1; discriminate.
  - rewrite elem_of_cons, IH. split.
    + intros [->|(l1 & l2 & -> & Ha & Hd)].
      * exists [], rows. simpl. rewrite app_nil_r. auto.
      * exists (r :: l1), l2. rewrite <- app_assoc in Ha, Hd. auto.
    + intros (l1 & l2 & Hrows & Ha & Hd). destruct l1 as [|r0 l1].
      * left. simpl in Hrows. injection Hrows as -> ->.
        rewrite app_nil_r in Ha, Hd. destruct w. simpl in *. congruence.
      * right. simpl in Hrows. injection Hrows as -> ->.
        exists l1, l2. rewrite <- app_assoc. auto.
Qed.

(** In a list holding a row of the partition there is a place whose row
    comes first in the order of [key]: earlier rows of the partition have
    larger keys, later ones keys at least as large. *)
Lemma first_by_key (key : kpi_row -> Z) (org k : string) (rows : list kpi_row) :
  (exists r, r ∈ rows /\ in_part org k r = true) ->
  exists l1 r1 l2,
    rows = l1 ++ r1 :: l2 /\ in_part org k r1 = true
    /\ (forall r', r' ∈ l1 -> in_part org k r' = true -> key r1 < key r')
    /\ (forall r', r' ∈ l2 -> in_part org k r' = true -> key r1 <= key r').
Proof.
  induction rows as [|a rows IH]; intros (r & Hr & Hp); [inversion Hr|].
  destruct (List.existsb (in_part org k) rows) eqn:Hex.
  - apply existsb_exists in Hex. destruct Hex as (x & Hx & Hxp).
    destruct IH as (l1 & r1 & l2 & -> & Hp1 & Hb & Ha).
    { exists x. split; [apply list_elem_of_In; exact Hx|exact Hxp]. }
    destruct (in_part org k a && (key a <=? key r1)) eqn:Hfirst.
    + apply andb_true_iff in Hfirst as [Hpa Hle]. apply Z.leb_le in Hle.
      exists [], a, (l1 ++ r1 :: l2). split; [reflexivity|]. split; [exact Hpa|].
      split; [intros r' Hr'; inversion Hr'|].
      intros r' Hr' Hp'. apply elem_of_app in Hr' as [Hr'|Hr'].
      * specialize (Hb r' Hr' Hp'). lia.
      * apply elem_of_cons in Hr' as [->|Hr']; [lia|].
        specialize (Ha r' Hr' Hp'). lia.
    + exists (a :: l1), r1, l2. split; [reflexivity|]. split; [exact Hp1|].
      split; [|exact Ha].
      intros r' Hr' Hp'. apply elem_of_cons in Hr' as [->|Hr']; [|auto].
      rewrite Hp' in Hfirst. simpl in Hfirst. apply Z.leb_gt in Hfirst. lia.
  - assert (Hnone : forall x, x ∈ rows -> in_part org k x = false).
    { intros x Hx. destruct (in_part org k x) eqn:Hxp; [|reflexivity].
      assert (List.existsb (in_part org k) rows = true); [|congruence].
      apply existsb_exists. exists x. split; [apply list_elem_of_In; exact Hx|exact Hxp]. }
    apply elem_of_cons in Hr as [->|Hr]; [|rewrite (Hnone r Hr) in Hp; discriminate].
    exists [], a, rows. split; [reflexivity|]. split; [exact Hp|].
    split; [intros r' Hr'; inversion Hr'|].
    intros r' Hr' Hp'. rewrite (Hnone r' Hr') in Hp'. discriminate.
Qed.

(** Two places that both come first are the same place. *)
Lemma first_by_key_unique (key : kpi_row -> Z) (org k : string)
    (l1 l2 l1' l2' : list kpi_row) (r1 r1' : kpi_row) :
  l1 ++ r1 :: l2 = l1' ++ r1' :: l2' ->
  in_part org k r1 = true -> in_part org k r1' = true ->
  (forall r', r' ∈ l1 -> in_part org k r' = true -> key r1 < key r') ->
  (forall r', r' ∈ l2 -> in_part org k r' = true -> key r1 <= key r') ->
  (forall r', r' ∈ l1' -> in_part org k r' = true -> key r1' < key r') ->
  (forall r', r' ∈ l2' -> in_part org k r' = true -> key r1' <= key r') ->
  r1 = r1'.
Proof.
  intros Heq Hp Hp' Hb Ha Hb' Ha'.
  assert (H1 : (l1 ++ r1 :: l2) !! length l1 = Some r1) by (apply list_lookup_middle; reflexivity).
  assert (H2 : (l1' ++ r1' :: l2') !! length l1' = Some r1') by (apply list_lookup_middle; reflexivity).
  destruct (Nat.lt_trichotomy (length l1) (length l1')) as [Hlt|[Heql|Hgt]].
  - exfalso. rewrite Heq in H1. rewrite lookup_app_l in H1 by exact Hlt.
    apply list_elem_of_lookup_2 in H1.
    rewrite <- Heq in H2. rewrite lookup_app_r in H2 by lia.
    destruct (length l1' - length l1)%nat as [|n] eqn:Hn; [lia|]. simpl in H2.
    apply list_elem_of_lookup_2 in H2.
    specialize (Hb' r1 H1 Hp). specialize (Ha r1' H2 Hp'). lia.
  - rewrite Heq, Heql in H1. congruence.
  - exfalso. rewrite <- Heq in H2. rewrite lookup_app_l in H2 by exact Hgt.
    apply list_elem_of_lookup_2 in H2.
    rewrite Heq in H1. rewrite lookup_app_r in H1 by lia.
    destruct (length l1 - length l1')%nat as [|n] eqn:Hn; [lia|]. simpl in H1.
    apply list_elem_of_lookup_2 in H1.
    specialize (Hb r1' H2 Hp'). specialize (Ha' r1 H1 Hp). lia.
Qed.

Lemma in_part_true (org k : string) (r : kpi_row) :
  in_part org k r = true <-> organization_id r = org /\ kpi r = k.
Proof.
  unfold in_part. rewrite andb_true_iff, !bool_decide_eq_true. reflexivity.
Qed.

(** [MAX] over a column whose only non-[NULL] value is [v]. *)
Lemma sql_max_single (column : list (option Z)) (v : Z) :
  (forall x, x ∈ column -> x = None \/ x = Some v) ->
  Some v ∈ column ->
  sql_max column = Some v.
Proof.
  induction column as [|x column IH]; intros Hall Hin; [inversion Hin|].
  assert (Hrest : sql_max column = None \/ sql_max column = Some v).
  { clear -Hall. induction column as [|y column IH]; [left; reflexivity|].
    destruct IH as [IH|IH].
    - intros z Hz. apply Hall. apply elem_of_cons in Hz as [->|Hz]; [left|].
      right. right. exact Hz.
    - destruct (Hall y ltac:(right; left)) as [->| ->]; simpl; rewrite IH; auto.
    - destruct (Hall y ltac:(right; left)) as [->| ->]; simpl; rewrite IH; auto.
      right. rewrite Z.max_id. reflexivity. }
  simpl. destruct (Hall x ltac:(left)) as [->| ->].
  - apply IH.
    + intros z Hz. apply Hall. right. exact Hz.
    + apply elem_of_cons in Hin as [Hin|Hin]; [discriminate|exact Hin].
  - destruct Hrest as [-> | ->]; [reflexivity|]. rewrite Z.max_id. reflexivity.
Qed.

Lemma filter_map_single {A B : Type} (P : B -> bool) (f : A -> B)
    (keys : list A) (key0 : A) :
  NoDup keys -> key0 ∈ keys ->
  (forall key, key ∈ keys -> P (f key) = true -> key = key0) ->
  P (f key0) = true ->
  List.filter P (map f keys) = [f key0].
Proof.
  induction keys as [|a keys IH]; intros Hnd Hin Hall H0; [inversion Hin|].
  apply NoDup_cons in Hnd as [Ha Hnd].
  assert (Hnone : key0 ∉ keys ->
                  List.filter P (map f keys) = []).
  { intros Hn. apply filter_nil_iff. intros x Hx.
    apply list_elem_of_In, in_map_iff in Hx. destruct Hx as (key & <- & Hkey).
    apply list_elem_of_In in Hkey.
    destruct (P (f key)) eqn:HP; [|reflexivity].
    exfalso. apply Hn. rewrite <- (Hall key); [exact Hkey|right; exact Hkey|exact HP]. }
  simpl. apply elem_of_cons in Hin as [<-|Hin].
  - rewrite H0, (Hnone Ha). reflexivity.
  - destruct (P (f a)) eqn:HPa.
    + exfalso. apply Ha. rewrite (Hall a); [exact Hin|left|exact HPa].
    + apply IH; auto. intros key Hkey. apply Hall. right. exact Hkey.
Qed.

Section RankOne.

(** An order of the window ([asc] or [desc]) with its row number. *)
Variable key : kpi_row -> Z.
Variable rn : window_row -> Z.

Hypothesis rn_of_place :
  forall rows w, w ∈ number_rows [] rows ->
    exists l1 l2, rows = l1 ++ row w :: l2
                  /\ rn w = row_number key l1 (row w) l2.

Hypothesis place_has_rn :
  forall l1 r l2,
    exists w, w ∈ number_rows [] (l1 ++ r :: l2)
              /\ row w = r /\ rn w = row_number key l1 r l2.

(** The value at rank 1 in the group of a partition whose rows share one
    name: the value of a row that comes first in the order. *)
Lemma value_at_rank_1_first (rows : list kpi_row) (org k name : string) :
  (exists r, r ∈ rows /\ in_part org k r = true) ->
  (forall r, r ∈ rows -> in_part org k r = true -> organization_name r = name) ->
  exists r1,
    r1 ∈ rows /\ in_part org k r1 = true
    /\ (forall r, r ∈ rows -> in_part org k r = true -> key r1 <= key r)
    /\ (exists w, w ∈ number_rows [] rows /\ group_key w = (org, name, k))
    /\ value_at_rank_1 rn
         (List.filter (fun x => bool_decide (group_key x = (org, name, k)))
            (number_rows [] rows))
       = Some (value r1).
Proof.
  intros Hex Hname.
  destruct (first_by_key key org k rows Hex) as (l1 & r1 & l2 & Hrows & Hp1 & Hb & Ha).
  assert (Hr1 : r1 ∈ rows)
    by (rewrite Hrows; apply elem_of_app; right; left).
  destruct (in_part_true org k r1) as [Hpt _]. destruct (Hpt Hp1) as [Horg Hk].
  assert (Hkey1 : forall w, row w = r1 -> group_key w = (org, name, k)).
  { intros w Hw. unfold group_key. rewrite Hw, Horg, Hk, (Hname r1 Hr1 Hp1). reflexivity. }
  assert (Hsame : forall r r', in_part org k r = true ->
                               same_partition r r' = in_part org k r').
  { intros r r' Hp. apply in_part_true in Hp as [Ho Hkk].
    rewrite same_partition_in_part, Ho, Hkk. reflexivity. }
  assert (Hrank : forall w, w ∈ number_rows [] rows ->
                            in_part org k (row w) = true -> rn w = 1 -> row w = r1).
  { intros w Hw Hpw Hone.
    destruct (rn_of_place rows w Hw) as (la & lb & Hsplit & Hrn).
    rewrite Hrn in Hone. apply row_number_1 in Hone as [Hbw Haw]. symmetry.
    apply (first_by_key_unique key org k l1 l2 la lb r1 (row w)); auto.
    - congruence.
    - intros r' Hr' Hp'. apply Hbw; [exact Hr'|]. rewrite (Hsame _ _ Hpw). exact Hp'.
    - intros r' Hr' Hp'. apply Haw; [exact Hr'|]. rewrite (Hsame _ _ Hpw). exact Hp'. }
  destruct (place_has_rn l1 r1 l2) as (w1 & Hw1 & Hrow1 & Hrn1).
  rewrite <- Hrows in Hw1.
  assert (Hone1 : rn w1 = 1).
  { rewrite Hrn1. apply row_number_1. split; intros r' Hr'; rewrite (Hsame _ _ Hp1); auto. }
  exists r1. split; [exact Hr1|]. split; [exact Hp1|]. split; [|split].
  - intros r Hr Hp. rewrite Hrows in Hr. apply elem_of_app in Hr as [Hr|Hr].
    + specialize (Hb r Hr Hp). lia.
    + apply elem_of_cons in Hr as [->|Hr]; [lia|]. exact (Ha r Hr Hp).
  - exists w1. split; [exact Hw1|]. apply Hkey1. exact Hrow1.
  - unfold value_at_rank_1. apply sql_max_single.
    + intros x Hx. apply list_elem_of_In, in_map_iff in Hx.
      destruct Hx as (w & <- & Hw). apply filter_In in Hw as [Hw Hg].
      apply bool_decide_eq_true in Hg. apply list_elem_of_In in Hw.
      destruct (rn w =? 1) eqn:Hone; [|left; reflexivity]. right.
      apply Z.eqb_eq in Hone. rewrite (Hrank w Hw); [reflexivity| |exact Hone].
      apply in_part_true. unfold group_key in Hg. injection Hg as Ho _ Hkk. auto.
    + apply list_elem_of_In, in_map_iff. exists w1.
      rewrite Hone1, Hrow1. split; [reflexivity|].
      apply filter_In. split; [apply list_elem_of_In; exact Hw1|].
      apply bool_decide_eq_true. apply Hkey1. exact Hrow1.
Qed.

End RankOne.

Lemma asc_of_place (rows : list kpi_row) (w : window_row) :
  w ∈ number_rows [] rows ->
  exists l1 l2, rows = l1 ++ row w :: l2 /\ rn_asc w = row_number asc l1 (row w) l2.
Proof.
  intros Hw. apply number_rows_elem in Hw. destruct Hw as (l1 & l2 & H1 & H2 & _).
  eauto.
Qed.

Lemma desc_of_place (rows : list kpi_row) (w : window_row) :
  w ∈ number_rows [] rows ->
  exists l1 l2, rows = l1 ++ row w :: l2 /\ rn_desc w = row_number desc l1 (row w) l2.
Proof.
  intros Hw. apply number_rows_elem in Hw. destruct Hw as (l1 & l2 & H1 & _ & H2).
  eauto.
Qed.

Lemma place_has_asc (l1 : list kpi_row) (r : kpi_row) (l2 : list kpi_row) :
  exists w, w ∈ number_rows [] (l1 ++ r :: l2)
            /\ row w = r /\ rn_asc w = row_number asc l1 r l2.
Proof.
  exists {| row := r; rn_asc := row_number asc l1 r l2;
            rn_desc := row_number desc l1 r l2 |}.
  split; [|auto]. apply number_rows_elem. exists l1, l2. auto.
Qed.

Lemma place_has_desc (l1 : list kpi_row) (r : kpi_row) (l2 : list kpi_row) :
  exists w, w ∈ number_rows [] (l1 ++ r :: l2)
            /\ row w = r /\ rn_desc w = row_number desc l1 r l2.
Proof.
  exists {| row := r; rn_asc := row_number asc l1 r l2;
            rn_desc := row_number desc l1 r l2 |}.
  split; [|auto]. apply number_rows_elem. exists l1, l2. auto.
Qed.

Lemma partition_of_elem (today_minus_30 year_now : Z) (org k : string)
    (table : list kpi_row) (r : kpi_row) :
  r ∈ partition_of today_minus_30 year_now org k table
  <-> r ∈ List.filter (in_window today_minus_30 year_now) table
      /\ in_part org k r = true.
Proof.
  unfold partition_of. rewrite !list_elem_of_In, filter_In. reflexivity.
Qed.

Lemma number_rows_row (rows : list kpi_row) (w : window_row) :
  w ∈ number_rows [] rows -> row w ∈ rows.
Proof.
  intros Hw. apply number_rows_elem in Hw. destruct Hw as (l1 & l2 & -> & _).
  apply elem_of_app. right. left.
Qed.

(** The query on a partition whose rows share one organisation name: one
    delta row, from a row with the earliest and a row with the latest
    timestamp of the partition. *)
Lemma fetch_kpis_partition (today_minus_30 year_now : Z) (table : list kpi_row)
    (org k name : string) :
  partition_of today_minus_30 year_now org k table <> [] ->
  (forall r, r ∈ partition_of today_minus_30 year_now org k table ->
             organization_name r = name) ->
  exists r_first r_last,
    r_first ∈ partition_of today_minus_30 year_now org k table
    /\ r_last ∈ partition_of today_minus_30 year_now org k table
    /\ (forall r, r ∈ partition_of today_minus_30 year_now org k table ->
          run_timestamp r_first <= run_timestamp r <= run_timestamp r_last)
    /\ deltas_of org k (fetch_kpis today_minus_30 year_now table)
       = [ {| d_organization_id := org;
              d_organization_name := name;
              d_kpi := k;
              first_value := Some (value r_first);
              last_value := Some (value r_last);
              delta := Some (value r_last - value r_first) |} ].
Proof.
  intros Hne Hname.
  set (rows := List.filter (in_window today_minus_30 year_now) table).
  assert (Hex : exists r, r ∈ rows /\ in_part org k r = true).
  { destruct (partition_of today_minus_30 year_now org k table) as [|r0 p] eqn:Hp;
      [congruence|].
    exists r0. apply partition_of_elem. rewrite Hp. left. }
  assert (Hname' : forall r, r ∈ rows -> in_part org k r = true ->
                             organization_name r = name).
  { intros r Hr Hp. apply Hname. apply partition_of_elem. auto. }
  destruct (value_at_rank_1_first asc rn_asc asc_of_place place_has_asc
              rows org k name Hex Hname')
    as (r_first & Hf1 & Hf2 & Hf3 & (wf & Hwf & Hkf) & Hfv).
  destruct (value_at_rank_1_first desc rn_desc desc_of_place place_has_desc
              rows org k name Hex Hname')
    as (r_last & Hl1 & Hl2 & Hl3 & _ & Hlv).
  exists r_first, r_last.
  split; [apply partition_of_elem; auto|]. split; [apply partition_of_elem; auto|].
  split.
  - intros r Hr. apply partition_of_elem in Hr as [Hr Hp].
    specialize (Hf3 r Hr Hp). specialize (Hl3 r Hr Hp). unfold asc, desc in *.
    fold rows in Hr. lia.
  - unfold deltas_of, fetch_kpis, kpi_window. fold rows.
    rewrite (filter_map_single _ (select_group (number_rows [] rows))
               _ (org, name, k)).
    + unfold select_group. cbn [fst snd]. rewrite Hfv, Hlv. reflexivity.
    + apply NoDup_remove_dups.
    + apply elem_of_remove_dups, list_elem_of_In, in_map_iff.
      exists wf. split; [exact Hkf|apply list_elem_of_In; exact Hwf].
    + intros key Hkey HP. apply elem_of_remove_dups, list_elem_of_In, in_map_iff in Hkey.
      destruct Hkey as (w & <- & Hw). apply list_elem_of_In in Hw.
      unfold select_group in HP. cbn [d_organization_id d_kpi group_key fst snd] in HP.
      apply andb_true_iff in HP as [Ho Hk].
      apply bool_decide_eq_true in Ho, Hk.
      unfold group_key. rewrite Ho, Hk. do 2 f_equal.
      apply Hname'; [apply number_rows_row; exact Hw|].
      apply in_part_true. auto.
    + unfold select_group. cbn [d_organization_id d_kpi fst snd].
      rewrite !bool_decide_true by reflexivity. reflexivity.
Qed.

(** ** First value, last value and delta (C5) *)

Lemma NoDup_map_inj {A B : Type} (f : A -> B) (l : list A) (x y : A) :
  NoDup (map f l) -> x ∈ l -> y ∈ l -> f x = f y -> x = y.
Proof.
  induction l as [|a l IH]; intros Hnd Hx Hy Hf; [inversion Hx|].
  cbn [map] in Hnd. apply NoDup_cons in Hnd as [Ha Hnd].
  assert (Hin : forall z, z ∈ l -> f z ∈ map f l).
  { intros z Hz. apply list_elem_of_In, in_map, list_elem_of_In. exact Hz. }
  apply elem_of_cons in Hx as [->|Hx]; apply elem_of_cons in Hy as [->|Hy].
  - reflexivity.
  - exfalso. apply Ha. rewrite Hf. apply Hin. exact Hy.
  - exfalso. apply Ha. rewrite <- Hf. apply Hin. exact Hx.
  - apply IH; assumption.
Qed.

(** C5 at the input where the code fails it.  The docstring of
    [fetch_kpis] promises the first and last values and their delta per
    organisation and KPI, and the row numbers are taken per organisation and
    KPI; but the groups are also split by organisation name.  The partition
    [(t1,10), (t2,25)] of an organisation renamed between its two snapshots
    does not give first value 10, last value 25 and delta 15: it gives two
    rows, each with a [NULL] first or last value and a [NULL] delta. *)
Theorem C5_renamed_organisation_gets_null_deltas :
  partition_of 0 2025 "org-1" "Number of log entries" Runs.snapshots_renamed
  = Runs.snapshots_renamed
  /\ deltas_of "org-1" "Number of log entries"
       (fetch_kpis 0 2025 Runs.snapshots_renamed)
     = [ {| d_organization_id := "org-1";
            d_organization_name := "Acme";
            d_kpi := "Number of log entries";
            first_value := Some 10;
            last_value := None;
            delta := None |};
         {| d_organization_id := "org-1";
            d_organization_name := "Acme GmbH";
            d_kpi := "Number of log entries";
            first_value := None;
            last_value := Some 25;
            delta := None |} ].
Proof. split; reflexivity. Qed.

(** Rows with equal timestamps are ranked in table order here, so the delta
    row of such a partition follows the order of the table. *)
Example tied_timestamps_follow_table_order :
  map first_value (fetch_kpis 0 2025 Runs.snapshots_tied) = [Some 10]
  /\ map first_value (fetch_kpis 0 2025 (rev Runs.snapshots_tied)) = [Some 25].
Proof. split; reflexivity. Qed.

(* ===================================================================== *)
(** * Part III. Further properties of the same code                       *)
(* ===================================================================== *)

(** ** The retry loops: how a request ends *)

Section RetryOutcomes.

Variable float : string -> option Q.
Variable max_retries : Z.
Variable backoff_base : Q.
Variable send : nat -> outcome.

Abbreviation hub_loop' :=
  (HubSpotConnector.request_loop float max_retries backoff_base send).
Abbreviation mix_loop' :=
  (MixpanelConnector.request_loop float max_retries backoff_base send).

(** Running the attempts that are retried: the loop arrives at attempt [k]
    having made [k] calls and slept once after each of them. *)
Lemma hub_loop_prefix (k : nat) :
  forall n a le tr,
    calls tr = a -> length (slept tr) = a ->
    (a <= k < a + n)%nat ->
    (forall j, (a <= j < k)%nat -> retried float max_retries backoff_base send j) ->
    exists le' tr_k,
      calls tr_k = k
      /\ slept tr_k
         = slept tr ++ map (delay_after float backoff_base send) (seq a (k - a))
      /\ hub_loop' (seq a n) le tr = hub_loop' (seq k (a + n - k)) le' tr_k.
Proof.
  induction n as [|n IH]; intros a le tr Hc Hs Hk Hj; [lia|].
  destruct (decide (a = k)) as [->|Hne].
  - exists le, tr. replace (k + S n - k)%nat with (S n) by lia.
    rewrite Nat.sub_diag. simpl. rewrite app_nil_r. auto.
  - destruct (Hj a) as [Hlt Hret]; [lia|]. cbn [seq HubSpotConnector.request_loop].
    replace (Z.of_nat a <? max_retries) with true by (symmetry; apply Z.ltb_lt; lia).
    replace (k - a)%nat with (S (k - S a)) by lia. cbn [seq map].
    unfold delay_after at 1.
    destruct (send a) as [r|exc].
    + destruct Hret as [H429 (d & Hd & Hd')].
      rewrite H429, Hd. cbn [Z.eqb Pos.eqb andb default from_option].
      rewrite sleep_ok by assumption.
      destruct (IH (S a) le {| slept := slept (called tr) ++ [d]; calls := calls (called tr) |})
        as (le' & tr_k & H1 & H2 & H3); simpl; try lia.
      * rewrite length_app. simpl. lia.
      * intros j Hjr. apply Hj. lia.
      * exists le', tr_k. replace (a + S n - k)%nat with (S a + n - k)%nat by lia.
        simpl in H2. rewrite <- app_assoc in H2. auto.
    + rewrite sleep_ok by assumption.
      destruct (IH (S a) (Some exc)
                  {| slept := slept (called tr) ++ [backoff backoff_base a];
                     calls := calls (called tr) |})
        as (le' & tr_k & H1 & H2 & H3); simpl; try lia.
      * rewrite length_app. simpl. lia.
      * intros j Hjr. apply Hj. lia.
      * exists le', tr_k. replace (a + S n - k)%nat with (S a + n - k)%nat by lia.
        simpl in H2. rewrite <- app_assoc in H2. auto.
Qed.

Lemma mix_loop_prefix (k : nat) :
  forall n a le tr,
    calls tr = a -> length (slept tr) = a ->
    (a <= k < a + n)%nat ->
    (forall j, (a <= j < k)%nat -> retried float max_retries backoff_base send j) ->
    exists le' tr_k,
      calls tr_k = k
      /\ slept tr_k
         = slept tr ++ map (delay_after float backoff_base send) (seq a (k - a))
      /\ mix_loop' (seq a n) le tr = mix_loop' (seq k (a + n - k)) le' tr_k.
Proof.
  induction n as [|n IH]; intros a le tr Hc Hs Hk Hj; [lia|].
  destruct (decide (a = k)) as [->|Hne].
  - exists le, tr. replace (k + S n - k)%nat with (S n) by lia.
    rewrite Nat.sub_diag. simpl. rewrite app_nil_r. auto.
  - destruct (Hj a) as [Hlt Hret]; [lia|]. cbn [seq MixpanelConnector.request_loop].
    replace (Z.of_nat a <? max_retries) with true by (symmetry; apply Z.ltb_lt; lia).
    replace (k - a)%nat with (S (k - S a)) by lia. cbn [seq map].
    unfold delay_after at 1.
    destruct (send a) as [r|exc].
    + destruct Hret as [H429 (d & Hd & Hd')].
      assert (raises_for_status r = true) as ->
        by (unfold raises_for_status; rewrite H429; reflexivity).
      rewrite H429, Hd. cbn [Z.eqb Pos.eqb andb default from_option].
      rewrite sleep_ok by assumption.
      destruct (IH (S a) le {| slept := slept (called tr) ++ [d]; calls := calls (called tr) |})
        as (le' & tr_k & H1 & H2 & H3); simpl; try lia.
      * rewrite length_app. simpl. lia.
      * intros j Hjr. apply Hj. lia.
      * exists le', tr_k. replace (a + S n - k)%nat with (S a + n - k)%nat by lia.
        simpl in H2. rewrite <- app_assoc in H2. auto.
    + rewrite sleep_ok by assumption.
      destruct (IH (S a) (Some exc)
                  {| slept := slept (called tr) ++ [backoff backoff_base a];
                     calls := calls (called tr) |})
        as (le' & tr_k & H1 & H2 & H3); simpl; try lia.
      * rewrite length_app. simpl. lia.
      * intros j Hjr. apply Hj. lia.
      * exists le', tr_k. replace (a + S n - k)%nat with (S a + n - k)%nat by lia.
        simpl in H2. rewrite <- app_assoc in H2. auto.
Qed.

(** The whole request, brought to the attempt [k] it reaches. *)
Lemma hub_request_at (k : nat) :
  Z.of_nat k <= max_retries ->
  (forall j, (j < k)%nat -> retried float max_retries backoff_base send j) ->
  exists le m tr_k,
    calls tr_k = k
    /\ slept tr_k = map (delay_after float backoff_base send) (seq 0 k)
    /\ HubSpotConnector._request float max_retries backoff_base send
       = hub_loop' (k :: seq (S k) m) le tr_k.
Proof.
  intros Hk Hj. unfold HubSpotConnector._request, attempts.
  destruct (hub_loop_prefix k (Z.to_nat (max_retries + 1)) 0 None no_trace)
    as (le & tr_k & H1 & H2 & H3); try reflexivity; try lia.
  { intros j Hjk. apply Hj. lia. }
  exists le, (Z.to_nat (max_retries + 1) - S k)%nat, tr_k.
  rewrite H3, Nat.sub_0_r in *. simpl in H2. split; [exact H1|]. split; [exact H2|].
  replace (0 + Z.to_nat (max_retries + 1) - k)%nat
    with (S (Z.to_nat (max_retries + 1) - S k)) by lia.
  reflexivity.
Qed.

Lemma mix_request_at (k : nat) :
  Z.of_nat k <= max_retries ->
  (forall j, (j < k)%nat -> retried float max_retries backoff_base send j) ->
  exists le m tr_k,
    calls tr_k = k
    /\ slept tr_k = map (delay_after float backoff_base send) (seq 0 k)
    /\ MixpanelConnector._request float max_retries backoff_base send
       = mix_loop' (k :: seq (S k) m) le tr_k.
Proof.
  intros Hk Hj. unfold MixpanelConnector._request, attempts.
  destruct (mix_loop_prefix k (Z.to_nat (max_retries + 1)) 0 None no_trace)
    as (le & tr_k & H1 & H2 & H3); try reflexivity; try lia.
  { intros j Hjk. apply Hj. lia. }
  exists le, (Z.to_nat (max_retries + 1) - S k)%nat, tr_k.
  rewrite H3, Nat.sub_0_r in *. simpl in H2. split; [exact H1|]. split; [exact H2|].
  replace (0 + Z.to_nat (max_retries + 1) - k)%nat
    with (S (Z.to_nat (max_retries + 1) - S k)) by lia.
  reflexivity.
Qed.

End RetryOutcomes.

(** X1.  When every attempt fails in the transport, either client gives up
    after [max_retries + 1] calls with a [RuntimeError] that carries the
    exception of the last attempt, having slept the backoff
    [base ** 0, ..., base ** (max_retries - 1)] between the attempts. *)
Theorem X1_transport_failures_end_in_runtime_error
    (float : string -> option Q) (max_retries : Z) (backoff_base : Q)
    (send : nat -> outcome) (exc : nat -> string) :
  0 <= max_retries ->
  (0 <= backoff_base)%Q ->
  (forall j, Z.of_nat j <= max_retries -> send j = RequestException (exc j)) ->
  HubSpotConnector._request float max_retries backoff_base send
  = (Raise (RuntimeError (Some (exc (Z.to_nat max_retries)))),
     {| slept := map (backoff backoff_base) (seq 0 (Z.to_nat max_retries));
        calls := S (Z.to_nat max_retries) |})
  /\ MixpanelConnector._request float max_retries backoff_base send
     = (Raise (RuntimeError (Some (exc (Z.to_nat max_retries)))),
        {| slept := map (backoff backoff_base) (seq 0 (Z.to_nat max_retries));
           calls := S (Z.to_nat max_retries) |}).
Proof.
  intros Hmax Hbase Hsend.
  assert (Hret : forall j, (j < Z.to_nat max_retries)%nat ->
                           retried float max_retries backoff_base send j).
  { intros j Hj. split; [lia|]. rewrite Hsend by lia.
    unfold backoff. apply Qpower_0_le. exact Hbase. }
  assert (Hdelays : map (delay_after float backoff_base send) (seq 0 (Z.to_nat max_retries))
                    = map (backoff backoff_base) (seq 0 (Z.to_nat max_retries))).
  { apply map_ext_in. intros j Hj. apply in_seq in Hj.
    unfold delay_after. rewrite Hsend by lia. reflexivity. }
  assert (Hlast : (Z.of_nat (Z.to_nat max_retries) <? max_retries) = false)
    by (apply Z.ltb_ge; lia).
  split.
  - destruct (hub_request_at float max_retries backoff_base send (Z.to_nat max_retries))
      as (le & m & tr_k & H1 & H2 & ->); [lia|exact Hret|].
    cbn [HubSpotConnector.request_loop]. rewrite Hsend by lia. rewrite Hlast.
    unfold called. rewrite H1, H2, Hdelays. reflexivity.
  - destruct (mix_request_at float max_retries backoff_base send (Z.to_nat max_retries))
      as (le & m & tr_k & H1 & H2 & ->); [lia|exact Hret|].
    cbn [MixpanelConnector.request_loop]. rewrite Hsend by lia. rewrite Hlast.
    unfold called. rewrite H1, H2, Hdelays. reflexivity.
Qed.

(** The theorem at work: the connection is reset on all four attempts. *)
Lemma X1_witness_connection_always_reset :
  HubSpotConnector._request float_of_digits DEFAULT_MAX_RETRIES DEFAULT_BACKOFF_BASE
    MoreRuns.always_reset
  = (Raise (RuntimeError (Some "connection reset")),
     {| slept := map (backoff DEFAULT_BACKOFF_BASE) (seq 0 3); calls := 4 |})
  /\ MixpanelConnector._request float_of_digits DEFAULT_MAX_RETRIES DEFAULT_BACKOFF_BASE
       MoreRuns.always_reset
     = (Raise (RuntimeError (Some "connection reset")),
        {| slept := map (backoff DEFAULT_BACKOFF_BASE) (seq 0 3); calls := 4 |}).
Proof.
  apply (X1_transport_failures_end_in_runtime_error
           float_of_digits DEFAULT_MAX_RETRIES DEFAULT_BACKOFF_BASE
           MoreRuns.always_reset (fun _ => "connection reset")).
  - unfold DEFAULT_MAX_RETRIES. lia.
  - discriminate.
  - intros j Hj. reflexivity.
Defined.

(** X2.  An answer whose status is not a 4xx or 5xx, received after any
    number of retried attempts, is returned by either client as it is; the
    request has then made one call more than it has slept. *)
Theorem X2_answer_after_retries_is_returned
    (float : string -> option Q) (max_retries : Z) (backoff_base : Q)
    (send : nat -> outcome) (k : nat) (resp : Response) :
  (forall j, (j < k)%nat -> retried float max_retries backoff_base send j) ->
  Z.of_nat k <= max_retries ->
  send k = Answer resp ->
  raises_for_status resp = false ->
  HubSpotConnector._request float max_retries backoff_base send
  = (Return resp,
     {| slept := map (delay_after float backoff_base send) (seq 0 k); calls := S k |})
  /\ MixpanelConnector._request float max_retries backoff_base send
     = (Return resp,
        {| slept := map (delay_after float backoff_base send) (seq 0 k); calls := S k |}).
Proof.
  intros Hj Hk Hsend Hok.
  assert (Hne : (status_code resp =? 429) = false).
  { apply Z.eqb_neq. intros H429. unfold raises_for_status in Hok.
    rewrite H429 in Hok. discriminate. }
  split.
  - destruct (hub_request_at float max_retries backoff_base send k Hk Hj)
      as (le & m & tr_k & H1 & H2 & ->).
    cbn [HubSpotConnector.request_loop]. rewrite Hsend, Hne. cbn [andb].
    unfold called. rewrite H1, H2. reflexivity.
  - destruct (mix_request_at float max_retries backoff_base send k Hk Hj)
      as (le & m & tr_k & H1 & H2 & ->).
    cbn [MixpanelConnector.request_loop]. rewrite Hsend, Hok.
    unfold called. rewrite H1, H2. reflexivity.
Qed.

(** The theorem at work: a timeout, then 200. *)
Lemma X2_witness_timeout_then_ok :
  HubSpotConnector._request float_of_digits DEFAULT_MAX_RETRIES DEFAULT_BACKOFF_BASE
    MoreRuns.reset_then_ok
  = (Return Runs.ok,
     {| slept := map (delay_after float_of_digits DEFAULT_BACKOFF_BASE
                        MoreRuns.reset_then_ok) (seq 0 1);
        calls := 2 |})
  /\ MixpanelConnector._request float_of_digits DEFAULT_MAX_RETRIES DEFAULT_BACKOFF_BASE
       MoreRuns.reset_then_ok
     = (Return Runs.ok,
        {| slept := map (delay_after float_of_digits DEFAULT_BACKOFF_BASE
                           MoreRuns.reset_then_ok) (seq 0 1);
           calls := 2 |}).
Proof.
  apply (X2_answer_after_retries_is_returned
           float_of_digits DEFAULT_MAX_RETRIES DEFAULT_BACKOFF_BASE
           MoreRuns.reset_then_ok 1 Runs.ok).
  - intros j Hj. assert (j = 0%nat) as -> by lia.
    split; [unfold DEFAULT_MAX_RETRIES; lia|]. simpl. discriminate.
  - unfold DEFAULT_MAX_RETRIES. lia.
  - reflexivity.
  - reflexivity.
Defined.

(** X3.  When the last attempt the budget allows is still answered by a
    429, the HubSpot client returns that 429 answer to its caller and the
    Mixpanel client raises it as an HTTP error; neither sleeps again. *)
Theorem X3_rate_limit_beyond_the_budget
    (float : string -> option Q) (max_retries : Z) (backoff_base : Q)
    (send : nat -> outcome) (k : nat) (resp : Response) :
  (forall j, (j < k)%nat -> retried float max_retries backoff_base send j) ->
  Z.of_nat k = max_retries ->
  send k = Answer resp ->
  status_code resp = 429 ->
  HubSpotConnector._request float max_retries backoff_base send
  = (Return resp,
     {| slept := map (delay_after float backoff_base send) (seq 0 k); calls := S k |})
  /\ MixpanelConnector._request float max_retries backoff_base send
     = (Raise (HTTPError resp),
        {| slept := map (delay_after float backoff_base send) (seq 0 k); calls := S k |}).
Proof.
  intros Hj Hk Hsend H429.
  assert (Hlast : (Z.of_nat k <? max_retries) = false) by (apply Z.ltb_ge; lia).
  split.
  - destruct (hub_request_at float max_retries backoff_base send k ltac:(lia) Hj)
      as (le & m & tr_k & H1 & H2 & ->).
    cbn [HubSpotConnector.request_loop]. rewrite Hsend, Hlast, andb_false_r.
    unfold called. rewrite H1, H2. reflexivity.
  - destruct (mix_request_at float max_retries backoff_base send k ltac:(lia) Hj)
      as (le & m & tr_k & H1 & H2 & ->).
    cbn [MixpanelConnector.request_loop]. rewrite Hsend, Hlast, andb_false_r.
    assert (raises_for_status resp = true) as ->
      by (unfold raises_for_status; rewrite H429; reflexivity).
    unfold called. rewrite H1, H2. reflexivity.
Qed.

(** The theorem at work: four 429 answers in a row. *)
Lemma X3_witness_always_rate_limited :
  HubSpotConnector._request float_of_digits DEFAULT_MAX_RETRIES DEFAULT_BACKOFF_BASE
    MoreRuns.always_rate_limited
  = (Return Runs.rate_limited,
     {| slept := map (delay_after float_of_digits DEFAULT_BACKOFF_BASE
                        MoreRuns.always_rate_limited) (seq 0 3);
        calls := 4 |})
  /\ MixpanelConnector._request float_of_digits DEFAULT_MAX_RETRIES DEFAULT_BACKOFF_BASE
       MoreRuns.always_rate_limited
     = (Raise (HTTPError Runs.rate_limited),
        {| slept := map (delay_after float_of_digits DEFAULT_BACKOFF_BASE
                           MoreRuns.always_rate_limited) (seq 0 3);
           calls := 4 |}).
Proof.
  apply (X3_rate_limit_beyond_the_budget
           float_of_digits DEFAULT_MAX_RETRIES DEFAULT_BACKOFF_BASE
           MoreRuns.always_rate_limited 3 Runs.rate_limited).
  - intros j Hj. split; [unfold DEFAULT_MAX_RETRIES; lia|].
    split; [reflexivity|]. exists (backoff DEFAULT_BACKOFF_BASE j).
    split; [reflexivity|]. unfold backoff. apply Qpower_0_le. discriminate.
  - reflexivity.
  - reflexivity.
  - reflexivity.
Defined.

(** X4.  A 429 with budget left whose [Retry-After] value is not empty and
    is not a number for [float] ends the request with a [ValueError] in
    either client: nothing is slept for that attempt and no further call is
    made. *)
Theorem X4_unreadable_retry_after_raises_value_error
    (float : string -> option Q) (max_retries : Z) (backoff_base : Q)
    (send : nat -> outcome) (k : nat) (resp : Response) (s : string) :
  (forall j, (j < k)%nat -> retried float max_retries backoff_base send j) ->
  Z.of_nat k < max_retries ->
  send k = Answer resp ->
  status_code resp = 429 ->
  headers resp !! "Retry-After" = Some s ->
  s <> "" ->
  float s = None ->
  HubSpotConnector._request float max_retries backoff_base send
  = (Raise ValueError,
     {| slept := map (delay_after float backoff_base send) (seq 0 k); calls := S k |})
  /\ MixpanelConnector._request float max_retries backoff_base send
     = (Raise ValueError,
        {| slept := map (delay_after float backoff_base send) (seq 0 k); calls := S k |}).
Proof.
  intros Hj Hk Hsend H429 Hhdr Hs Hfloat.
  assert (Hbudget : (Z.of_nat k <? max_retries) = true) by (apply Z.ltb_lt; lia).
  assert (Hdelay : retry_delay float backoff_base resp k = None).
  { unfold retry_delay. rewrite Hhdr. cbn [truthy].
    apply String.eqb_neq in Hs. rewrite Hs. exact Hfloat. }
  split.
  - destruct (hub_request_at float max_retries backoff_base send k ltac:(lia) Hj)
      as (le & m & tr_k & H1 & H2 & ->).
    cbn [HubSpotConnector.request_loop]. rewrite Hsend, H429, Hbudget, Hdelay.
    unfold called. rewrite H1, H2. reflexivity.
  - destruct (mix_request_at float max_retries backoff_base send k ltac:(lia) Hj)
      as (le & m & tr_k & H1 & H2 & ->).
    cbn [MixpanelConnector.request_loop]. rewrite Hsend.
    assert (raises_for_status resp = true) as ->
      by (unfold raises_for_status; rewrite H429; reflexivity).
    rewrite H429, Hbudget, Hdelay.
    unfold called. rewrite H1, H2. reflexivity.
Qed.

(** The theorem at work: the first answer is a 429 whose [Retry-After] is an
    HTTP date. *)
Lemma X4_witness_retry_after_http_date :
  HubSpotConnector._request float_of_digits DEFAULT_MAX_RETRIES DEFAULT_BACKOFF_BASE
    MoreRuns.dated_rate_limit
  = (Raise ValueError, {| slept := []; calls := 1 |})
  /\ MixpanelConnector._request float_of_digits DEFAULT_MAX_RETRIES DEFAULT_BACKOFF_BASE
       MoreRuns.dated_rate_limit
     = (Raise ValueError, {| slept := []; calls := 1 |}).
Proof.
  apply (X4_unreadable_retry_after_raises_value_error
           float_of_digits DEFAULT_MAX_RETRIES DEFAULT_BACKOFF_BASE
           MoreRuns.dated_rate_limit 0 MoreRuns.rate_limited_until_date
           "Wed, 21 Oct 2015 07:28:00 GMT").
  - intros j Hj. lia.
  - unfold DEFAULT_MAX_RETRIES. lia.
  - reflexivity.
  - reflexivity.
  - reflexivity.
  - discriminate.
  - reflexivity.
Defined.

(** ** The paginated search: exhaustion and failures of the transport *)

Section SearchEnds.

Variable object_type : string.
Variable request : nat -> result.

(** Successful pages with continuation tokens, then a successful page
    without one: the loop returns the items of all of them. *)
Lemma search_loop_exhausts (pages : list Response) (final : Response) :
  forall fuel nth after all eff,
    (forall i resp, pages !! i = Some resp ->
       request (nth + i) = Return resp /\ status_code resp = 200 /\
       truthy (next_after (json resp)) = true) ->
    request (nth + length pages) = Return final ->
    status_code final = 200 ->
    truthy (next_after (json final)) = false ->
    (length pages < fuel)%nat ->
    HubSpotSearch.search_loop object_type request fuel nth after all eff
    = Some (HubSpotSearch.Returned
              {| HubSpotSearch.dict_results := all ++ items_of (pages ++ [final]) |},
            {| HubSpotSearch.log :=
                 HubSpotSearch.log eff
                 ++ retrieved_lines object_type (length all) (pages ++ [final]);
               HubSpotSearch.requested :=
                 HubSpotSearch.requested eff
                 ++ (if truthy after then after else None)
                 :: map (fun p => next_after (json p)) pages |}).
Proof.
  induction pages as [|p pages IH]; intros fuel nth after all eff Hpages Hlast H200 Htok Hfuel.
  - destruct fuel as [|fuel]; [simpl in Hfuel; lia|]. simpl.
    rewrite Nat.add_0_r in Hlast. rewrite Hlast, H200. simpl. rewrite Htok.
    unfold items_of. simpl. rewrite length_app, !app_nil_r. reflexivity.
  - destruct fuel as [|fuel]; [simpl in Hfuel; lia|]. simpl.
    destruct (Hpages 0%nat p eq_refl) as (Hreq & Hp200 & Hptok).
    rewrite Nat.add_0_r in Hreq. rewrite Hreq, Hp200. simpl. rewrite Hptok.
    rewrite IH; try assumption.
    + unfold items_of. simpl. rewrite length_app, <- !app_assoc. simpl.
      rewrite Hptok. reflexivity.
    + intros i resp Hi. replace (S nth + i)%nat with (nth + S i)%nat by lia.
      apply Hpages. exact Hi.
    + replace (S nth + length pages)%nat with (nth + length (p :: pages))%nat
        by (simpl; lia).
      exact Hlast.
    + simpl in Hfuel. lia.
Qed.

(** Successful pages, then a request that raises: the exception leaves the
    loop and the items accumulated so far are not returned. *)
Lemma search_loop_raises (pages : list Response) (e : exn) :
  forall fuel nth after all eff,
    (forall i resp, pages !! i = Some resp ->
       request (nth + i) = Return resp /\ status_code resp = 200 /\
       truthy (next_after (json resp)) = true) ->
    request (nth + length pages) = Raise e ->
    (length pages < fuel)%nat ->
    HubSpotSearch.search_loop object_type request fuel nth after all eff
    = Some (HubSpotSearch.Raised e,
            {| HubSpotSearch.log :=
                 HubSpotSearch.log eff
                 ++ retrieved_lines object_type (length all) pages;
               HubSpotSearch.requested :=
                 HubSpotSearch.requested eff
                 ++ (if truthy after then after else None)
                 :: map (fun p => next_after (json p)) pages |}).
Proof.
  induction pages as [|p pages IH]; intros fuel nth after all eff Hpages Hlast Hfuel.
  - destruct fuel as [|fuel]; [simpl in Hfuel; lia|]. simpl.
    rewrite Nat.add_0_r in Hlast. rewrite Hlast. rewrite app_nil_r. reflexivity.
  - destruct fuel as [|fuel]; [simpl in Hfuel; lia|]. simpl.
    destruct (Hpages 0%nat p eq_refl) as (Hreq & Hp200 & Hptok).
    rewrite Nat.add_0_r in Hreq. rewrite Hreq, Hp200. simpl. rewrite Hptok.
    rewrite IH; try assumption.
    + simpl. rewrite length_app, <- !app_assoc. simpl. rewrite Hptok. reflexivity.
    + intros i resp Hi. replace (S nth + i)%nat with (nth + S i)%nat by lia.
      apply Hpages. exact Hi.
    + replace (S nth + length pages)%nat with (nth + length (p :: pages))%nat
        by (simpl; lia).
      exact Hlast.
    + simpl in Hfuel. lia.
Qed.

End SearchEnds.

(** X5.  When every page answers 200 and all but the last carry a
    continuation token, the search returns the items of all pages in page
    order, after one request per page, each carrying the token of the page
    before it; an empty token ends the search like a missing one. *)
Theorem X5_search_returns_all_pages_in_order
    (object_type : string) (filter_groups : list string)
    (request : nat -> result) (pages : list Response) (final : Response)
    (fuel : nat) :
  filter_groups <> [] ->
  (forall i resp, pages !! i = Some resp ->
     request i = Return resp /\ status_code resp = 200 /\
     truthy (next_after (json resp)) = true) ->
  request (length pages) = Return final ->
  status_code final = 200 ->
  truthy (next_after (json final)) = false ->
  (length pages < fuel)%nat ->
  HubSpotSearch.search_objects object_type filter_groups request fuel
  = Some (HubSpotSearch.Returned
            {| HubSpotSearch.dict_results := items_of (pages ++ [final]) |},
          {| HubSpotSearch.log :=
               retrieved_lines object_type 0 (pages ++ [final]);
             HubSpotSearch.requested :=
               None :: map (fun p => next_after (json p)) pages |}).
Proof.
  intros Hfg Hpages Hlast H200 Htok Hfuel.
  unfold HubSpotSearch.search_objects.
  destruct filter_groups as [|g gs]; [congruence|].
  rewrite (search_loop_exhausts object_type request pages final); auto.
Qed.

(** The theorem at work: pages of 100, 100 and 37 items give 237 items. *)
Lemma X5_witness_three_pages_237_items :
  exists items eff,
    HubSpotSearch.search_objects "deals" ["stage"] MoreRuns.three_pages 10
    = Some (HubSpotSearch.Returned {| HubSpotSearch.dict_results := items |}, eff)
    /\ length items = 237%nat
    /\ HubSpotSearch.requested eff = [None; Some "100"; Some "200"].
Proof.
  eexists. eexists. split; [|split].
  - apply (X5_search_returns_all_pages_in_order
             "deals" ["stage"] MoreRuns.three_pages
             [MoreRuns.page_1; MoreRuns.page_2] MoreRuns.page_3 10).
    + discriminate.
    + intros [|[|i]] resp Hi; try discriminate Hi; injection Hi as <-; repeat split.
    + reflexivity.
    + reflexivity.
    + reflexivity.
    + simpl. lia.
  - reflexivity.
  - reflexivity.
Defined.

(** X6.  When the request for a page raises (its retries are used up), the
    search raises the same exception: unlike after a page with a failure
    status, the items of the earlier pages are not handed to the caller. *)
Theorem X6_search_raises_when_a_request_raises
    (object_type : string) (filter_groups : list string)
    (request : nat -> result) (pages : list Response) (e : exn) (fuel : nat) :
  filter_groups <> [] ->
  (forall i resp, pages !! i = Some resp ->
     request i = Return resp /\ status_code resp = 200 /\
     truthy (next_after (json resp)) = true) ->
  request (length pages) = Raise e ->
  (length pages < fuel)%nat ->
  HubSpotSearch.search_objects object_type filter_groups request fuel
  = Some (HubSpotSearch.Raised e,
          {| HubSpotSearch.log := retrieved_lines object_type 0 pages;
             HubSpotSearch.requested :=
               None :: map (fun p => next_after (json p)) pages |}).
Proof.
  intros Hfg Hpages Hlast Hfuel.
  unfold HubSpotSearch.search_objects.
  destruct filter_groups as [|g gs]; [congruence|].
  rewrite (search_loop_raises object_type request pages e); auto.
Qed.

(** The theorem at work: the second page cannot be fetched. *)
Lemma X6_witness_second_page_unreachable :
  HubSpotSearch.search_objects "deals" ["stage"] MoreRuns.second_page_unreachable 10
  = Some (HubSpotSearch.Raised (RuntimeError (Some "connection reset")),
          {| HubSpotSearch.log := [HubSpotSearch.Retrieved 100 "deals" 100];
             HubSpotSearch.requested := [None; Some "100"] |}).
Proof.
  apply (X6_search_raises_when_a_request_raises
           "deals" ["stage"] MoreRuns.second_page_unreachable
           [MoreRuns.page_1] (RuntimeError (Some "connection reset")) 10).
  - discriminate.
  - intros [|i] resp Hi; [|destruct i; discriminate Hi].
    injection Hi as <-. repeat split.
  - reflexivity.
  - simpl. lia.
Defined.

(** ** The aggregation loop: names, identifiers and buckets *)

(** The names that have a dict in [aggregated] never change. *)
Lemma process_event_keys (st : agg_state) (ev : Event) (e : string) :
  PyDict.get e (aggregated (process_event st ev)) = None
  <-> PyDict.get e (aggregated st) = None.
Proof.
  rewrite process_event_unfold.
  destruct (event ev) as [en|]; [|reflexivity].
  destruct (PyDict.get en (aggregated st)) as [entries|] eqn:Hen; [|reflexivity].
  cbv zeta. destruct (negb (survives _ ev)); [reflexivity|].
  destruct (MixpanelKpi.organization_id (MixpanelKpi.properties ev)) as [org|]; [|reflexivity].
  destruct (unattributable (Some org)); [reflexivity|]. cbn [aggregated].
  destruct (decide (en = e)) as [->|Hne].
  - rewrite get_set_eq, Hen. split; discriminate.
  - rewrite get_set_ne by exact Hne. reflexivity.
Qed.

Lemma fold_process_event_keys (events : list Event) (st : agg_state) (e : string) :
  PyDict.get e (aggregated (fold_left process_event events st)) = None
  <-> PyDict.get e (aggregated st) = None.
Proof.
  revert st. induction events as [|ev events IH]; intros st; [reflexivity|].
  simpl. rewrite IH. apply process_event_keys.
Qed.

Lemma init_state_keys (org_ids : list string) (e : string) :
  PyDict.get e (aggregated (init_state event_names org_ids)) = None
  <-> e ∉ event_names.
Proof.
  unfold init_state. cbn [aggregated].
  rewrite (get_of_items_map
             (fun _ => PyDict.of_items (map (fun org_id => (org_id, fresh_entry)) org_ids))).
  destruct (decide (e ∈ event_names)); split; auto; try discriminate. tauto.
Qed.

(** An event of a name without dict, or whose identifier has been seen,
    changes nothing. *)
Lemma process_event_ignored (st : agg_state) (ev : Event) :
  (forall e, event ev = Some e ->
     PyDict.get e (aggregated st) = None
     \/ exists i, carried_id ev = Some i /\ i ∈ seen_insert_ids st !!! e) ->
  process_event st ev = st.
Proof.
  intros H. rewrite process_event_unfold.
  destruct (event ev) as [e|]; [|reflexivity].
  destruct (H e eq_refl) as [Hnone|(i & Hid & Hseen)].
  - rewrite Hnone. reflexivity.
  - destruct (PyDict.get e (aggregated st)); [|reflexivity].
    cbv zeta. unfold survives. rewrite Hid.
    rewrite bool_decide_false by (intros Hc; apply Hc; exact Hseen).
    reflexivity.
Qed.

(** The identifiers of the events processed are in the seen set of their
    name. *)
Lemma seen_collects (events : list Event) :
  forall st ev e i,
    is_Some (PyDict.get e (aggregated st)) ->
    (i ∈ seen_insert_ids st !!! e
     \/ (ev ∈ events /\ event ev = Some e /\ carried_id ev = Some i)) ->
    i ∈ seen_insert_ids (fold_left process_event events st) !!! e.
Proof.
  induction events as [|ev0 events IH]; intros st ev e i He H.
  - destruct H as [H|[H _]]; [exact H|inversion H].
  - simpl. destruct (process_event_step st ev0 e "" He) as (He' & Hseen & _).
    apply (IH _ ev e i He').
    destruct H as [H|(Hin & Hev & Hid)].
    + left. rewrite Hseen. unfold seen_after.
      destruct (named e ev0); [|exact H].
      destruct (carried_id ev0); [|exact H]. set_solver.
    + apply elem_of_cons in Hin as [->|Hin]; [|right; auto].
      left. rewrite Hseen. unfold seen_after, named.
      rewrite bool_decide_true by exact Hev. rewrite Hid. set_solver.
Qed.

(** Events that are all ignored leave the state as it is. *)
Lemma fold_ignored (events : list Event) (st : agg_state) :
  (forall ev e, ev ∈ events -> event ev = Some e ->
     PyDict.get e (aggregated st) = None
     \/ exists i, carried_id ev = Some i /\ i ∈ seen_insert_ids st !!! e) ->
  fold_left process_event events st = st.
Proof.
  induction events as [|ev events IH]; intros H; [reflexivity|].
  simpl. rewrite process_event_ignored.
  - apply IH. intros ev' e Hin. apply H. right. exact Hin.
  - intros e. apply H. left.
Qed.

(** X7.  Once an event of some name has carried an identifier, any later
    event of that name with the same identifier is dropped without trace,
    also when the first one could not be attributed to an organisation: the
    run ends in the same state as without the later event. *)
Theorem X7_later_event_with_known_identifier_is_dropped
    (org_ids : list string) (s1 s2 s3 : list Event) (ev1 ev2 : Event)
    (e i : string) :
  event ev1 = Some e -> event ev2 = Some e ->
  carried_id ev1 = Some i -> carried_id ev2 = Some i ->
  aggregate org_ids (s1 ++ ev1 :: s2 ++ ev2 :: s3)
  = aggregate org_ids (s1 ++ ev1 :: s2 ++ s3).
Proof.
  intros He1 He2 Hi1 Hi2. unfold aggregate.
  replace (s1 ++ ev1 :: s2 ++ ev2 :: s3) with ((s1 ++ ev1 :: s2) ++ ev2 :: s3)
    by (rewrite <- app_assoc; reflexivity).
  replace (s1 ++ ev1 :: s2 ++ s3) with ((s1 ++ ev1 :: s2) ++ s3)
    by (rewrite <- app_assoc; reflexivity).
  rewrite (fold_left_app _ (s1 ++ ev1 :: s2) (ev2 :: s3)).
  rewrite (fold_left_app _ (s1 ++ ev1 :: s2) s3).
  cbn [fold_left]. f_equal.
  apply process_event_ignored. intros e' He'.
  assert (e' = e) as -> by congruence.
  destruct (PyDict.get e (aggregated (fold_left process_event (s1 ++ ev1 :: s2)
                                        (init_state event_names org_ids))))
    as [entries|] eqn:Hg; [|left; reflexivity].
  right. exists i. split; [exact Hi2|].
  apply (seen_collects _ _ ev1 e i).
  - destruct (PyDict.get e (aggregated (init_state event_names org_ids))) eqn:Hinit;
      [eauto|].
    apply (fold_process_event_keys (s1 ++ ev1 :: s2)) in Hinit. congruence.
  - right. split; [|auto]. apply elem_of_app. right. left.
Qed.

(** The theorem at work: the session is first exported without its
    organisation, and A's bucket stays at 0. *)
Lemma X7_witness_unattributed_event_first :
  aggregate ["A"] MoreRuns.unattributed_first
  = aggregate ["A"] [Runs.mixpanel_event "Session start" (Some "s1") None None]
  /\ bucket_count (aggregate ["A"] MoreRuns.unattributed_first) "Session start" "A" = 0.
Proof.
  split; [|reflexivity].
  apply (X7_later_event_with_known_identifier_is_dropped
           ["A"] [] [] [] (Runs.mixpanel_event "Session start" (Some "s1") None None)
           (Runs.mixpanel_event "Session start" (Some "s1") (Some "A") None)
           "Session start" "s1"); reflexivity.
Defined.

(** X8.  When every event of the stream carries an identifier, delivering
    the whole stream a second time changes nothing: the run over the stream
    followed by itself ends in the state of the run over the stream. *)
Theorem X8_redelivered_stream_changes_nothing
    (org_ids : list string) (stream : list Event) :
  (forall ev, ev ∈ stream -> carried_id ev <> None) ->
  aggregate org_ids (stream ++ stream) = aggregate org_ids stream.
Proof.
  intros Hids. unfold aggregate. rewrite fold_left_app.
  apply fold_ignored. intros ev e Hin Hev.
  destruct (PyDict.get e (aggregated (fold_left process_event stream
                                        (init_state event_names org_ids))))
    as [entries|] eqn:Hg; [|left; reflexivity].
  right. destruct (carried_id ev) as [i|] eqn:Hid; [|destruct (Hids ev Hin Hid)].
  exists i. split; [reflexivity|].
  apply (seen_collects _ _ ev e i).
  - destruct (PyDict.get e (aggregated (init_state event_names org_ids))) eqn:Hinit;
      [eauto|].
    apply (fold_process_event_keys stream) in Hinit. congruence.
  - right. auto.
Qed.

(** The theorem at work: a stream of two identified events, delivered
    twice. *)
Lemma X8_witness_shared_id_stream_twice :
  aggregate ["A"; "B"] (Runs.shared_id_stream ++ Runs.shared_id_stream)
  = aggregate ["A"; "B"] Runs.shared_id_stream.
Proof.
  apply X8_redelivered_stream_changes_nothing.
  intros ev Hev. unfold Runs.shared_id_stream in Hev.
  repeat (apply elem_of_cons in Hev as [->|Hev]); try discriminate.
  inversion Hev.
Defined.

(** X9.  Events whose name is not tracked have no effect wherever they
    stand in the stream: the run ends in the same state as on the stream
    without them. *)
Theorem X9_events_of_other_names_are_ignored
    (org_ids : list string) (stream : list Event) :
  aggregate org_ids stream = aggregate org_ids (List.filter tracked stream).
Proof.
  unfold aggregate.
  assert (Hinv : forall e, PyDict.get e (aggregated (init_state event_names org_ids)) = None
                           <-> e ∉ event_names) by apply init_state_keys.
  revert Hinv. generalize (init_state event_names org_ids) as st.
  induction stream as [|ev stream IH]; intros st Hinv; [reflexivity|].
  assert (Hnext : forall e, PyDict.get e (aggregated (process_event st ev)) = None
                            <-> e ∉ event_names)
    by (intros e; rewrite process_event_keys; apply Hinv).
  cbn [List.filter fold_left]. destruct (tracked ev) eqn:Htr.
  - cbn [fold_left]. apply IH. exact Hnext.
  - rewrite (process_event_ignored st ev); [apply IH; exact Hinv|].
    intros e He. left. apply Hinv. unfold tracked in Htr. rewrite He in Htr.
    apply bool_decide_eq_false in Htr. exact Htr.
Qed.

(** ** The aggregation loop: which buckets exist and what they hold *)

(** Events outside a bucket leave it as it is. *)
Lemma bucket_untouched (events : list Event) (e o : string) :
  forall st,
    is_Some (PyDict.get e (aggregated st)) ->
    (forall ev, ev ∈ events -> in_bucket e o ev = false) ->
    bucket (fold_left process_event events st) e o = bucket st e o.
Proof.
  induction events as [|ev events IH]; intros st He H; [reflexivity|].
  simpl. destruct (process_event_step st ev e o He) as (He' & _ & Hb).
  rewrite IH; [|exact He'|intros ev' Hin; apply H; right; exact Hin].
  rewrite Hb, (H ev) by left. reflexivity.
Qed.

Lemma bucket_untracked (st : agg_state) (e o : string) :
  PyDict.get e (aggregated st) = None -> bucket st e o = None.
Proof. intros H. unfold bucket. rewrite H. reflexivity. Qed.

Lemma get_property_values_elem (values : list (option string)) (o : string) :
  o ∈ MixpanelApi.get_property_values values ->
  unattributable (Some o) = false.
Proof.
  unfold MixpanelApi.get_property_values. intros H.
  apply list_elem_of_In, in_map_iff in H. destruct H as (v & Hv & Hin).
  apply filter_In in Hin. destruct Hin as [_ Hk].
  unfold MixpanelApi.kept in Hk. apply negb_true_iff in Hk.
  apply orb_false_iff in Hk. destruct Hk as [Hk Hu].
  apply orb_false_iff in Hk. destruct Hk as [Hn He].
  apply bool_decide_eq_false in Hn, He, Hu.
  destruct v as [s|]; [|congruence]. simpl in Hv. subst s.
  unfold unattributable. apply orb_false_iff.
  split; apply bool_decide_eq_false; congruence.
Qed.

(** X10.  The empty string and ["UNKNOWN"] never name an organisation:
    [get_property_values] leaves them out of the listing, and whatever the
    events say, no metric ever has a bucket for them. *)
Theorem X10_sentinel_values_never_get_a_bucket
    (values : list (option string)) (stream : list Event) (e o : string) :
  unattributable (Some o) = true ->
  o ∉ MixpanelApi.get_property_values values
  /\ bucket (aggregate (MixpanelApi.get_property_values values) stream) e o = None.
Proof.
  intros Ho.
  assert (Hnin : o ∉ MixpanelApi.get_property_values values).
  { intros Hin. apply get_property_values_elem in Hin. congruence. }
  split; [exact Hnin|]. unfold aggregate.
  destruct (decide (e ∈ event_names)) as [He|He].
  - rewrite bucket_untouched.
    + rewrite init_state_bucket by exact He. rewrite decide_False by exact Hnin.
      reflexivity.
    + rewrite init_state_tracked by exact He. eauto.
    + intros ev _. unfold in_bucket. rewrite Ho. apply andb_false_r.
  - apply bucket_untracked, fold_process_event_keys, init_state_keys. exact He.
Qed.

(** The theorem at work: the listing holds ["UNKNOWN"] and a session is
    exported for it. *)
Lemma X10_witness_unknown_organisation :
  MixpanelApi.get_property_values MoreRuns.listed_values = ["A"; "B"]
  /\ bucket (aggregate (MixpanelApi.get_property_values MoreRuns.listed_values)
               [Runs.mixpanel_event "Session start" (Some "s1") (Some "UNKNOWN") None])
       "Session start" "UNKNOWN" = None.
Proof.
  split; [reflexivity|].
  apply (X10_sentinel_values_never_get_a_bucket MoreRuns.listed_values
           [Runs.mixpanel_event "Session start" (Some "s1") (Some "UNKNOWN") None]
           "Session start" "UNKNOWN").
  reflexivity.
Defined.

Lemma surviving_nonneg (e o : string) (events : list Event) :
  forall seen : gset string, 0 <= surviving e o seen events.
Proof.
  induction events as [|ev events IH]; intros seen; cbn [surviving]; [lia|].
  specialize (IH (seen_after e seen ev)).
  destruct (in_bucket e o ev && survives seen ev); lia.
Qed.

Lemma surviving_idless (e o : string) (events : list Event) (ev : Event) :
  forall seen : gset string,
    ev ∈ events -> in_bucket e o ev = true -> carried_id ev = None ->
    1 <= surviving e o seen events.
Proof.
  induction events as [|ev0 events IH]; intros seen Hin Hb Hid; [inversion Hin|].
  cbn [surviving]. apply elem_of_cons in Hin as [<-|Hin].
  - rewrite Hb. unfold survives. rewrite Hid. cbn [andb].
    pose proof (surviving_nonneg e o events (seen_after e seen ev)). lia.
  - specialize (IH (seen_after e seen ev0) Hin Hb Hid).
    destruct (in_bucket e o ev0 && survives seen ev0); lia.
Qed.

(** X11.  An organisation needs not be in the listing to be counted: an
    event of a tracked name that is attributed to it and carries no
    identifier gives it a bucket for that metric, with a count of at least
    1. *)
Theorem X11_event_of_unlisted_organisation_is_counted
    (org_ids : list string) (stream : list Event) (ev : Event) (e o : string) :
  e ∈ event_names ->
  ev ∈ stream -> in_bucket e o ev = true -> carried_id ev = None ->
  exists en, bucket (aggregate org_ids stream) e o = Some en /\ 1 <= count en.
Proof.
  intros He Hin Hb Hid.
  destruct (aggregate_count org_ids stream e o He) as [Hc _].
  pose proof (surviving_idless e o stream ev ∅ Hin Hb Hid) as Hs.
  unfold bucket_count in Hc.
  destruct (bucket (aggregate org_ids stream) e o) as [en|]; simpl in Hc.
  - exists en. split; [reflexivity|lia].
  - lia.
Qed.

(** The theorem at work: Z is not listed, and has page views. *)
Lemma X11_witness_late_organisation :
  exists en, bucket (aggregate ["A"] MoreRuns.late_organisation) "page-view" "Z" = Some en
             /\ 1 <= count en.
Proof.
  apply (X11_event_of_unlisted_organisation_is_counted ["A"] MoreRuns.late_organisation
           (Runs.mixpanel_event "page-view" None (Some "Z") (Some "/app/dashboard"))
           "page-view" "Z").
  - vm_compute. set_solver.
  - left.
  - reflexivity.
  - reflexivity.
Defined.

Lemma urls_within_count_bump (u : option string) (en : entry) :
  urls_within_count en -> urls_within_count (bump u en).
Proof.
  unfold urls_within_count, bump. cbn [urls count]. intros H.
  destruct u as [s|]; [|lia].
  destruct (truthy (Some s)); [|lia]. rewrite length_app. simpl. lia.
Qed.

Lemma urls_within_count_fold (events : list Event) (e o : string) :
  forall st,
    (forall en, bucket st e o = Some en -> urls_within_count en) ->
    forall en, bucket (fold_left process_event events st) e o = Some en ->
               urls_within_count en.
Proof.
  induction events as [|ev events IH]; intros st Hst; [exact Hst|].
  simpl. apply IH. intros en Hen.
  destruct (PyDict.get e (aggregated st)) as [entries|] eqn:He.
  - destruct (process_event_step st ev e o) as (_ & _ & Hb); [eauto|].
    rewrite Hb in Hen.
    destruct (in_bucket e o ev && survives (seen_insert_ids st !!! e) ev).
    + injection Hen as <-. apply urls_within_count_bump.
      destruct (bucket st e o) as [en0|] eqn:Hb0; [apply Hst; reflexivity|].
      unfold urls_within_count. simpl. lia.
    + apply Hst. exact Hen.
  - apply process_event_keys with (ev := ev) in He.
    rewrite (bucket_untracked _ e o He) in Hen. discriminate.
Qed.

(** X12.  In every bucket the urls recorded are never more than the events
    counted, so no keyword count computed from the urls exceeds the count of
    the bucket. *)
Theorem X12_keyword_counts_never_exceed_the_count
    (org_ids : list string) (stream : list Event) (e o keyword : string)
    (en : entry) :
  bucket (aggregate org_ids stream) e o = Some en ->
  Z.of_nat (length (urls en)) <= count en
  /\ 0 <= keyword_count keyword (urls en) <= count en.
Proof.
  intros Hen.
  assert (H : urls_within_count en).
  { apply (urls_within_count_fold stream e o (init_state event_names org_ids));
      [|exact Hen].
    intros en0 H0. destruct (decide (e ∈ event_names)) as [He|He].
    - rewrite init_state_bucket in H0 by exact He.
      destruct (decide (o ∈ org_ids)); [|discriminate].
      injection H0 as <-. unfold urls_within_count. simpl. lia.
    - rewrite bucket_untracked in H0; [discriminate|].
      apply init_state_keys. exact He. }
  unfold urls_within_count in H. split; [exact H|].
  unfold keyword_count.
  pose proof (filter_length_le (contains keyword) (urls en)). lia.
Qed.

(** The theorem at work: two page views of Z were counted, one with a
    url. *)
Lemma X12_witness_two_views_one_url :
  Z.of_nat (length ["/app/dashboard"]) <= 2
  /\ 0 <= keyword_count "dashboard" ["/app/dashboard"] <= 2.
Proof.
  apply (X12_keyword_counts_never_exceed_the_count ["A"] MoreRuns.late_organisation
           "page-view" "Z" "dashboard" {| urls := ["/app/dashboard"]; count := 2 |}).
  reflexivity.
Defined.

(** X13.  The flush writes to the CRM only what it aggregated: every upsert
    issued goes to a non-empty CRM id, which is the one some organisation of
    some metric's buckets resolves to, and carries the property values
    computed from that bucket. *)
Theorem X13_every_upsert_comes_from_a_resolved_bucket
    (search_company : string -> option (list crm_object))
    (org_ids : list string) (stream : list Event)
    (h : string) (pu : list (string * Z)) :
  (h, pu) ∈ updates (MixpanelKpi.main search_company org_ids stream) ->
  h <> ""
  /\ exists e m entries o en,
       (e, m) ∈ MIXPANEL_EVENT_TO_HUBSPOT_PROPERTY
       /\ PyDict.get e (aggregated (aggregate org_ids stream)) = Some entries
       /\ (o, en) ∈ entries
       /\ resolved_id search_company o = Some h
       /\ pu = property_updates m en.
Proof.
  unfold MixpanelKpi.main.
  destruct (flush_spec search_company MIXPANEL_EVENT_TO_HUBSPOT_PROPERTY
              (aggregated (aggregate org_ids stream))) as [_ ->].
  unfold expected_updates. intros H.
  apply list_elem_of_In, in_flat_map in H. destruct H as ([e m] & Hm & H).
  apply in_flat_map in H. destruct H as ([o en] & Ho & H).
  cbn [fst snd] in *.
  destruct (PyDict.get e (aggregated (aggregate org_ids stream))) as [entries|] eqn:He;
    [|destruct Ho].
  cbn [default] in Ho. unfold upsert_of in H. cbn [fst snd] in H.
  destruct (resolved_id search_company o) as [h'|] eqn:Hr; [|destruct H].
  destruct (truthy (Some h')) eqn:Ht; [|destruct H].
  destruct H as [[= <- <-]|[]]. split.
  - intros ->. discriminate Ht.
  - exists e, m, entries, o, en.
    repeat split; auto; apply list_elem_of_In; assumption.
Qed.

(** The theorem at work: the second upsert of the run over the duplicated
    stream goes to company 901, which A resolves to. *)
Lemma X13_witness_upsert_for_A :
  "901" <> ""
  /\ exists e m entries o en,
       (e, m) ∈ MIXPANEL_EVENT_TO_HUBSPOT_PROPERTY
       /\ PyDict.get e (aggregated (aggregate ["A"; "B"; "C"] Runs.duplicated_stream))
          = Some entries
       /\ (o, en) ∈ entries
       /\ resolved_id Runs.crm_directory o = Some "901"
       /\ [("api_calls_past_90_days", 2)] = property_updates m en.
Proof.
  apply (X13_every_upsert_comes_from_a_resolved_bucket Runs.crm_directory
           ["A"; "B"; "C"] Runs.duplicated_stream "901" [("api_calls_past_90_days", 2)]).
  vm_compute. right. left.
Defined.

(** ** Staging: all rows or none *)

Lemma line_item_rows_cons (a : association) (assocs : list association) :
  line_item_rows (a :: assocs)
  = match (if truthy (line_item_id a) then line_item_cells a else None) with
    | Some c => c :: line_item_rows assocs
    | None => line_item_rows assocs
    end.
Proof. reflexivity. Qed.

Lemma stage_line_items_ok (assocs : list association) :
  forall r u,
    existsb (fun a => truthy (line_item_id a)
                      && bool_decide (line_item_cells a = None)) assocs = false ->
    stage_line_items assocs r u
    = Some (r + Z.of_nat (length (line_item_rows assocs)),
            u ++ staged r (line_item_rows assocs)).
Proof.
  induction assocs as [|a assocs IH]; intros r u H.
  - simpl. rewrite Z.add_0_r, app_nil_r. reflexivity.
  - cbn [existsb] in H. apply orb_false_iff in H. destruct H as [Ha H].
    cbn [stage_line_items]. rewrite line_item_rows_cons.
    destruct (truthy (line_item_id a)); cbn [negb].
    + destruct (line_item_cells a) as [c|].
      * rewrite IH by exact H. cbn [staged length].
        rewrite <- app_assoc. do 2 f_equal. lia.
      * rewrite bool_decide_true in Ha by reflexivity. discriminate.
    + apply IH. exact H.
Qed.

Lemma stage_line_items_fails (assocs : list association) :
  forall r u,
    existsb (fun a => truthy (line_item_id a)
                      && bool_decide (line_item_cells a = None)) assocs = true ->
    stage_line_items assocs r u = None.
Proof.
  induction assocs as [|a assocs IH]; intros r u H; [discriminate|].
  cbn [existsb] in H. cbn [stage_line_items].
  destruct (truthy (line_item_id a)); cbn [negb andb orb] in *.
  - destruct (line_item_cells a) as [c|]; [|reflexivity].
    rewrite bool_decide_false in H by discriminate. apply IH. exact H.
  - apply IH. exact H.
Qed.

Lemma stage_deals_ok (deals : list deal) :
  forall r u,
    (forall d, d ∈ deals -> retrieval_failed d = false) ->
    stage_deals deals r u = Some (u ++ staged r (rows_of deals)).
Proof.
  induction deals as [|d deals IH]; intros r u H.
  - simpl. rewrite app_nil_r. reflexivity.
  - pose proof (H d ltac:(left)) as Hd. unfold retrieval_failed in Hd.
    cbn [stage_deals]. unfold rows_of. cbn [flat_map].
    destruct (assoc_data d) as [[assocs|]|]; try discriminate.
    rewrite stage_line_items_ok by exact Hd.
    rewrite IH by (intros d' Hd'; apply H; right; exact Hd').
    rewrite staged_app, app_assoc. reflexivity.
Qed.

Lemma stage_deals_fails (deals : list deal) (d : deal) :
  forall r u,
    d ∈ deals -> retrieval_failed d = true -> stage_deals deals r u = None.
Proof.
  induction deals as [|d0 deals IH]; intros r u Hin Hd; [inversion Hin|].
  cbn [stage_deals].
  destruct (assoc_data d0) as [[assocs|]|] eqn:Had; try reflexivity.
  destruct (existsb (fun a => truthy (line_item_id a)
                              && bool_decide (line_item_cells a = None)) assocs) eqn:Hex.
  - rewrite stage_line_items_fails by exact Hex. reflexivity.
  - rewrite stage_line_items_ok by exact Hex.
    apply elem_of_cons in Hin as [->|Hin]; [|apply IH; assumption].
    unfold retrieval_failed in Hd. rewrite Had in Hd. congruence.
Qed.

(** X14.  When every retrieval succeeds, the staging loop queues one row
    for each association that has an id, deal by deal and in the order of
    the associations, and numbers the rows 2, 3, ... without a gap:
    associations without id and deals without line items use no row
    number. *)
Theorem X14_staged_rows_are_numbered_from_2_without_gaps (deals : list deal) :
  (forall d, d ∈ deals -> retrieval_failed d = false) ->
  stage_deals deals 2 [] = Some (staged 2 (rows_of deals))
  /\ forall i cells, rows_of deals !! i = Some cells ->
       staged 2 (rows_of deals) !! i
       = Some {| row_index := 2 + Z.of_nat i; row_values := cells |}.
Proof.
  intros H. split; [apply (stage_deals_ok deals 2 [] H)|].
  generalize (rows_of deals) as rows. generalize 2 as r.
  intros r rows. revert r. induction rows as [|c rows IH]; intros r i cells Hi.
  - destruct i; discriminate.
  - destruct i as [|i]; simpl in *.
    + injection Hi as <-. rewrite Z.add_0_r. reflexivity.
    + rewrite (IH (r + 1) i cells Hi). do 2 f_equal. lia.
Qed.

(** The theorem at work: three line items of two deals, an association
    without id between them. *)
Lemma X14_witness_two_deals :
  stage_deals MoreRuns.two_deals 2 []
  = Some [ {| row_index := 2; row_values := ["ACME"; "seats"] |};
           {| row_index := 3; row_values := ["Bolt"; "seats"] |};
           {| row_index := 4; row_values := ["Bolt"; "support"] |} ].
Proof.
  apply (X14_staged_rows_are_numbered_from_2_without_gaps MoreRuns.two_deals).
  intros d Hd. unfold MoreRuns.two_deals in Hd.
  repeat (apply elem_of_cons in Hd as [->|Hd]); try reflexivity.
  inversion Hd.
Defined.

(** X15.  One failed retrieval anywhere aborts the whole job before the
    sheet is touched: whatever was staged for the deals before it is
    dropped, no call reaches the sheet, and the only record is the abort. *)
Theorem X15_failed_retrieval_leaves_the_sheet_untouched
    (clear_ok : bool) (update_ok : nat -> bool) (deals : list deal) (d : deal)
    (s : sheet) :
  d ∈ deals -> retrieval_failed d = true ->
  ArrSync.main clear_ok update_ok deals s = (Stopped, s, [JobAborted]).
Proof.
  intros Hin Hd. unfold ArrSync.main.
  rewrite (stage_deals_fails deals d 2 [] Hin Hd). reflexivity.
Qed.

(** The theorem at work: the line item of the third deal cannot be
    retrieved; the three rows of the first two deals are not written. *)
Lemma X15_witness_third_deal_fails :
  ArrSync.main true (fun _ => true) MoreRuns.third_deal_fails Runs.sheet_with_old_rows
  = (Stopped, Runs.sheet_with_old_rows, [JobAborted]).
Proof.
  apply (X15_failed_retrieval_leaves_the_sheet_untouched true (fun _ => true)
           MoreRuns.third_deal_fails
           {| assoc_data := Some (Some [ {| line_item_id := Some "4";
                                            line_item_cells := None |} ]) |}).
  - unfold MoreRuns.third_deal_fails. apply elem_of_app. right. left.
  - reflexivity.
Defined.

(** ** The sheet after a complete flush *)

(** X16.  When rows were staged and the sheet accepts every batch, [main]
    clears once, sends the chunks in order and reports the total; afterwards
    every staged row stands in its sheet row, and the rows above row 2 are
    as before.  The answer of the clear is not looked at: when the clear was
    refused the flush goes on all the same, and the rows below the last
    staged one keep what they held, where an accepted clear leaves them
    empty. *)
Theorem X16_accepted_flush_writes_every_staged_row
    (clear_ok : bool) (update_ok : nat -> bool) (deals : list deal) (s : sheet)
    (u : list sheet_update) :
  stage_deals deals 2 [] = Some u ->
  u <> [] ->
  (forall j, (j * 200 < length u)%nat -> update_ok j = true) ->
  exists s',
    ArrSync.main clear_ok update_ok deals s
    = (Completed, s', [Prepared (length u); SuccessfullyWrote (length u)])
    /\ api_calls s'
       = api_calls s ++ Clear :: map (fun c => BatchUpdate c true) (chunks u)
    /\ (forall x, x ∈ u -> cells s' !! row_index x = Some (row_values x))
    /\ (forall r, r < 2 -> cells s' !! r = cells s !! r)
    /\ (forall r, 2 + Z.of_nat (length u) <= r ->
          cells s' !! r = if clear_ok then None else cells s !! r).
Proof.
  intros Hstage Hne Hok. change 200%nat with BATCH_SIZE in Hok.
  destruct (stage_deals_staged deals 2 [] u Hstage) as [rows Hu]. simpl in Hu.
  assert (Hidx : map row_index u = seqZ 2 (Z.of_nat (length u))).
  { rewrite Hu, staged_row_index, staged_length. reflexivity. }
  assert (Hcleared : forall r,
             cells (clear_selected_columns clear_ok s) !! r
             = if clear_ok then (if decide (r < 2) then cells s !! r else None)
               else cells s !! r).
  { intros r. cbn [clear_selected_columns cells]. destruct clear_ok; [|reflexivity].
    destruct (decide (r < 2)) as [Hr|Hr].
    - destruct (cells s !! r) as [v|] eqn:Hv.
      + apply map_lookup_filter_Some. split; [exact Hv|exact Hr].
      + apply map_lookup_filter_None. left. exact Hv.
    - apply map_lookup_filter_None. right. intros v _. exact Hr. }
  exists {| cells := write_rows u (cells (clear_selected_columns clear_ok s));
            api_calls := api_calls s ++ Clear
                         :: map (fun c => BatchUpdate c true) (chunks u) |}.
  split; [|split; [reflexivity|split; [|split]]].
  - unfold ArrSync.main. rewrite Hstage. rewrite write_sheet_nonempty by exact Hne.
    rewrite flush_chunks_completes.
    + change (map (chunk_at u) (starts (length u))) with (chunks u).
      rewrite concat_chunks. unfold chunks. rewrite map_map.
      cbn [clear_selected_columns api_calls app]. rewrite <- app_assoc. reflexivity.
    + intros st Hst. apply list_elem_of_lookup in Hst. destruct Hst as [i Hi].
      apply starts_lookup in Hi. destruct Hi as [-> Hi].
      apply chunk_at_nonempty. exact Hi.
    + intros j Hj. apply Hok. unfold starts in Hj.
      rewrite length_map, length_seq in Hj. apply starts_count. exact Hj.
  - intros x Hx. cbn [cells]. apply write_rows_lookup; [|exact Hx].
    rewrite Hidx. apply NoDup_seqZ.
  - intros r Hr. cbn [cells]. rewrite write_rows_other.
    + rewrite Hcleared. destruct clear_ok; [|reflexivity].
      rewrite decide_True by exact Hr. reflexivity.
    + rewrite Hidx. intros Hin. apply elem_of_seqZ in Hin. lia.
  - intros r Hr. cbn [cells]. rewrite write_rows_other.
    + rewrite Hcleared. destruct clear_ok; [|reflexivity].
      rewrite decide_False by lia. reflexivity.
    + rewrite Hidx. intros Hin. apply elem_of_seqZ in Hin. lia.
Qed.

(** The theorem at work: three rows are written although the clear was
    refused; row 9, left by an earlier run, is still there. *)
Lemma X16_witness_three_rows_clear_refused :
  exists s',
    ArrSync.main false (fun _ => true) MoreRuns.two_deals MoreRuns.sheet_with_stale_row
    = (Completed, s', [Prepared 3; SuccessfullyWrote 3])
    /\ cells s' !! 2 = Some ["ACME"; "seats"]
    /\ cells s' !! 1 = Some ["header"]
    /\ cells s' !! 9 = Some ["stale"].
Proof.
  destruct (X16_accepted_flush_writes_every_staged_row false (fun _ => true)
              MoreRuns.two_deals MoreRuns.sheet_with_stale_row
              [ {| row_index := 2; row_values := ["ACME"; "seats"] |};
                {| row_index := 3; row_values := ["Bolt"; "seats"] |};
                {| row_index := 4; row_values := ["Bolt"; "support"] |} ])
    as (s' & Hmain & _ & Hrows & Habove & Hbelow).
  - reflexivity.
  - discriminate.
  - reflexivity.
  - exists s'. split; [exact Hmain|]. split; [|split].
    + apply (Hrows {| row_index := 2; row_values := ["ACME"; "seats"] |}). left.
    + rewrite Habove by lia. reflexivity.
    + rewrite Hbelow by (simpl; lia). reflexivity.
Defined.

(** ** The company updates from the ARR export *)

Lemma update_rows_skips (update : nat -> ArrUpdate.update_result)
    (row : list string) (rows : list (list string)) (n : nat)
    (calls : list ArrUpdate.update_call) :
  eligible row = false ->
  ArrUpdate.update_rows update (row :: rows) n calls
  = ArrUpdate.update_rows update rows n calls.
Proof.
  unfold eligible. intros H. cbn [ArrUpdate.update_rows].
  destruct (Nat.ltb_spec (length row) 4) as [Hlt|Hge]; [reflexivity|].
  rewrite (proj2 (Nat.leb_le 4 (length row)) Hge) in H. cbn [andb] in H.
  unfold truthy. rewrite H. reflexivity.
Qed.

Lemma update_rows_calls (update : nat -> ArrUpdate.update_result)
    (row : list string) (rows : list (list string)) (n : nat)
    (calls : list ArrUpdate.update_call) :
  eligible row = true ->
  ArrUpdate.update_rows update (row :: rows) n calls
  = match update (length calls) with
    | ArrUpdate.Updated =>
        ArrUpdate.update_rows update rows (S n) (calls ++ [call_of row])
    | ArrUpdate.Failed =>
        (ArrUpdate.Aborted (nth 0 row ""), calls ++ [call_of row])
    | ArrUpdate.Raises => (ArrUpdate.Raised, calls ++ [call_of row])
    end.
Proof.
  unfold eligible. intros H. apply andb_true_iff in H. destruct H as [Hlen Hid].
  cbn [ArrUpdate.update_rows].
  apply Nat.leb_le in Hlen. rewrite (proj2 (Nat.ltb_ge (length row) 4) Hlen).
  unfold truthy. rewrite Hid. reflexivity.
Qed.

Lemma update_rows_all (update : nat -> ArrUpdate.update_result)
    (rows : list (list string)) :
  forall n calls,
    (forall j, (j < length (List.filter eligible rows))%nat ->
               update (length calls + j)%nat = ArrUpdate.Updated) ->
    ArrUpdate.update_rows update rows n calls
    = (ArrUpdate.Finished (n + length (List.filter eligible rows)),
       calls ++ map call_of (List.filter eligible rows)).
Proof.
  induction rows as [|row rows IH]; intros n calls H.
  - simpl. rewrite Nat.add_0_r, app_nil_r. reflexivity.
  - cbn [List.filter] in *. destruct (eligible row) eqn:He.
    + rewrite update_rows_calls by exact He.
      pose proof (H 0%nat ltac:(simpl; lia)) as H0. rewrite Nat.add_0_r in H0.
      rewrite H0. rewrite IH.
      * cbn [length map]. rewrite <- app_assoc. do 2 f_equal. lia.
      * intros j Hj. rewrite length_app. cbn [length].
        replace (length calls + 1 + j)%nat with (length calls + S j)%nat by lia.
        apply H. simpl. lia.
    + rewrite update_rows_skips by exact He. apply IH. exact H.
Qed.

Lemma update_rows_stops (update : nat -> ArrUpdate.update_result)
    (rows : list (list string)) :
  forall n calls k row,
    List.filter eligible rows !! k = Some row ->
    (forall j, (j < k)%nat -> update (length calls + j)%nat = ArrUpdate.Updated) ->
    update (length calls + k)%nat <> ArrUpdate.Updated ->
    ArrUpdate.update_rows update rows n calls
    = (match update (length calls + k)%nat with
       | ArrUpdate.Raises => ArrUpdate.Raised
       | _ => ArrUpdate.Aborted (nth 0 row "")
       end,
       calls ++ map call_of (take (S k) (List.filter eligible rows))).
Proof.
  induction rows as [|row0 rows IH]; intros n calls k row Hk Hok Hfail.
  - destruct k; discriminate.
  - cbn [List.filter] in *. destruct (eligible row0) eqn:He.
    + rewrite update_rows_calls by exact He. destruct k as [|k].
      * injection Hk as <-. rewrite Nat.add_0_r in *.
        destruct (update (length calls)); [congruence|reflexivity|reflexivity].
      * pose proof (Hok 0%nat ltac:(lia)) as H0. rewrite Nat.add_0_r in H0.
        rewrite H0. simpl in Hk.
        assert (Hlen : forall j, (length (calls ++ [call_of row0]) + j
                                  = length calls + S j)%nat)
          by (intros j; rewrite length_app; simpl; lia).
        rewrite (IH (S n) (calls ++ [call_of row0]) k row Hk).
        -- rewrite Hlen. cbn [take map]. rewrite <- app_assoc. reflexivity.
        -- intros j Hj. rewrite Hlen. apply Hok. lia.
        -- rewrite Hlen. exact Hfail.
    + rewrite update_rows_skips by exact He. apply (IH n calls k row Hk Hok Hfail).
Qed.

(** X17.  The company updates read the export below its header row.  Rows
    with fewer than four cells or with an empty company id are passed over
    and never stop the loop.  When every update gives a result, exactly one
    call is made for each remaining row, in order, with the three properties
    taken from its second to fourth cell, and the count reported is the
    number of those rows. *)
Theorem X17_one_update_per_eligible_row
    (update : nat -> ArrUpdate.update_result)
    (header : list string) (rows : list (list string))
    (others : list (option (list (list string)))) :
  (forall j, (j < length (List.filter eligible rows))%nat ->
             update j = ArrUpdate.Updated) ->
  ArrUpdate.update_companies update (Some (header :: rows) :: others)
  = (ArrUpdate.Finished (length (List.filter eligible rows)),
     map call_of (List.filter eligible rows)).
Proof.
  intros H. cbn [ArrUpdate.update_companies].
  rewrite update_rows_all by exact H. reflexivity.
Qed.

(** The theorem at work: of the five rows below the header, the short one
    and the one without company id are passed over. *)
Lemma X17_witness_three_companies :
  ArrUpdate.update_companies (fun _ => ArrUpdate.Updated) MoreRuns.arr_export
  = (ArrUpdate.Finished 3,
     map call_of [ ["901"; "1200"; "1.1"; "1.0"];
                   ["903"; "700"; "0.9"; "0.8"];
                   ["904"; "10"; "1.0"; "1.0"] ]).
Proof.
  apply (X17_one_update_per_eligible_row (fun _ => ArrUpdate.Updated)
           ["Company ID"; "ARR"; "NRR"; "Weighted NRR"]
           [ ["901"; "1200"; "1.1"; "1.0"]; ["902"; "300"]; [""; "50"; "1.0"; "1.0"];
             ["903"; "700"; "0.9"; "0.8"]; ["904"; "10"; "1.0"; "1.0"] ] []).
  intros j _. reflexivity.
Defined.

(** X18.  The first update that gives no result ends the phase: the calls
    made are those for the eligible rows up to that one, no later company is
    updated, and the phase reports the company whose update failed, or
    passes on the exception when the call raised. *)
Theorem X18_first_failed_update_stops_the_company_updates
    (update : nat -> ArrUpdate.update_result)
    (header : list string) (rows : list (list string))
    (others : list (option (list (list string)))) (k : nat) (row : list string) :
  List.filter eligible rows !! k = Some row ->
  (forall j, (j < k)%nat -> update j = ArrUpdate.Updated) ->
  update k <> ArrUpdate.Updated ->
  ArrUpdate.update_companies update (Some (header :: rows) :: others)
  = (match update k with
     | ArrUpdate.Raises => ArrUpdate.Raised
     | _ => ArrUpdate.Aborted (nth 0 row "")
     end,
     map call_of (take (S k) (List.filter eligible rows))).
Proof.
  intros Hk Hok Hfail. cbn [ArrUpdate.update_companies].
  rewrite (update_rows_stops update rows 0 [] k row Hk Hok Hfail). reflexivity.
Qed.

(** The theorem at work: the update of company 903 fails; 904 is not
    updated. *)
Lemma X18_witness_second_company_fails :
  ArrUpdate.update_companies MoreRuns.second_company_fails MoreRuns.arr_export
  = (ArrUpdate.Aborted "903",
     map call_of [ ["901"; "1200"; "1.1"; "1.0"]; ["903"; "700"; "0.9"; "0.8"] ]).
Proof.
  apply (X18_first_failed_update_stops_the_company_updates
           MoreRuns.second_company_fails
           ["Company ID"; "ARR"; "NRR"; "Weighted NRR"]
           [ ["901"; "1200"; "1.1"; "1.0"]; ["902"; "300"]; [""; "50"; "1.0"; "1.0"];
             ["903"; "700"; "0.9"; "0.8"]; ["904"; "10"; "1.0"; "1.0"] ] []
           1%nat ["903"; "700"; "0.9"; "0.8"]).
  - reflexivity.
  - intros j Hj. assert (j = 0%nat) as -> by lia. reflexivity.
  - discriminate.
Defined.

(** ** The groups of the query *)

Lemma number_rows_rows (rows : list kpi_row) :
  forall before, map row (number_rows before rows) = rows.
Proof.
  induction rows as [|r rows IH]; intros before; [reflexivity|].
  cbn [number_rows map row]. rewrite IH. reflexivity.
Qed.

Lemma group_keys_of_window (today_minus_30 year_now : Z) (table : list kpi_row) :
  map group_key (kpi_window today_minus_30 year_now table)
  = map row_group (List.filter (in_window today_minus_30 year_now) table).
Proof.
  unfold kpi_window.
  rewrite <- (number_rows_rows (List.filter (in_window today_minus_30 year_now) table) [])
    at 2.
  rewrite map_map. reflexivity.
Qed.

Lemma result_groups (today_minus_30 year_now : Z) (table : list kpi_row) :
  map result_group (fetch_kpis today_minus_30 year_now table)
  = remove_dups (map row_group
                   (List.filter (in_window today_minus_30 year_now) table)).
Proof.
  unfold fetch_kpis. cbv zeta. rewrite group_keys_of_window, map_map.
  rewrite <- (map_id (remove_dups _)) at 2.
  apply map_ext. intros [[o n] k]. reflexivity.
Qed.

Lemma result_groups_elem (today_minus_30 year_now : Z) (table : list kpi_row)
    (g : string * string * string) :
  g ∈ map result_group (fetch_kpis today_minus_30 year_now table)
  <-> exists r, r ∈ table
                /\ today_minus_30 < run_timestamp r
                /\ accounting_year_parameter r = year_now
                /\ kpi r ∈ tracked_kpis
                /\ row_group r = g.
Proof.
  assert (Hwin : forall r, in_window today_minus_30 year_now r = true
                           <-> today_minus_30 < run_timestamp r
                               /\ accounting_year_parameter r = year_now
                               /\ kpi r ∈ tracked_kpis).
  { intros r. unfold in_window. rewrite !andb_true_iff, Z.ltb_lt, Z.eqb_eq.
    rewrite bool_decide_eq_true. tauto. }
  rewrite result_groups, elem_of_remove_dups, list_elem_of_In, in_map_iff.
  split.
  - intros (r & Hg & Hr). apply filter_In in Hr. destruct Hr as [Hr Hw].
    apply Hwin in Hw. exists r. rewrite list_elem_of_In. tauto.
  - intros (r & Hr & Ht & Hy & Hk & Hg). exists r. split; [exact Hg|].
    apply filter_In. split; [apply list_elem_of_In; exact Hr|].
    apply Hwin. tauto.
Qed.

Lemma fetch_kpis_tracked (today_minus_30 year_now : Z) (table : list kpi_row)
    (d : delta_row) :
  d ∈ fetch_kpis today_minus_30 year_now table -> d_kpi d ∈ tracked_kpis.
Proof.
  intros Hd.
  assert (Hg : result_group d
               ∈ map result_group (fetch_kpis today_minus_30 year_now table)).
  { apply list_elem_of_In, in_map, list_elem_of_In. exact Hd. }
  apply result_groups_elem in Hg. destruct Hg as (r & _ & _ & _ & Hk & Hg).
  unfold row_group, result_group in Hg. injection Hg as _ _ <-. exact Hk.
Qed.

(** X19.  The query returns exactly one row for each group (organisation
    id, organisation name, KPI) that has a row in the table within the
    window, with the current accounting year and one of the two KPIs, and no
    row for anything else: an organisation without such a row is absent from
    the result, not reported with a delta of 0. *)
Theorem X19_one_result_row_per_group_in_the_window
    (today_minus_30 year_now : Z) (table : list kpi_row) :
  NoDup (map result_group (fetch_kpis today_minus_30 year_now table))
  /\ (forall g,
        g ∈ map result_group (fetch_kpis today_minus_30 year_now table)
        <-> exists r, r ∈ table
                      /\ today_minus_30 < run_timestamp r
                      /\ accounting_year_parameter r = year_now
                      /\ kpi r ∈ tracked_kpis
                      /\ row_group r = g)
  /\ (forall d, d ∈ fetch_kpis today_minus_30 year_now table ->
                d_kpi d ∈ tracked_kpis).
Proof.
  split; [rewrite result_groups; apply NoDup_remove_dups|].
  split; [intros g; apply result_groups_elem|].
  intros d. apply fetch_kpis_tracked.
Qed.

(** ** The push of the KPI deltas *)

Lemma set_nonempty {V : Type} (k : string) (v : V) (d : list (string * V)) :
  PyDict.set k v d <> [].
Proof. destruct d as [|[k' v'] d]; simpl; [|destruct (decide (k' = k))]; discriminate. Qed.

Lemma get_None_keys {V : Type} (k : string) (d : list (string * V)) :
  PyDict.get k d = None <-> k ∉ map fst d.
Proof.
  induction d as [|[k' v'] d IH]; simpl.
  - split; [intros _ H; inversion H|reflexivity].
  - destruct (decide (k' = k)) as [->|Hne].
    + split; [discriminate|]. intros H. exfalso. apply H. left.
    + rewrite IH. rewrite not_elem_of_cons. split; [auto|tauto].
Qed.

Lemma set_keys_NoDup {V : Type} (k : string) (v : V) (d : list (string * V)) :
  NoDup (map fst d) -> NoDup (map fst (PyDict.set k v d)).
Proof.
  induction d as [|[k' v'] d IH]; simpl; intros Hnd.
  - constructor; [intros H; inversion H|constructor].
  - destruct (decide (k' = k)) as [->|Hne]; simpl; [exact Hnd|].
    apply NoDup_cons in Hnd. destruct Hnd as [Hk' Hnd]. constructor; [|auto].
    intros Hin.
    assert (Hg : PyDict.get k' (PyDict.set k v d) = None)
      by (rewrite get_set_ne by congruence; apply get_None_keys; exact Hk').
    apply get_None_keys in Hg. exact (Hg Hin).
Qed.

(** What one result row changes in what is stored. *)
Lemma aggregate_row_get (S : list (string * DBKpiMain.org_data)) (row : delta_row)
    (org : string) :
  PyDict.get org (DBKpiMain.aggregate_row S row)
  = if decide (d_organization_id row = org)
    then Some {| DBKpiMain.organization_name :=
                   DBKpiMain.organization_name
                     (default {| DBKpiMain.organization_name := d_organization_name row;
                                 DBKpiMain.kpis := [] |}
                        (PyDict.get org S));
                 DBKpiMain.kpis :=
                   PyDict.set (d_kpi row) (delta row)
                     (from_option DBKpiMain.kpis [] (PyDict.get org S)) |}
    else PyDict.get org S.
Proof.
  unfold DBKpiMain.aggregate_row. cbv zeta.
  destruct (decide (d_organization_id row = org)) as [<-|Hne].
  - rewrite get_set_eq. destruct (PyDict.get (d_organization_id row) S); reflexivity.
  - apply get_set_ne. exact Hne.
Qed.

Lemma stored_delta_step (S : list (string * DBKpiMain.org_data)) (row : delta_row)
    (org k : string) :
  stored_delta (DBKpiMain.aggregate_row S row) org k
  = if bool_decide (d_organization_id row = org) && bool_decide (d_kpi row = k)
    then Some (delta row)
    else stored_delta S org k.
Proof.
  unfold stored_delta. rewrite aggregate_row_get.
  destruct (decide (d_organization_id row = org)) as [Ho|Ho].
  - rewrite (bool_decide_true _ Ho). cbn [andb mbind option_bind DBKpiMain.kpis].
    destruct (decide (d_kpi row = k)) as [Hk|Hk].
    + rewrite (bool_decide_true _ Hk), Hk. apply get_set_eq.
    + rewrite (bool_decide_false _ Hk), get_set_ne by exact Hk.
      destruct (PyDict.get org S); reflexivity.
  - rewrite (bool_decide_false _ Ho). reflexivity.
Qed.

Lemma stored_delta_fold (org k : string) (result : list delta_row) :
  forall S,
    stored_delta (fold_left DBKpiMain.aggregate_row result S) org k
    = match last (deltas_of org k result) with
      | Some d => Some (delta d)
      | None => stored_delta S org k
      end.
Proof.
  induction result as [|row result IH]; intros S; [reflexivity|].
  cbn [fold_left]. rewrite IH, stored_delta_step. unfold deltas_of. cbn [List.filter].
  destruct (bool_decide (d_organization_id row = org) && bool_decide (d_kpi row = k)).
  - destruct (List.filter _ result) as [|d l] eqn:Hf; [reflexivity|].
    rewrite (last_cons row). destruct (last (d :: l)) eqn:Hl; [reflexivity|].
    apply last_None in Hl. discriminate.
  - reflexivity.
Qed.

(** The KPI names stored for an organisation are pairwise distinct. *)
Lemma aggregate_kpis_NoDup (result : list delta_row) :
  forall S,
    (forall o data, PyDict.get o S = Some data -> NoDup (map fst (DBKpiMain.kpis data))) ->
    forall o data,
      PyDict.get o (fold_left DBKpiMain.aggregate_row result S) = Some data ->
      NoDup (map fst (DBKpiMain.kpis data)).
Proof.
  induction result as [|row result IH]; intros S HS; [exact HS|].
  cbn [fold_left]. apply IH. intros o data. rewrite aggregate_row_get.
  destruct (decide (d_organization_id row = o)); [|apply HS].
  intros [= <-]. cbn [DBKpiMain.kpis]. apply set_keys_NoDup.
  destruct (PyDict.get o S) as [data0|] eqn:Hg; [apply (HS o data0 Hg)|constructor].
Qed.

(** Every organisation stored has a KPI of the rows it came from. *)
Lemma aggregate_kpis_tracked (result : list delta_row) (names : list string) :
  (forall d, d ∈ result -> d_kpi d ∈ names) ->
  forall S,
    (forall o data, (o, data) ∈ S ->
       exists k v, (k, v) ∈ DBKpiMain.kpis data /\ k ∈ names) ->
    forall o data,
      (o, data) ∈ fold_left DBKpiMain.aggregate_row result S ->
      exists k v, (k, v) ∈ DBKpiMain.kpis data /\ k ∈ names.
Proof.
  induction result as [|row result IH]; intros Hres S HS; [exact HS|].
  cbn [fold_left]. apply IH; [intros d Hd; apply Hres; right; exact Hd|].
  intros o data Hin. unfold DBKpiMain.aggregate_row in Hin. cbv zeta in Hin.
  assert (Hset : forall (x : string * DBKpiMain.org_data) k v d,
             x ∈ PyDict.set k v d -> x = (k, v) \/ x ∈ d).
  { intros x k v d. induction d as [|[k' v'] d IHd]; simpl.
    - intros H. apply list_elem_of_singleton in H. auto.
    - destruct (decide (k' = k)) as [->|Hne]; intros H;
        apply elem_of_cons in H as [->|H]; auto.
      + right. right. exact H.
      + right. left.
      + destruct (IHd H) as [->|H']; auto. right. right. exact H'. }
  apply Hset in Hin. destruct Hin as [[= -> ->]|Hin]; [|apply (HS o data Hin)].
  exists (d_kpi row), (delta row). cbn [DBKpiMain.kpis]. split.
  - apply get_elem_of, get_set_eq.
  - apply Hres. left.
Qed.

(** The property of a tracked KPI holds what is stored for the KPI. *)
Lemma properties_to_update_get (k : string) (kpis : list (string * option Z)) :
  k ∈ tracked_kpis ->
  NoDup (map fst kpis) ->
  forall v, PyDict.get k kpis = Some v ->
    PyDict.get (property_of k) (DBKpiMain.properties_to_update kpis) = Some v.
Proof.
  intros Hk. unfold DBKpiMain.properties_to_update.
  generalize (@nil (string * option Z)) as acc.
  induction kpis as [|[k0 v0] kpis IH]; intros acc Hnd v Hg; [discriminate|].
  cbn [map fst] in Hnd. apply NoDup_cons in Hnd. destruct Hnd as [Hk0 Hnd].
  cbn [fold_left fst snd]. simpl in Hg.
  destruct (decide (k0 = k)) as [->|Hne].
  - injection Hg as <-.
    assert (Hrest : forall acc',
               PyDict.get (property_of k)
                 (fold_left
                    (fun properties_to_update item =>
                       if String.eqb (fst item) "Number of log entries"
                       then PyDict.set "number_log_entries_past_30_days" (snd item)
                              properties_to_update
                       else if String.eqb (fst item)
                                 "Number of log entries created via bulk import"
                       then PyDict.set "number_bulk_entries_past_30_days" (snd item)
                              properties_to_update
                       else properties_to_update) kpis acc')
               = PyDict.get (property_of k) acc').
    { clear IH Hnd. induction kpis as [|[k1 v1] kpis IH1]; intros acc'; [reflexivity|].
      cbn [map fst] in Hk0. rewrite not_elem_of_cons in Hk0.
      destruct Hk0 as [Hk1 Hk0].
      cbn [fold_left fst snd]. rewrite (IH1 Hk0). unfold property_of.
      unfold tracked_kpis in Hk. repeat (apply elem_of_cons in Hk as [->|Hk]);
        [| |inversion Hk].
      - destruct (String.eqb_spec k1 "Number of log entries") as [->|_]; [congruence|].
        destruct (String.eqb k1 _); [|reflexivity].
        apply get_set_ne. discriminate.
      - destruct (String.eqb_spec k1 "Number of log entries") as [->|_].
        + apply get_set_ne. discriminate.
        + destruct (String.eqb_spec k1 "Number of log entries created via bulk import")
            as [->|_]; [congruence|reflexivity]. }
    rewrite Hrest. unfold property_of.
    unfold tracked_kpis in Hk. repeat (apply elem_of_cons in Hk as [->|Hk]);
      [| |inversion Hk]; cbn; apply get_set_eq.
  - apply IH; assumption.
Qed.

Lemma properties_to_update_nonempty (kpis : list (string * option Z)) (k : string)
    (v : option Z) :
  (k, v) ∈ kpis -> k ∈ tracked_kpis -> DBKpiMain.properties_to_update kpis <> [].
Proof.
  intros Hin Hk. unfold DBKpiMain.properties_to_update.
  assert (Hkeep : forall (l acc : list (string * option Z)), acc <> [] ->
             fold_left
               (fun properties_to_update item =>
                  if String.eqb (fst item) "Number of log entries"
                  then PyDict.set "number_log_entries_past_30_days" (snd item)
                         properties_to_update
                  else if String.eqb (fst item)
                            "Number of log entries created via bulk import"
                  then PyDict.set "number_bulk_entries_past_30_days" (snd item)
                         properties_to_update
                  else properties_to_update) l acc <> []).
  { induction l as [|[k1 v1] l IHl]; intros acc Hacc; [exact Hacc|].
    cbn [fold_left fst snd]. apply IHl.
    destruct (String.eqb k1 _); [apply set_nonempty|].
    destruct (String.eqb k1 _); [apply set_nonempty|exact Hacc]. }
  match goal with
  | |- fold_left ?f _ _ <> _ =>
      enough (Hall : forall acc, fold_left f kpis acc <> []) by apply Hall
  end.
  revert Hin.
  induction kpis as [|[k0 v0] kpis IH]; intros Hin acc; [inversion Hin|].
  apply elem_of_cons in Hin as [Heq|Hin]; [|apply IH; exact Hin].
  injection Heq as <- <-. cbn [fold_left fst snd]. apply Hkeep.
  unfold tracked_kpis in Hk. repeat (apply elem_of_cons in Hk as [->|Hk]);
    [| |inversion Hk]; cbn; apply set_nonempty.
Qed.

Section PushFacts.

Variable search_company : string -> option (list crm_object).
Variable update_company_properties : nat -> bool.

Local Abbreviation push := (DBKpiMain.push search_company update_company_properties).

(** Where nothing raises, the update of every organisation the CRM finds is
    in the trace. *)
Lemma push_reaches (o : string) (data : DBKpiMain.org_data) (c : crm_object)
    (rest : list crm_object) (items : list (string * DBKpiMain.org_data)) :
  (forall o', search_company o' <> None) ->
  (forall j, update_company_properties j = true) ->
  search_company o = Some (c :: rest) ->
  DBKpiMain.properties_to_update (DBKpiMain.kpis data) <> [] ->
  forall n trace,
    (o, data) ∈ items
    \/ DBKpiMain.UpdateCompanyProperties (obj_id c)
         (DBKpiMain.properties_to_update (DBKpiMain.kpis data)) ∈ trace ->
    DBKpiMain.UpdateCompanyProperties (obj_id c)
      (DBKpiMain.properties_to_update (DBKpiMain.kpis data))
    ∈ (push items n trace).2.
Proof.
  intros Hsearch Hupdate Ho Hprops.
  induction items as [|[o0 data0] items IH]; intros n trace H.
  - destruct H as [H|H]; [inversion H|exact H].
  - cbn [DBKpiMain.push].
    assert (Hhead : (o, data) = (o0, data0) \/ (o, data) ∈ items
                    \/ DBKpiMain.UpdateCompanyProperties (obj_id c)
                         (DBKpiMain.properties_to_update (DBKpiMain.kpis data)) ∈ trace).
    { destruct H as [H|H]; [apply elem_of_cons in H; tauto|auto]. }
    clear H.
    destruct (search_company o0) as [[|c0 rest0]|] eqn:Hs0;
      [|destruct (DBKpiMain.properties_to_update (DBKpiMain.kpis data0)) eqn:Hp0|].
    + apply IH. destruct Hhead as [[= -> ->]|[H|H]]; [congruence|auto|].
      right. rewrite !elem_of_app. auto.
    + apply IH. destruct Hhead as [[= -> ->]|[H|H]]; [congruence|auto|].
      right. rewrite !elem_of_app. auto.
    + rewrite Hupdate. apply IH. destruct Hhead as [[= -> ->]|[H|H]].
      * right. rewrite !elem_of_app. right. rewrite Hs0 in Ho.
        injection Ho as -> _. rewrite Hp0. left.
      * auto.
      * right. rewrite !elem_of_app. auto.
    + destruct (Hsearch o0 Hs0).
Qed.

(** The line for an organisation without KPI values is printed only for an
    organisation whose KPIs give no property. *)
Lemma push_no_kpi_values (o : string) (items : list (string * DBKpiMain.org_data)) :
  forall n trace,
    DBKpiMain.NoKpiValues o ∈ (push items n trace).2 ->
    DBKpiMain.NoKpiValues o ∈ trace
    \/ exists data, (o, data) ∈ items
                    /\ DBKpiMain.properties_to_update (DBKpiMain.kpis data) = [].
Proof.
  induction items as [|[o0 data0] items IH]; intros n trace H; [left; exact H|].
  cbn [DBKpiMain.push] in H.
  assert (Hstep : forall n' (evs : list DBKpiMain.event),
             DBKpiMain.NoKpiValues o ∉ evs ->
             DBKpiMain.NoKpiValues o ∈ (push items n' (trace ++ evs)).2 ->
             DBKpiMain.NoKpiValues o ∈ trace
             \/ exists data, (o, data) ∈ (o0, data0) :: items
                             /\ DBKpiMain.properties_to_update (DBKpiMain.kpis data) = []).
  { intros n' evs Hevs Hin. apply IH in Hin. destruct Hin as [Hin|(data & Hd & Hp)].
    - apply elem_of_app in Hin as [Hin|Hin]; [auto|contradiction].
    - right. exists data. split; [right; exact Hd|exact Hp]. }
  destruct (search_company o0) as [[|c0 rest0]|] eqn:Hs0;
    [|destruct (DBKpiMain.properties_to_update (DBKpiMain.kpis data0)) eqn:Hp0|].
  - rewrite <- app_assoc in H. apply Hstep in H; [exact H|].
    intros Hc. repeat (apply elem_of_cons in Hc as [Hc|Hc]; [discriminate|]).
    inversion Hc.
  - rewrite <- app_assoc in H. apply IH in H. destruct H as [H|(data & Hd & Hp)].
    + apply elem_of_app in H as [H|H]; [auto|].
      apply elem_of_cons in H as [H|H]; [discriminate|].
      apply list_elem_of_singleton in H. injection H as ->.
      right. exists data0. split; [left|exact Hp0].
    + right. exists data. split; [right; exact Hd|exact Hp].
  - rewrite <- app_assoc in H.
    assert (Hnot : DBKpiMain.NoKpiValues o
                   ∉ [DBKpiMain.SearchCompany o0;
                      DBKpiMain.UpdateCompanyProperties (obj_id c0) (p :: l)]).
    { intros Hc. repeat (apply elem_of_cons in Hc as [Hc|Hc]; [discriminate|]).
      inversion Hc. }
    destruct (update_company_properties n); [apply Hstep in H; assumption|].
    cbn [snd] in H. apply elem_of_app in H as [H|H]; [auto|contradiction].
  - cbn [snd] in H. apply elem_of_app in H as [H|H]; [auto|].
    apply list_elem_of_singleton in H. discriminate.
Qed.

(** While the updates return, a search that raises for one of the
    organisations ends the run, and a raising search is the last event. *)
Lemma push_raises (o : string) (data : DBKpiMain.org_data)
    (items : list (string * DBKpiMain.org_data)) :
  (forall j, update_company_properties j = true) ->
  (o, data) ∈ items -> search_company o = None ->
  forall n trace,
    exists o' trace',
      push items n trace = (DBKpiMain.Raised, trace' ++ [DBKpiMain.SearchCompany o'])
      /\ search_company o' = None.
Proof.
  intros Hupdate Hin Ho.
  induction items as [|[o0 data0] items IH]; intros n trace; [inversion Hin|].
  cbn [DBKpiMain.push].
  destruct (search_company o0) as [[|c0 rest0]|] eqn:Hs0;
    [|destruct (DBKpiMain.properties_to_update (DBKpiMain.kpis data0)) eqn:Hp0|].
  - apply IH. apply elem_of_cons in Hin as [[= -> ->]|Hin]; [congruence|exact Hin].
  - apply IH. apply elem_of_cons in Hin as [[= -> ->]|Hin]; [congruence|exact Hin].
  - rewrite Hupdate. apply IH.
    apply elem_of_cons in Hin as [[= -> ->]|Hin]; [congruence|exact Hin].
  - exists o0, trace. split; [reflexivity|exact Hs0].
Qed.

End PushFacts.

Lemma stored_organisation (result : list delta_row) (d : delta_row) :
  d ∈ result ->
  exists data,
    (d_organization_id d, data) ∈ fold_left DBKpiMain.aggregate_row result [].
Proof.
  intros Hd.
  pose proof (stored_delta_fold (d_organization_id d) (d_kpi d) result []) as Hs.
  assert (Hin : d ∈ deltas_of (d_organization_id d) (d_kpi d) result).
  { unfold deltas_of. apply list_elem_of_In, filter_In.
    split; [apply list_elem_of_In; exact Hd|].
    rewrite !bool_decide_true by reflexivity. reflexivity. }
  destruct (last (deltas_of (d_organization_id d) (d_kpi d) result)) as [d'|] eqn:Hl.
  - unfold stored_delta in Hs.
    destruct (PyDict.get (d_organization_id d)
                (fold_left DBKpiMain.aggregate_row result [])) as [data|] eqn:Hg;
      [|discriminate].
    exists data. apply get_elem_of. exact Hg.
  - apply last_None in Hl. rewrite Hl in Hin. inversion Hin.
Qed.

(** What is stored for a tracked KPI of an organisation the CRM finds is
    what the company is updated with, when no call raises. *)
Lemma stored_delta_pushed
    (search_company : string -> option (list crm_object))
    (update_company_properties : nat -> bool)
    (result : list delta_row) (org k : string) (v : option Z)
    (c : crm_object) (rest : list crm_object) :
  (forall o, search_company o <> None) ->
  (forall j, update_company_properties j = true) ->
  k ∈ tracked_kpis ->
  search_company org = Some (c :: rest) ->
  stored_delta (fold_left DBKpiMain.aggregate_row result []) org k = Some v ->
  exists properties,
    DBKpiMain.UpdateCompanyProperties (obj_id c) properties
    ∈ (DBKpiMain.main search_company update_company_properties result).2
    /\ PyDict.get (property_of k) properties = Some v.
Proof.
  intros Hsearch Hupdate Hk Hfound Hs. unfold stored_delta in Hs.
  destruct (PyDict.get org (fold_left DBKpiMain.aggregate_row result []))
    as [data|] eqn:Hg; [|discriminate].
  cbn [mbind option_bind] in Hs.
  assert (Hnd : NoDup (map fst (DBKpiMain.kpis data))).
  { apply (aggregate_kpis_NoDup result []
             ltac:(intros o' data'; discriminate) org data Hg). }
  pose proof (properties_to_update_get k (DBKpiMain.kpis data) Hk Hnd _ Hs) as Hp.
  exists (DBKpiMain.properties_to_update (DBKpiMain.kpis data)).
  split; [|exact Hp].
  unfold DBKpiMain.main.
  apply (push_reaches search_company update_company_properties org data c rest);
    try assumption.
  - intros Hnil. rewrite Hnil in Hp. discriminate.
  - left. apply get_elem_of. exact Hg.
Qed.

Lemma partition_tracked (today_minus_30 year_now : Z) (table : list kpi_row)
    (org k : string) :
  partition_of today_minus_30 year_now org k table <> [] -> k ∈ tracked_kpis.
Proof.
  intros Hne.
  destruct (partition_of today_minus_30 year_now org k table) as [|r l] eqn:Hp;
    [congruence|].
  assert (Hr : r ∈ partition_of today_minus_30 year_now org k table)
    by (rewrite Hp; left).
  apply partition_of_elem in Hr. destruct Hr as [Hw Hpart].
  apply in_part_true in Hpart. destruct Hpart as [_ <-].
  apply list_elem_of_In, filter_In in Hw. destruct Hw as [_ Hw].
  unfold in_window in Hw. apply andb_true_iff in Hw. destruct Hw as [_ Hw].
  apply bool_decide_eq_true in Hw. exact Hw.
Qed.

(** X20.  From the table to the CRM: for an organisation whose rows of a
    KPI in the window carry one name and which the CRM finds, the run, when
    no call raises, updates the company found with the property of that KPI
    set to the value of a latest row minus the value of an earliest row. *)
Theorem X20_company_gets_latest_minus_earliest
    (search_company : string -> option (list crm_object))
    (update_company_properties : nat -> bool)
    (today_minus_30 year_now : Z) (table : list kpi_row) (org k name : string)
    (c : crm_object) (rest : list crm_object) :
  (forall o, search_company o <> None) ->
  (forall j, update_company_properties j = true) ->
  partition_of today_minus_30 year_now org k table <> [] ->
  (forall r, r ∈ partition_of today_minus_30 year_now org k table ->
             organization_name r = name) ->
  search_company org = Some (c :: rest) ->
  exists r_first r_last properties,
    r_first ∈ partition_of today_minus_30 year_now org k table
    /\ r_last ∈ partition_of today_minus_30 year_now org k table
    /\ (forall r, r ∈ partition_of today_minus_30 year_now org k table ->
          run_timestamp r_first <= run_timestamp r <= run_timestamp r_last)
    /\ DBKpiMain.UpdateCompanyProperties (obj_id c) properties
       ∈ (DBKpiMain.main search_company update_company_properties
            (fetch_kpis today_minus_30 year_now table)).2
    /\ PyDict.get (property_of k) properties
       = Some (Some (value r_last - value r_first)).
Proof.
  intros Hsearch Hupdate Hne Hname Hfound.
  pose proof (partition_tracked _ _ _ _ _ Hne) as Hk.
  destruct (fetch_kpis_partition today_minus_30 year_now table org k name Hne Hname)
    as (r_first & r_last & Hf & Hl & Hrange & Hrow).
  pose proof (stored_delta_fold org k (fetch_kpis today_minus_30 year_now table) [])
    as Hs.
  rewrite Hrow in Hs. cbn [last delta] in Hs.
  destruct (stored_delta_pushed search_company update_company_properties _ org k _
              c rest Hsearch Hupdate Hk Hfound Hs) as (properties & Hin & Hget).
  exists r_first, r_last, properties. auto.
Qed.

(** The theorem at work: the three snapshots of org-1, which the CRM knows
    as company 901; the delta pushed is 40 - 10. *)
Lemma X20_witness_three_snapshots_pushed :
  exists properties,
    DBKpiMain.UpdateCompanyProperties (Some "901") properties
    ∈ (DBKpiMain.main MoreRuns.search_never_raises (fun _ => true)
         (fetch_kpis 0 2025 Runs.snapshots_shuffled)).2
    /\ PyDict.get "number_log_entries_past_30_days" properties = Some (Some 30).
Proof.
  assert (Hp : partition_of 0 2025 "org-1" "Number of log entries"
                 Runs.snapshots_shuffled
               = Runs.snapshots_shuffled) by reflexivity.
  destruct (X20_company_gets_latest_minus_earliest
              MoreRuns.search_never_raises (fun _ => true)
              0 2025 Runs.snapshots_shuffled "org-1" "Number of log entries" "Acme"
              {| obj_id := Some "901"; obj_properties := [("name", "Acme")] |} [])
    as (r_first & r_last & properties & Hf & Hl & Hrange & Hin & Hget).
  - intros o. unfold MoreRuns.search_never_raises.
    destruct (String.eqb o "org-1"); discriminate.
  - reflexivity.
  - rewrite Hp. discriminate.
  - rewrite Hp. intros r Hr. unfold Runs.snapshots_shuffled in Hr.
    repeat (apply elem_of_cons in Hr as [->|Hr]); try reflexivity. inversion Hr.
  - reflexivity.
  - rewrite Hp in Hf, Hl, Hrange.
    pose proof (Hrange (Runs.snapshot 1 10 "Acme") ltac:(right; left)) as H1.
    pose proof (Hrange (Runs.snapshot 3 40 "Acme") ltac:(left)) as H3.
    exists properties. split; [exact Hin|].
    unfold Runs.snapshots_shuffled in Hf, Hl.
    repeat (apply elem_of_cons in Hf as [->|Hf]); try (inversion Hf);
      try (simpl in H1, H3; lia).
    repeat (apply elem_of_cons in Hl as [->|Hl]); try (inversion Hl);
      try (simpl in H1, H3; lia).
    exact Hget.
Defined.

(** X21.  Every row the query returns bears one of the two KPIs that
    [main] maps to a property, so an organisation the CRM finds always has
    something to update: whatever the table and whatever the CRM answers,
    the line for an organisation without KPI values is never printed. *)
Theorem X21_no_organisation_without_kpi_values
    (search_company : string -> option (list crm_object))
    (update_company_properties : nat -> bool)
    (today_minus_30 year_now : Z) (table : list kpi_row) (o : string) :
  DBKpiMain.NoKpiValues o
  ∉ (DBKpiMain.main search_company update_company_properties
       (fetch_kpis today_minus_30 year_now table)).2.
Proof.
  unfold DBKpiMain.main. intros H. apply push_no_kpi_values in H.
  destruct H as [H|(data & Hin & Hnil)]; [inversion H|].
  destruct (aggregate_kpis_tracked (fetch_kpis today_minus_30 year_now table)
              tracked_kpis
              (fun d => fetch_kpis_tracked today_minus_30 year_now table d)
              [] ltac:(intros o' data' Hc; inversion Hc) o data Hin)
    as (k & v & Hkv & Hk).
  exact (properties_to_update_nonempty _ k v Hkv Hk Hnil).
Qed.

(** X22.  Unlike the Mixpanel job, this one does not survive a failed
    lookup: while the updates return, a search that raises for any
    organisation of the result ends the run with that exception, and a
    raising search is the last thing the run does. *)
Theorem X22_raising_search_ends_the_run
    (search_company : string -> option (list crm_object))
    (update_company_properties : nat -> bool)
    (today_minus_30 year_now : Z) (table : list kpi_row) (d : delta_row) :
  (forall j, update_company_properties j = true) ->
  d ∈ fetch_kpis today_minus_30 year_now table ->
  search_company (d_organization_id d) = None ->
  exists o trace,
    DBKpiMain.main search_company update_company_properties
      (fetch_kpis today_minus_30 year_now table)
    = (DBKpiMain.Raised, trace ++ [DBKpiMain.SearchCompany o])
    /\ search_company o = None.
Proof.
  intros Hupdate Hd Hraise. unfold DBKpiMain.main.
  destruct (stored_organisation _ d Hd) as [data Hin].
  apply (push_raises search_company update_company_properties
           (d_organization_id d) data _ Hupdate Hin Hraise).
Qed.

(** The theorem at work: org-1 is updated, then the search for org-2
    raises. *)
Lemma X22_witness_search_for_org_2_raises :
  exists o trace,
    DBKpiMain.main MoreRuns.search_raises_for_org_2 (fun _ => true)
      (fetch_kpis 0 2025 MoreRuns.two_organisations)
    = (DBKpiMain.Raised, trace ++ [DBKpiMain.SearchCompany o])
    /\ MoreRuns.search_raises_for_org_2 o = None.
Proof.
  apply (X22_raising_search_ends_the_run MoreRuns.search_raises_for_org_2
           (fun _ => true) 0 2025 MoreRuns.two_organisations
           {| d_organization_id := "org-2";
              d_organization_name := "Bolt";
              d_kpi := "Number of log entries";
              first_value := Some 7;
              last_value := Some 7;
              delta := Some 0 |}).
  - reflexivity.
  - vm_compute. right. left.
  - reflexivity.
Defined.

(** ** A group without the first or the last row of its partition *)

Lemma sql_max_none (column : list (option Z)) :
  (forall x, x ∈ column -> x = None) -> sql_max column = None.
Proof.
  induction column as [|x column IH]; intros H; [reflexivity|].
  simpl. rewrite (H x) by left. apply IH. intros y Hy. apply H. right. exact Hy.
Qed.

Section RankMissing.

Variable key : kpi_row -> Z.
Variable rn : window_row -> Z.

Hypothesis rn_of_place :
  forall rows w, w ∈ number_rows [] rows ->
    exists l1 l2, rows = l1 ++ row w :: l2
                  /\ rn w = row_number key l1 (row w) l2.

(** A group each of whose rows has a row of its partition before it in the
    order holds no row of rank 1. *)
Lemma value_at_rank_1_none (rows : list kpi_row) (g : string * string * string) :
  (forall w, w ∈ number_rows [] rows -> group_key w = g ->
     exists r', r' ∈ rows /\ same_partition (row w) r' = true
                /\ key r' < key (row w)) ->
  value_at_rank_1 rn
    (List.filter (fun x => bool_decide (group_key x = g)) (number_rows [] rows))
  = None.
Proof.
  intros H. unfold value_at_rank_1. apply sql_max_none. intros x Hx.
  apply list_elem_of_In, in_map_iff in Hx. destruct Hx as (w & <- & Hw).
  apply filter_In in Hw. destruct Hw as [Hw Hg].
  apply bool_decide_eq_true in Hg. apply list_elem_of_In in Hw.
  destruct (rn w =? 1) eqn:Hone; [|reflexivity]. exfalso.
  apply Z.eqb_eq in Hone.
  destruct (H w Hw Hg) as (r' & Hr' & Hsame & Hlt).
  destruct (rn_of_place rows w Hw) as (l1 & l2 & Hsplit & Hrn).
  rewrite Hrn in Hone. apply row_number_1 in Hone. destruct Hone as [Hb Ha].
  rewrite Hsplit in Hr'. apply elem_of_app in Hr' as [Hr'|Hr'].
  - specialize (Hb r' Hr' Hsame). lia.
  - apply elem_of_cons in Hr' as [->|Hr']; [lia|].
    specialize (Ha r' Hr' Hsame). lia.
Qed.

End RankMissing.

Lemma fetch_kpis_elem (today_minus_30 year_now : Z) (table : list kpi_row)
    (d : delta_row) :
  d ∈ fetch_kpis today_minus_30 year_now table ->
  d = select_group (kpi_window today_minus_30 year_now table) (result_group d).
Proof.
  unfold fetch_kpis. cbv zeta. intros Hd.
  apply list_elem_of_In, in_map_iff in Hd. destruct Hd as ([[o n] k] & <- & _).
  reflexivity.
Qed.

(** The rows of a group, seen from the window. *)
Lemma group_row_in_partition (today_minus_30 year_now : Z) (table : list kpi_row)
    (w : window_row) (o n k : string) :
  w ∈ number_rows [] (List.filter (in_window today_minus_30 year_now) table) ->
  group_key w = (o, n, k) ->
  row w ∈ partition_of today_minus_30 year_now o k table
  /\ organization_name (row w) = n
  /\ forall r', same_partition (row w) r' = in_part o k r'.
Proof.
  intros Hw Hg. unfold group_key in Hg. injection Hg as Ho Hn Hk.
  split; [|split; [exact Hn|]].
  - apply partition_of_elem. split; [apply number_rows_row; exact Hw|].
    apply in_part_true. auto.
  - intros r'. rewrite same_partition_in_part, Ho, Hk. reflexivity.
Qed.

Lemma fetch_kpis_no_first (today_minus_30 year_now : Z) (table : list kpi_row)
    (d : delta_row) :
  d ∈ fetch_kpis today_minus_30 year_now table ->
  (forall r, r ∈ partition_of today_minus_30 year_now
                   (d_organization_id d) (d_kpi d) table ->
             organization_name r = d_organization_name d ->
             exists r', r' ∈ partition_of today_minus_30 year_now
                               (d_organization_id d) (d_kpi d) table
                        /\ run_timestamp r' < run_timestamp r) ->
  first_value d = None /\ delta d = None.
Proof.
  intros Hd H. pose proof (fetch_kpis_elem _ _ _ _ Hd) as Heq.
  destruct d as [o n k fv lv dl]. unfold result_group in Heq. cbn in Heq, H.
  unfold select_group in Heq. cbv zeta in Heq. cbn [fst snd] in Heq.
  assert (Hnone : value_at_rank_1 rn_asc
                    (List.filter (fun x => bool_decide (group_key x = (o, n, k)))
                       (kpi_window today_minus_30 year_now table)) = None).
  { apply (value_at_rank_1_none asc rn_asc asc_of_place). intros w Hw Hg.
    destruct (group_row_in_partition _ _ _ _ _ _ _ Hw Hg) as (Hp & Hn & Hsame).
    destruct (H (row w) Hp Hn) as (r' & Hr' & Hlt).
    apply partition_of_elem in Hr'. destruct Hr' as [Hr' Hpart].
    exists r'. rewrite Hsame. auto. }
  rewrite Hnone in Heq. injection Heq as -> _ ->. cbn [first_value delta].
  split; [reflexivity|]. destruct (value_at_rank_1 rn_desc _); reflexivity.
Qed.

Lemma fetch_kpis_no_last (today_minus_30 year_now : Z) (table : list kpi_row)
    (d : delta_row) :
  d ∈ fetch_kpis today_minus_30 year_now table ->
  (forall r, r ∈ partition_of today_minus_30 year_now
                   (d_organization_id d) (d_kpi d) table ->
             organization_name r = d_organization_name d ->
             exists r', r' ∈ partition_of today_minus_30 year_now
                               (d_organization_id d) (d_kpi d) table
                        /\ run_timestamp r < run_timestamp r') ->
  last_value d = None /\ delta d = None.
Proof.
  intros Hd H. pose proof (fetch_kpis_elem _ _ _ _ Hd) as Heq.
  destruct d as [o n k fv lv dl]. unfold result_group in Heq. cbn in Heq, H.
  unfold select_group in Heq. cbv zeta in Heq. cbn [fst snd] in Heq.
  assert (Hnone : value_at_rank_1 rn_desc
                    (List.filter (fun x => bool_decide (group_key x = (o, n, k)))
                       (kpi_window today_minus_30 year_now table)) = None).
  { apply (value_at_rank_1_none desc rn_desc desc_of_place). intros w Hw Hg.
    destruct (group_row_in_partition _ _ _ _ _ _ _ Hw Hg) as (Hp & Hn & Hsame).
    destruct (H (row w) Hp Hn) as (r' & Hr' & Hlt).
    apply partition_of_elem in Hr'. destruct Hr' as [Hr' Hpart].
    exists r'. rewrite Hsame. unfold desc. split; [exact Hr'|]. split; [exact Hpart|lia]. }
  rewrite Hnone in Heq. injection Heq as _ -> ->. cbn [last_value delta].
  split; reflexivity.
Qed.

(** X23.  The row numbers are taken over the rows of an organisation and a
    KPI, the groups also split by organisation name.  So a group gets
    [NULL] as first value when each of its rows has an earlier row of the
    same organisation and KPI (under whatever name), [NULL] as last value
    when each has a later one, and in both cases [NULL] as delta. *)
Theorem X23_group_without_first_or_last_row_has_null_delta
    (today_minus_30 year_now : Z) (table : list kpi_row) (d : delta_row) :
  d ∈ fetch_kpis today_minus_30 year_now table ->
  ((forall r, r ∈ partition_of today_minus_30 year_now
                    (d_organization_id d) (d_kpi d) table ->
              organization_name r = d_organization_name d ->
              exists r', r' ∈ partition_of today_minus_30 year_now
                                (d_organization_id d) (d_kpi d) table
                         /\ run_timestamp r' < run_timestamp r) ->
   first_value d = None /\ delta d = None)
  /\ ((forall r, r ∈ partition_of today_minus_30 year_now
                       (d_organization_id d) (d_kpi d) table ->
                 organization_name r = d_organization_name d ->
                 exists r', r' ∈ partition_of today_minus_30 year_now
                                   (d_organization_id d) (d_kpi d) table
                            /\ run_timestamp r < run_timestamp r') ->
      last_value d = None /\ delta d = None).
Proof.
  intros Hd. split.
  - apply fetch_kpis_no_first. exact Hd.
  - apply fetch_kpis_no_last. exact Hd.
Qed.

(** The theorem at work: the organisation was renamed between its two
    snapshots; the group of the new name has no first value. *)
Lemma X23_witness_group_of_the_new_name :
  first_value {| d_organization_id := "org-1";
                 d_organization_name := "Acme GmbH";
                 d_kpi := "Number of log entries";
                 first_value := None;
                 last_value := Some 25;
                 delta := None |} = None
  /\ delta {| d_organization_id := "org-1";
              d_organization_name := "Acme GmbH";
              d_kpi := "Number of log entries";
              first_value := None;
              last_value := Some 25;
              delta := None |} = None.
Proof.
  apply (X23_group_without_first_or_last_row_has_null_delta 0 2025
           Runs.snapshots_renamed).
  - vm_compute. right. left.
  - assert (Hp : partition_of 0 2025 "org-1" "Number of log entries"
                   Runs.snapshots_renamed
                 = Runs.snapshots_renamed) by reflexivity.
    cbn [d_organization_id d_kpi d_organization_name]. rewrite Hp.
    intros r Hr Hn. exists (Runs.snapshot 1 10 "Acme"). split; [left|].
    unfold Runs.snapshots_renamed in Hr.
    repeat (apply elem_of_cons in Hr as [->|Hr]); [discriminate Hn|simpl; lia|].
    inversion Hr.
Defined.

(** X24.  From the table to the CRM, for a renamed organisation: when the
    one earliest and the one latest row of an organisation and a KPI in the
    window carry different names and the CRM finds the organisation, the
    run, when no call raises, updates the company with the property of that
    KPI set to null. *)
Theorem X24_renamed_organisation_gets_null
    (search_company : string -> option (list crm_object))
    (update_company_properties : nat -> bool)
    (today_minus_30 year_now : Z) (table : list kpi_row) (org k : string)
    (r_first r_last : kpi_row) (c : crm_object) (rest : list crm_object) :
  (forall o, search_company o <> None) ->
  (forall j, update_company_properties j = true) ->
  r_first ∈ partition_of today_minus_30 year_now org k table ->
  r_last ∈ partition_of today_minus_30 year_now org k table ->
  (forall r, r ∈ partition_of today_minus_30 year_now org k table ->
             r <> r_first -> run_timestamp r_first < run_timestamp r) ->
  (forall r, r ∈ partition_of today_minus_30 year_now org k table ->
             r <> r_last -> run_timestamp r < run_timestamp r_last) ->
  organization_name r_first <> organization_name r_last ->
  search_company org = Some (c :: rest) ->
  exists properties,
    DBKpiMain.UpdateCompanyProperties (obj_id c) properties
    ∈ (DBKpiMain.main search_company update_company_properties
         (fetch_kpis today_minus_30 year_now table)).2
    /\ PyDict.get (property_of k) properties = Some None.
Proof.
  intros Hsearch Hupdate Hf Hl Hearliest Hlatest Hnames Hfound.
  assert (Hk : k ∈ tracked_kpis).
  { apply (partition_tracked today_minus_30 year_now table org k).
    intros Hnil. rewrite Hnil in Hf. inversion Hf. }
  set (result := fetch_kpis today_minus_30 year_now table).
  assert (Hnull : forall d, d ∈ deltas_of org k result -> delta d = None).
  { intros d Hd. unfold deltas_of in Hd. apply list_elem_of_In, filter_In in Hd.
    destruct Hd as [Hd Hkey]. apply list_elem_of_In in Hd.
    apply andb_true_iff in Hkey. destruct Hkey as [Ho Hkk].
    apply bool_decide_eq_true in Ho, Hkk.
    destruct (decide (d_organization_name d = organization_name r_first)) as [Hn|Hn].
    - apply (fetch_kpis_no_last today_minus_30 year_now table d Hd).
      rewrite Ho, Hkk. intros r Hr Hrn. exists r_last. split; [exact Hl|].
      apply Hlatest; [exact Hr|]. intros ->. congruence.
    - apply (fetch_kpis_no_first today_minus_30 year_now table d Hd).
      rewrite Ho, Hkk. intros r Hr Hrn. exists r_first. split; [exact Hf|].
      apply Hearliest; [exact Hr|]. intros ->. congruence. }
  assert (Hsome : exists d, d ∈ deltas_of org k result).
  { pose proof Hf as Hf'. apply partition_of_elem in Hf'. destruct Hf' as [Hw Hpart].
    apply in_part_true in Hpart. destruct Hpart as [Ho Hkk].
    apply list_elem_of_In, filter_In in Hw. destruct Hw as [Ht Hw].
    assert (Hg : row_group r_first ∈ map result_group result).
    { apply result_groups_elem. exists r_first.
      unfold in_window in Hw. rewrite !andb_true_iff, Z.ltb_lt, Z.eqb_eq in Hw.
      rewrite bool_decide_eq_true in Hw. apply list_elem_of_In in Ht. tauto. }
    apply list_elem_of_In, in_map_iff in Hg. destruct Hg as (d & Hg & Hd).
    exists d. unfold deltas_of. apply list_elem_of_In, filter_In. split; [exact Hd|].
    unfold result_group, row_group in Hg. injection Hg as Hgo _ Hgk.
    rewrite !bool_decide_true by congruence. reflexivity. }
  pose proof (stored_delta_fold org k result []) as Hs.
  destruct (last (deltas_of org k result)) as [d|] eqn:Hlast.
  - assert (Hd : d ∈ deltas_of org k result).
    { apply last_Some in Hlast. destruct Hlast as [l' ->].
      apply elem_of_app. right. left. }
    rewrite (Hnull d Hd) in Hs.
    apply (stored_delta_pushed search_company update_company_properties result org k
             None c rest Hsearch Hupdate Hk Hfound Hs).
  - apply last_None in Hlast. destruct Hsome as [d Hd]. rewrite Hlast in Hd.
    inversion Hd.
Qed.

(** The theorem at work: the snapshots of the renamed organisation, which
    the CRM knows as company 901. *)
Lemma X24_witness_renamed_organisation :
  exists properties,
    DBKpiMain.UpdateCompanyProperties (Some "901") properties
    ∈ (DBKpiMain.main MoreRuns.search_never_raises (fun _ => true)
         (fetch_kpis 0 2025 Runs.snapshots_renamed)).2
    /\ PyDict.get "number_log_entries_past_30_days" properties = Some None.
Proof.
  assert (Hp : partition_of 0 2025 "org-1" "Number of log entries"
                 Runs.snapshots_renamed
               = Runs.snapshots_renamed) by reflexivity.
  apply (X24_renamed_organisation_gets_null
           MoreRuns.search_never_raises (fun _ => true)
           0 2025 Runs.snapshots_renamed "org-1" "Number of log entries"
           (Runs.snapshot 1 10 "Acme") (Runs.snapshot 2 25 "Acme GmbH")
           {| obj_id := Some "901"; obj_properties := [("name", "Acme")] |} []).
  - intros o. unfold MoreRuns.search_never_raises.
    destruct (String.eqb o "org-1"); discriminate.
  - reflexivity.
  - rewrite Hp. left.
  - rewrite Hp. right. left.
  - rewrite Hp. intros r Hr Hne. unfold Runs.snapshots_renamed in Hr.
    repeat (apply elem_of_cons in Hr as [->|Hr]); [congruence|simpl; lia|].
    inversion Hr.
  - rewrite Hp. intros r Hr Hne. unfold Runs.snapshots_renamed in Hr.
    repeat (apply elem_of_cons in Hr as [->|Hr]); [simpl; lia|congruence|].
    inversion Hr.
  - discriminate.
  - reflexivity.
Defined.

(** ** The object calls on top of the retry loop *)

Lemma hub_request_final (float : string -> option Q) (max_retries : Z)
    (backoff_base : Q) (send : nat -> outcome) (k : nat) (resp : Response) :
  (forall j, (j < k)%nat -> retried float max_retries backoff_base send j) ->
  Z.of_nat k <= max_retries ->
  send k = Answer resp ->
  status_code resp <> 429 \/ Z.of_nat k = max_retries ->
  HubSpotConnector._request float max_retries backoff_base send
  = (Return resp,
     {| slept := map (delay_after float backoff_base send) (seq 0 k); calls := S k |}).
Proof.
  intros Hj Hk Hsend Hfinal.
  assert (Hgo : (status_code resp =? 429) && (Z.of_nat k <? max_retries) = false).
  { destruct Hfinal as [Hne|Hlast].
    - apply Z.eqb_neq in Hne. rewrite Hne. reflexivity.
    - rewrite (proj2 (Z.ltb_ge (Z.of_nat k) max_retries)) by lia.
      apply andb_false_r. }
  destruct (hub_request_at float max_retries backoff_base send k Hk Hj)
    as (le & m & tr_k & H1 & H2 & ->).
  cbn [HubSpotConnector.request_loop]. rewrite Hsend, Hgo.
  unfold called. rewrite H1, H2. reflexivity.
Qed.

(** X25.  [get_object], [get_associations] and [update_object] never raise
    for a status: whatever answer ends the retry loop, a 429 after the last
    retry included, they return the body for a 200 and [None] for any other
    status, after one call per attempt.  [update_object] with no property
    raises [ValueError] before any request. *)
Theorem X25_object_calls_return_none_for_any_other_status
    (float : string -> option Q) (max_retries : Z) (backoff_base : Q)
    (send : nat -> outcome) (k : nat) (resp : Response)
    (property : string * string) (properties : list (string * string)) :
  (forall j, (j < k)%nat -> retried float max_retries backoff_base send j) ->
  Z.of_nat k <= max_retries ->
  send k = Answer resp ->
  status_code resp <> 429 \/ Z.of_nat k = max_retries ->
  let value := if status_code resp =? 200 then Some (json resp) else None in
  let tr := {| slept := map (delay_after float backoff_base send) (seq 0 k);
               calls := S k |} in
  HubSpotObjects.get_object float max_retries backoff_base send
  = (HubSpotObjects.Returned value, tr)
  /\ HubSpotObjects.get_associations float max_retries backoff_base send
     = (HubSpotObjects.Returned value, tr)
  /\ HubSpotObjects.update_object float max_retries backoff_base send
       (property :: properties)
     = (HubSpotObjects.Returned value, tr)
  /\ HubSpotObjects.update_object float max_retries backoff_base send []
     = (HubSpotObjects.Raised ValueError, no_trace).
Proof.
  intros Hj Hk Hsend Hfinal value tr.
  pose proof (hub_request_final float max_retries backoff_base send k resp
                Hj Hk Hsend Hfinal) as Hreq.
  unfold HubSpotObjects.get_object, HubSpotObjects.get_associations,
    HubSpotObjects.update_object.
  rewrite Hreq. subst value tr.
  destruct (status_code resp =? 200); repeat split; reflexivity.
Qed.

(** The theorem at work: rate limited at every attempt, the calls return
    [None] after four attempts. *)
Lemma X25_witness_rate_limited_to_the_end :
  HubSpotObjects.get_associations float_of_digits DEFAULT_MAX_RETRIES
    DEFAULT_BACKOFF_BASE MoreRuns.always_rate_limited
  = (HubSpotObjects.Returned None,
     {| slept := map (delay_after float_of_digits DEFAULT_BACKOFF_BASE
                        MoreRuns.always_rate_limited) (seq 0 3);
        calls := 4 |}).
Proof.
  apply (X25_object_calls_return_none_for_any_other_status
           float_of_digits DEFAULT_MAX_RETRIES DEFAULT_BACKOFF_BASE
           MoreRuns.always_rate_limited 3 Runs.rate_limited ("", "") []).
  - intros j Hj. split; [unfold DEFAULT_MAX_RETRIES; lia|].
    split; [reflexivity|]. exists (backoff DEFAULT_BACKOFF_BASE j).
    split; [reflexivity|]. unfold backoff. apply Qpower_0_le. discriminate.
  - reflexivity.
  - reflexivity.
  - right. reflexivity.
Defined.

(** ** The delta row of a partition with one organisation name *)

(** X26.  The query groups by organisation id, organisation name and KPI.
    For a non-empty partition whose rows carry one organisation name it
    returns one delta row: [first_value] is the
    value of a row with the earliest timestamp, [last_value] the value of a
    row with the latest timestamp, and [delta] their difference; a
    partition of one row gives equal values and delta 0; and when the
    timestamps of the partition are pairwise distinct the delta row is the
    same for every ordering of the table. *)
Theorem X26_single_name_partition_gets_earliest_and_latest
    (today_minus_30 year_now : Z) (table : list kpi_row) (org k name : string) :
  partition_of today_minus_30 year_now org k table <> [] ->
  (forall r, r ∈ partition_of today_minus_30 year_now org k table ->
             organization_name r = name) ->
  exists r_first r_last,
    r_first ∈ partition_of today_minus_30 year_now org k table
    /\ r_last ∈ partition_of today_minus_30 year_now org k table
    /\ (forall r, r ∈ partition_of today_minus_30 year_now org k table ->
          run_timestamp r_first <= run_timestamp r <= run_timestamp r_last)
    /\ deltas_of org k (fetch_kpis today_minus_30 year_now table)
       = [ {| d_organization_id := org;
              d_organization_name := name;
              d_kpi := k;
              first_value := Some (value r_first);
              last_value := Some (value r_last);
              delta := Some (value r_last - value r_first) |} ]
    /\ (forall r, partition_of today_minus_30 year_now org k table = [r] ->
          deltas_of org k (fetch_kpis today_minus_30 year_now table)
          = [ {| d_organization_id := org;
                 d_organization_name := name;
                 d_kpi := k;
                 first_value := Some (value r);
                 last_value := Some (value r);
                 delta := Some 0 |} ])
    /\ (NoDup (map run_timestamp (partition_of today_minus_30 year_now org k table)) ->
        forall table', table' ≡ₚ table ->
          deltas_of org k (fetch_kpis today_minus_30 year_now table')
          = deltas_of org k (fetch_kpis today_minus_30 year_now table)).
Proof.
  intros Hne Hname.
  destruct (fetch_kpis_partition today_minus_30 year_now table org k name Hne Hname)
    as (r_first & r_last & Hf & Hl & Hrange & Hrow).
  exists r_first, r_last.
  split; [exact Hf|]. split; [exact Hl|]. split; [exact Hrange|].
  split; [exact Hrow|]. split.
  - intros r Hone. rewrite Hone in Hf, Hl.
    apply list_elem_of_singleton in Hf, Hl. subst r_first r_last.
    rewrite Hrow, Z.sub_diag. reflexivity.
  - intros Hnd table' Hperm.
    assert (Hsame : forall r,
               r ∈ partition_of today_minus_30 year_now org k table'
               <-> r ∈ partition_of today_minus_30 year_now org k table).
    { intros r. rewrite !partition_of_elem, !list_elem_of_In, !filter_In,
        <- !list_elem_of_In.
      rewrite Hperm. reflexivity. }
    destruct (fetch_kpis_partition today_minus_30 year_now table' org k name)
      as (r_first' & r_last' & Hf' & Hl' & Hrange' & Hrow').
    + intros Hnil. apply Hsame in Hf. rewrite Hnil in Hf. inversion Hf.
    + intros r Hr. apply Hname, Hsame. exact Hr.
    + apply Hsame in Hf', Hl'.
      assert (r_first' = r_first) as ->.
      { apply (NoDup_map_inj run_timestamp _ _ _ Hnd Hf' Hf).
        pose proof (Hrange r_first' Hf'). pose proof (Hrange' r_first (proj2 (Hsame _) Hf)).
        lia. }
      assert (r_last' = r_last) as ->.
      { apply (NoDup_map_inj run_timestamp _ _ _ Hnd Hl' Hl).
        pose proof (Hrange r_last' Hl'). pose proof (Hrange' r_last (proj2 (Hsame _) Hl)).
        lia. }
      rewrite Hrow, Hrow'. reflexivity.
Qed.

(** The theorem at work: the snapshots [(t3,40), (t1,10), (t2,25)]. *)
Lemma X26_witness_three_snapshots :
  deltas_of "org-1" "Number of log entries"
    (fetch_kpis 0 2025 Runs.snapshots_shuffled)
  = [ {| d_organization_id := "org-1";
         d_organization_name := "Acme";
         d_kpi := "Number of log entries";
         first_value := Some 10;
         last_value := Some 40;
         delta := Some 30 |} ].
Proof.
  assert (Hp : partition_of 0 2025 "org-1" "Number of log entries"
                 Runs.snapshots_shuffled
               = Runs.snapshots_shuffled) by reflexivity.
  destruct (X26_single_name_partition_gets_earliest_and_latest
              0 2025 Runs.snapshots_shuffled "org-1" "Number of log entries" "Acme")
    as (r_first & r_last & Hf & Hl & Hrange & Hrow & _).
  - rewrite Hp. discriminate.
  - rewrite Hp. intros r Hr. unfold Runs.snapshots_shuffled in Hr.
    repeat (apply elem_of_cons in Hr as [->|Hr]); try reflexivity. inversion Hr.
  - rewrite Hp in Hf, Hl, Hrange.
    pose proof (Hrange (Runs.snapshot 1 10 "Acme") ltac:(right; left)) as H1.
    pose proof (Hrange (Runs.snapshot 3 40 "Acme") ltac:(left)) as H3.
    unfold Runs.snapshots_shuffled in Hf, Hl.
    repeat (apply elem_of_cons in Hf as [->|Hf]); try (inversion Hf);
      try (simpl in H1, H3; lia).
    repeat (apply elem_of_cons in Hl as [->|Hl]); try (inversion Hl);
      try (simpl in H1, H3; lia).
    exact Hrow.
Defined.
